(** * RFM95W / SX127x LoRa driver (namespace [Lora], rfm95w.ts)

    A shallow embedding of the MakeCode driver and the properties of its
    register-level behaviour.

    Layout of the development:
    - [JsNum]  : the 32-bit integer operators of the source ([&], [|], [<<], [>>]);
    - the SX127x chip as seen over SPI (register file, FIFO, chip select,
      reset line) and the micro:bit runtime services the driver calls;
    - the driver itself, function by function, in a small state monad;
    - the transition system of driver calls and radio events;
    - the theorems. *)

From Stdlib Require Import ZArith List Bool Lia String Ascii QArith.
Import ListNotations.
#[local] Open Scope Z_scope.

(* ------------------------------------------------------------------ *)
(** ** Integer operators of the source language *)

Module JsNum.

(** ToInt32: the wrap-around applied to both operands of a bit operator. *)
Definition to_int32 (x : Z) : Z := (x + 2147483648) mod 4294967296 - 2147483648.

Definition and (a b : Z) : Z := Z.land (to_int32 a) (to_int32 b).
Definition or (a b : Z) : Z := Z.lor (to_int32 a) (to_int32 b).
(** [a << b] and [a >> b]: the shift count is taken modulo 32. *)
Definition shl (a b : Z) : Z := to_int32 (Z.shiftl (to_int32 a) (Z.land b 31)).
Definition shr (a b : Z) : Z := Z.shiftr (to_int32 a) (Z.land b 31).

Definition max (a b : Z) : Z := Z.max a b.
Definition min (a b : Z) : Z := Z.min a b.

End JsNum.

Notation "a .& b" := (JsNum.and a b) (at level 40, left associativity).
Notation "a .| b" := (JsNum.or a b) (at level 50, left associativity).
Notation "a .<< b" := (JsNum.shl a b) (at level 40, left associativity).
Notation "a .>> b" := (JsNum.shr a b) (at level 40, left associativity).

(** The eight bits that one SPI transfer carries ([pins.spiFormat(8, 0)]). *)
Definition byte (v : Z) : Z := Z.land v 255.

(* ------------------------------------------------------------------ *)
(** ** Enumerations of the public interface *)

Inductive Band := EU868 | AU915.

Definition Band_val (b : Band) : Z :=
  match b with EU868 => 868 | AU915 => 915 end.

(** [SpreadingFactor], [Bandwidth] and [CodingRate] are numeric enums: the
    functions receive the number, and nothing in the source checks that it
    is one of the listed members.  They are kept as [Z]. *)
Definition SF7 := 7.
Definition SF8 := 8.
Definition SF9 := 9.
Definition SF10 := 10.
Definition SF11 := 11.
Definition SF12 := 12.

Definition BW7k8 := 0.
Definition BW10k4 := 1.
Definition BW15k6 := 2.
Definition BW20k8 := 3.
Definition BW31k25 := 4.
Definition BW41k7 := 5.
Definition BW62k5 := 6.
Definition BW125k := 7.
Definition BW250k := 8.
Definition BW500k := 9.

Definition CR45 := 1.
Definition CR46 := 2.
Definition CR47 := 3.
Definition CR48 := 4.

(* ------------------------------------------------------------------ *)
(** ** Register map and constants *)

Definition REG_FIFO := 0x00.
Definition REG_OP_MODE := 0x01.
Definition REG_FRF_MSB := 0x06.
Definition REG_FRF_MID := 0x07.
Definition REG_FRF_LSB := 0x08.
Definition REG_PA_CONFIG := 0x09.
Definition REG_LNA := 0x0C.
Definition REG_FIFO_ADDR_PTR := 0x0D.
Definition REG_FIFO_TX_BASE_ADDR := 0x0E.
Definition REG_FIFO_RX_BASE_ADDR := 0x0F.
Definition REG_FIFO_RX_CURRENT_ADDR := 0x10.
Definition REG_IRQ_FLAGS := 0x12.
Definition REG_RX_NB_BYTES := 0x13.
Definition REG_PKT_SNR_VALUE := 0x19.
Definition REG_PKT_RSSI_VALUE := 0x1A.
Definition REG_RSSI_VALUE := 0x1B.
Definition REG_MODEM_CONFIG_1 := 0x1D.
Definition REG_MODEM_CONFIG_2 := 0x1E.
Definition REG_PREAMBLE_MSB := 0x20.
Definition REG_PREAMBLE_LSB := 0x21.
Definition REG_PAYLOAD_LENGTH := 0x22.
Definition REG_MODEM_CONFIG_3 := 0x26.
Definition REG_SYNC_WORD := 0x39.
Definition REG_DIO_MAPPING_1 := 0x40.
Definition REG_VERSION := 0x42.
Definition REG_PA_DAC := 0x4D.

Definition MODE_LONG_RANGE := 0x80.
Definition MODE_SLEEP := 0x00.
Definition MODE_STDBY := 0x01.
Definition MODE_TX := 0x03.
Definition MODE_RX_CONTINUOUS := 0x05.

Definition IRQ_RX_DONE := 0x40.
Definition IRQ_TX_DONE := 0x08.
Definition IRQ_PAYLOAD_CRC_ERROR := 0x20.
Definition IRQ_CLEAR_ALL := 0xFF.

(** Bandwidth in kHz times 100, indexed by the bandwidth code. *)
Definition BW_KHZ_X100 : list Z :=
  [780; 1040; 1560; 2080; 3125; 4170; 6250; 12500; 25000; 50000].

Definition LORA_EVENT_ID := 3110.
Definition INT_DIO0 := 0.
Definition APP_TX := 2.

(* ------------------------------------------------------------------ *)
(** ** The chip, as the driver sees it over SPI *)

Inductive DigitalPin := P1 | P8 | P13 | P14 | P15 | P16.

(** One register access, as the chip decodes it from the bus. *)
Inductive Access :=
| RegRd (addr v : Z)
| RegWr (addr v : Z).

(** Where the chip is in an SPI frame: not selected, selected and waiting
    for the address byte, or streaming data bytes at an address. *)
Inductive SpiPhase :=
| SpiIdle
| SpiAddr
| SpiData (wr : bool) (addr : Z).

Record Chip := mkChip {
  regs : Z -> Z;          (* register file, addresses 0x01..0x7F *)
  fifo : Z -> Z;          (* the 256-byte packet buffer behind REG_FIFO *)
  por : Z -> Z;           (* register values after a reset pulse *)
  phase : SpiPhase;
  accesses : list Access  (* every access decoded so far, oldest first *)
}.

Definition upd (f : Z -> Z) (a v : Z) : Z -> Z :=
  fun x => if x =? a then v else f x.

(** A data byte read at address [a].  The FIFO port returns the byte under
    the FIFO address pointer and advances the pointer. *)
Definition chip_read (a : Z) (c : Chip) : Z * Chip :=
  if a =? REG_FIFO then
    let p := byte (regs c REG_FIFO_ADDR_PTR) in
    let v := byte (fifo c p) in
    (v, mkChip (upd (regs c) REG_FIFO_ADDR_PTR (byte (p + 1))) (fifo c) (por c)
               (phase c) (accesses c ++ [RegRd a v]))
  else
    let v := byte (regs c a) in
    (v, mkChip (regs c) (fifo c) (por c) (phase c) (accesses c ++ [RegRd a v])).

(** A data byte written at address [a].  The FIFO port stores under the
    pointer and advances it; the IRQ flag register clears the flags whose
    bit is written as 1; every other register stores the byte. *)
Definition chip_write (a v : Z) (c : Chip) : Chip :=
  let log := accesses c ++ [RegWr a v] in
  if a =? REG_FIFO then
    let p := byte (regs c REG_FIFO_ADDR_PTR) in
    mkChip (upd (regs c) REG_FIFO_ADDR_PTR (byte (p + 1))) (upd (fifo c) p v)
           (por c) (phase c) log
  else if a =? REG_IRQ_FLAGS then
    mkChip (upd (regs c) a (Z.land (byte (regs c a)) (Z.lxor 255 v))) (fifo c)
           (por c) (phase c) log
  else
    mkChip (upd (regs c) a v) (fifo c) (por c) (phase c) log.

Definition set_phase (p : SpiPhase) (c : Chip) : Chip :=
  mkChip (regs c) (fifo c) (por c) p (accesses c).

(** In a burst the address advances after each byte, except on the FIFO
    port, which stays put. *)
Definition next_addr (a : Z) : Z :=
  if a =? REG_FIFO then REG_FIFO else Z.land (a + 1) 127.

(** One 8-bit SPI exchange: the byte the host shifts out and the byte the
    chip shifts back. *)
Definition chip_xfer (out : Z) (c : Chip) : Z * Chip :=
  let b := byte out in
  match phase c with
  | SpiIdle => (0, c)
  | SpiAddr => (0, set_phase (SpiData (Z.testbit b 7) (Z.land b 127)) c)
  | SpiData true a =>
      (0, set_phase (SpiData true (next_addr a)) (chip_write a b c))
  | SpiData false a =>
      let '(v, c') := chip_read a c in
      (v, set_phase (SpiData false (next_addr a)) c')
  end.

(** The NSS line frames a transaction; a low level on RST puts every
    register back to its reset value. *)
Definition chip_nss (level : Z) (c : Chip) : Chip :=
  set_phase (if level =? 0 then SpiAddr else SpiIdle) c.

Definition chip_rst (level : Z) (c : Chip) : Chip :=
  if level =? 0 then mkChip (por c) (fifo c) (por c) (phase c) (accesses c) else c.

(* ------------------------------------------------------------------ *)
(** ** Driver globals, runtime services and the state monad *)

(** Application handlers are closures the driver never inspects; a handler
    is identified by a number. *)
Definition HandlerId := nat.

(** What can be bound to a runtime event: the driver's own deferred DIO0
    handler, or a handler of the application. *)
Inductive Callback :=
| CbDio0
| CbApp (h : HandlerId).

Inductive PinPullMode := PullDown | PullUp | PullNone.
Inductive PulseValue := High | Low.

(** The closure the receive path hands to [control.runInBackground]: it
    calls whatever [_rxHandler] holds when it runs, with the message. *)
Inductive Task :=
| CallRxHandler (msg : string).

(** The module-level variables of the namespace. *)
Record Globals := mkGlobals {
  _inited : bool;
  _rxHandler : option HandlerId;
  _lastRssi : Z;
  _lastSnrRaw : Z;
  _sf : Z;
  _bwCode : Z
}.

(** The wiring variables are never assigned after their declaration. *)
Definition _nss := P16.
Definition _rst := P8.
Definition _dio0 := P1.

(** What the micro:bit runtime holds for the driver: the pins on which
    [dio0_pulse] is the pulse handler, the event bindings, the events
    raised so far and the tasks handed to [control.runInBackground]. *)
Record Runtime := mkRuntime {
  pulses : list (DigitalPin * PulseValue);
  bindings : list (Z * Z * Callback);
  raised : list (Z * Z);
  spawned : list Task
}.

Record World := mkWorld {
  globals : Globals;
  chip : Chip;
  runtime : Runtime
}.

Definition initial_globals : Globals := mkGlobals false None 0 0 7 7.
Definition initial_runtime : Runtime := mkRuntime [] [] [] [].

Definition M (A : Type) : Type := World -> A * World.

Definition ret {A} (a : A) : M A := fun w => (a, w).
Definition bind {A B} (m : M A) (k : A -> M B) : M B :=
  fun w => let '(a, w') := m w in k a w'.
Definition exec {A} (m : M A) (w : World) : World := snd (m w).
Definition eval {A} (m : M A) (w : World) : A := fst (m w).

Notation "x <- m ;; k" := (bind m (fun x => k))
  (at level 61, m at next level, right associativity).
Notation "m ;; k" := (bind m (fun _ => k))
  (at level 61, right associativity).

Definition read_global {A} (f : Globals -> A) : M A := fun w => (f (globals w), w).
Definition write_globals (f : Globals -> Globals) : M unit :=
  fun w => (tt, mkWorld (f (globals w)) (chip w) (runtime w)).
Definition on_chip (f : Chip -> Chip) : M unit :=
  fun w => (tt, mkWorld (globals w) (f (chip w)) (runtime w)).
Definition on_runtime (f : Runtime -> Runtime) : M unit :=
  fun w => (tt, mkWorld (globals w) (chip w) (f (runtime w))).

Definition set_inited (b : bool) (g : Globals) : Globals :=
  mkGlobals b (_rxHandler g) (_lastRssi g) (_lastSnrRaw g) (_sf g) (_bwCode g).
Definition set_rxHandler (h : option HandlerId) (g : Globals) : Globals :=
  mkGlobals (_inited g) h (_lastRssi g) (_lastSnrRaw g) (_sf g) (_bwCode g).
Definition set_lastRssi (v : Z) (g : Globals) : Globals :=
  mkGlobals (_inited g) (_rxHandler g) v (_lastSnrRaw g) (_sf g) (_bwCode g).
Definition set_lastSnrRaw (v : Z) (g : Globals) : Globals :=
  mkGlobals (_inited g) (_rxHandler g) (_lastRssi g) v (_sf g) (_bwCode g).
Definition set_sf (v : Z) (g : Globals) : Globals :=
  mkGlobals (_inited g) (_rxHandler g) (_lastRssi g) (_lastSnrRaw g) v (_bwCode g).
Definition set_bwCode (v : Z) (g : Globals) : Globals :=
  mkGlobals (_inited g) (_rxHandler g) (_lastRssi g) (_lastSnrRaw g) (_sf g) v.

Module pins.

(** The breakout is wired with NSS on P16 and RST on P8; the other pins
    do not reach the chip's register interface. *)
Definition digitalWritePin (p : DigitalPin) (v : Z) : M unit :=
  match p with
  | P16 => on_chip (chip_nss v)
  | P8 => on_chip (chip_rst v)
  | _ => ret tt
  end.

Definition spiWrite (v : Z) : M Z :=
  fun w => let '(r, c) := chip_xfer v (chip w) in
           (r, mkWorld (globals w) c (runtime w)).

(** Bus set-up: pins, clock and the 8-bit mode-0 format assumed by
    [chip_xfer]. *)
Definition spiPins (mosi miso sck : DigitalPin) : M unit := ret tt.
Definition spiFrequency (hz : Z) : M unit := ret tt.
Definition spiFormat (bits mode : Z) : M unit := ret tt.

Definition setPull (p : DigitalPin) (pull : PinPullMode) : M unit := ret tt.

(** The only pulse handler of the driver is [dio0_pulse]; the pin and the
    level it is registered for are recorded. *)
Definition onPulsed (p : DigitalPin) (pulse : PulseValue) : M unit :=
  on_runtime (fun r =>
    mkRuntime (pulses r ++ [(p, pulse)]) (bindings r) (raised r) (spawned r)).

End pins.

Module basic.
Definition pause (ms : Z) : M unit := ret tt.
End basic.

Module control.

(** The bindings are kept in registration order. *)
Definition onEvent (src value : Z) (cb : Callback) : M unit :=
  on_runtime (fun r =>
    mkRuntime (pulses r) (bindings r ++ [(src, value, cb)]) (raised r) (spawned r)).

Definition raiseEvent (src value : Z) : M unit :=
  on_runtime (fun r =>
    mkRuntime (pulses r) (bindings r) (raised r ++ [(src, value)]) (spawned r)).

Definition runInBackground (t : Task) : M unit :=
  on_runtime (fun r =>
    mkRuntime (pulses r) (bindings r) (raised r) (spawned r ++ [t])).

(** A string is its sequence of UTF-8 bytes. *)
Definition createBufferFromUTF8 (s : string) : list Z :=
  map (fun c => Z.of_N (N_of_ascii c)) (list_ascii_of_string s).

End control.

Definition Buffer_toString (b : list Z) : string :=
  string_of_list_ascii (map (fun v => ascii_of_N (Z.to_N (byte v))) b).

(* ------------------------------------------------------------------ *)
(** ** The driver *)

Definition csSelect : M unit := pins.digitalWritePin _nss 0.
Definition csDeselect : M unit := pins.digitalWritePin _nss 1.

Definition spiInit : M unit :=
  pins.spiPins P15 P14 P13 ;;
  pins.spiFrequency 1000000 ;;
  pins.spiFormat 8 0 ;;
  pins.digitalWritePin _nss 1.

Definition readReg (addr : Z) : M Z :=
  csSelect ;;
  pins.spiWrite (addr .& 0x7F) ;;
  v <- pins.spiWrite 0x00 ;;
  csDeselect ;;
  ret v.

Definition writeReg (addr value : Z) : M unit :=
  csSelect ;;
  pins.spiWrite (addr .| 0x80) ;;
  pins.spiWrite value ;;
  csDeselect.

(** [for (let i = 0; i < buf.length; i++) pins.spiWrite(buf[i])] *)
Fixpoint spiWriteAll (buf : list Z) : M unit :=
  match buf with
  | [] => ret tt
  | b :: rest => pins.spiWrite b ;; spiWriteAll rest
  end.

Definition burstWrite (addr : Z) (buf : list Z) : M unit :=
  csSelect ;;
  pins.spiWrite (addr .| 0x80) ;;
  spiWriteAll buf ;;
  csDeselect.

(** [for (let i = 0; i < len; i++) out[i] = pins.spiWrite(0x00)] *)
Fixpoint spiReadN (n : nat) : M (list Z) :=
  match n with
  | O => ret []
  | S n' => v <- pins.spiWrite 0x00 ;; rest <- spiReadN n' ;; ret (v :: rest)
  end.

Definition burstRead (addr len : Z) : M (list Z) :=
  csSelect ;;
  pins.spiWrite (addr .& 0x7F) ;;
  out <- spiReadN (Z.to_nat len) ;;
  csDeselect ;;
  ret out.

Definition resetChip : M unit :=
  pins.digitalWritePin _rst 0 ;;
  basic.pause 2 ;;
  pins.digitalWritePin _rst 1 ;;
  basic.pause 10.

Definition setMode (mode : Z) : M unit :=
  writeReg REG_OP_MODE (MODE_LONG_RANGE .| mode).

(** [Math.floor(freqHz * 524288 / 32000000)]: for the two bands every
    intermediate value is an integer below 2^53 and the quotient is a whole
    number, so the arithmetic of the source is exact and is integer
    arithmetic with floor division. *)
Definition frf_of_mhz (mhz : Z) : Z :=
  let freqHz := mhz * 1000000 in
  (freqHz * 524288) / 32000000.

Definition setFrequencyMHz (mhz : Z) : M unit :=
  let frf := frf_of_mhz mhz in
  writeReg REG_FRF_MSB ((frf .>> 16) .& 0xFF) ;;
  writeReg REG_FRF_MID ((frf .>> 8) .& 0xFF) ;;
  writeReg REG_FRF_LSB (frf .& 0xFF).

(** [((1 << _sf) * 100) > (16 * BW_KHZ_X100[_bwCode])].  An index outside
    the table reads [undefined]; the product is then NaN and the comparison
    false. *)
Definition needLdro (sf bwCode : Z) : bool :=
  if (0 <=? bwCode) then
    match nth_error BW_KHZ_X100 (Z.to_nat bwCode) with
    | Some khz100 => (16 * khz100) <? ((1 .<< sf) * 100)
    | None => false
    end
  else false.

Definition applyLdro : M unit :=
  sf <- read_global _sf ;;
  bw <- read_global _bwCode ;;
  v <- readReg REG_MODEM_CONFIG_3 ;;
  writeReg REG_MODEM_CONFIG_3 (if needLdro sf bw then (v .| 0x08) else (v .& 0xF7)).

Definition configRadioDefaults (band : Band) : M unit :=
  writeReg REG_FIFO_TX_BASE_ADDR 0x00 ;;
  writeReg REG_FIFO_RX_BASE_ADDR 0x00 ;;
  writeReg REG_FIFO_ADDR_PTR 0x00 ;;
  writeReg REG_PREAMBLE_MSB 0x00 ;;
  writeReg REG_PREAMBLE_LSB 0x08 ;;
  writeReg REG_SYNC_WORD 0x34 ;;
  (match band with
   | EU868 => setFrequencyMHz 868
   | _ => setFrequencyMHz 915
   end) ;;
  writeReg REG_MODEM_CONFIG_1 0x72 ;;
  writeReg REG_MODEM_CONFIG_2 0x74 ;;
  writeReg REG_MODEM_CONFIG_3 0x04 ;;
  lna <- readReg REG_LNA ;;
  writeReg REG_LNA (lna .| 0x03) ;;
  writeReg REG_PA_CONFIG (0x80 .| 0x0F) ;;
  writeReg REG_PA_DAC 0x84 ;;
  writeReg REG_DIO_MAPPING_1 0x00.

Definition setDio0Mapping (mapping : Z) : M unit :=
  v <- readReg REG_DIO_MAPPING_1 ;;
  let v := (v .& 0x3F) .| ((mapping .& 0x03) .<< 6) in
  writeReg REG_DIO_MAPPING_1 v.

(** The handler bound to the pulse on DIO0: it only raises the event. *)
Definition dio0_pulse : M unit :=
  control.raiseEvent LORA_EVENT_ID INT_DIO0.

(** The "TxDone path" of the deferred handler. *)
Definition dio0_txDone (flags : Z) : M unit :=
  if negb ((flags .& IRQ_TX_DONE) =? 0) then
    writeReg REG_IRQ_FLAGS IRQ_CLEAR_ALL ;;
    setDio0Mapping 0 ;;
    setMode MODE_RX_CONTINUOUS ;;
    control.raiseEvent LORA_EVENT_ID APP_TX
  else ret tt.

(** The handler bound to [(LORA_EVENT_ID, INT_DIO0)].  The [return] of the
    CRC branch leaves the whole handler: the TxDone path is not reached
    from there. *)
Definition dio0_event : M unit :=
  flags <- readReg REG_IRQ_FLAGS ;;
  if negb ((flags .& IRQ_RX_DONE) =? 0) then
    if negb ((flags .& IRQ_PAYLOAD_CRC_ERROR) =? 0) then
      writeReg REG_IRQ_FLAGS IRQ_CLEAR_ALL
    else
      currentAddr <- readReg REG_FIFO_RX_CURRENT_ADDR ;;
      writeReg REG_FIFO_ADDR_PTR currentAddr ;;
      len <- readReg REG_RX_NB_BYTES ;;
      pkt <- burstRead REG_FIFO len ;;
      rssi <- readReg REG_PKT_RSSI_VALUE ;;
      write_globals (set_lastRssi (rssi - 157)) ;;
      snr <- readReg REG_PKT_SNR_VALUE ;;
      write_globals (set_lastSnrRaw snr) ;;
      writeReg REG_IRQ_FLAGS IRQ_CLEAR_ALL ;;
      let msg := Buffer_toString pkt in
      h <- read_global _rxHandler ;;
      (match h with
       | Some _ => control.runInBackground (CallRxHandler msg)
       | None => ret tt
       end) ;;
      dio0_txDone flags
  else
    dio0_txDone flags.

Definition setupDio0Interrupt : M unit :=
  pins.setPull _dio0 PullDown ;;
  pins.onPulsed _dio0 High ;;
  control.onEvent LORA_EVENT_ID INT_DIO0 CbDio0.

Definition init (band : Band) : M unit :=
  spiInit ;;
  resetChip ;;
  version <- readReg REG_VERSION ;;
  if negb (version =? 0x12) then
    write_globals (set_inited false)
  else
    setMode MODE_SLEEP ;;
    basic.pause 10 ;;
    setMode MODE_STDBY ;;
    basic.pause 10 ;;
    configRadioDefaults band ;;
    writeReg REG_IRQ_FLAGS IRQ_CLEAR_ALL ;;
    setMode MODE_RX_CONTINUOUS ;;
    setupDio0Interrupt ;;
    setDio0Mapping 0 ;;
    writeReg REG_IRQ_FLAGS IRQ_CLEAR_ALL ;;
    setMode MODE_RX_CONTINUOUS ;;
    write_globals (set_inited true).

Definition sendBuffer (buf : list Z) : M unit :=
  inited <- read_global _inited ;;
  if negb inited then ret tt
  else
    setMode MODE_STDBY ;;
    writeReg REG_IRQ_FLAGS IRQ_CLEAR_ALL ;;
    setDio0Mapping 1 ;;
    writeReg REG_FIFO_ADDR_PTR 0x00 ;;
    burstWrite REG_FIFO buf ;;
    writeReg REG_PAYLOAD_LENGTH (Z.of_nat (List.length buf)) ;;
    setMode MODE_TX.

Definition sendString (value : string) : M unit :=
  inited <- read_global _inited ;;
  if negb inited then ret tt
  else
    let buf := control.createBufferFromUTF8 value in
    sendBuffer buf.

Definition onReceivedString (handler : HandlerId) : M unit :=
  write_globals (set_rxHandler (Some handler)).

Definition onSent (handler : HandlerId) : M unit :=
  control.onEvent LORA_EVENT_ID APP_TX (CbApp handler).

Definition receivedSignalStrength : M Z :=
  read_global _lastRssi.

(** [raw / 4] is a quotient of a small integer by a power of two, which a
    double holds exactly: the result is the rational [raw / 4]. *)
Definition receivedSnr : M Q :=
  lastSnrRaw <- read_global _lastSnrRaw ;;
  let raw := if 127 <? lastSnrRaw then lastSnrRaw - 256 else lastSnrRaw in
  ret (raw # 4).

Definition channelRssi : M Z :=
  inited <- read_global _inited ;;
  if negb inited then ret 0
  else
    v <- readReg REG_RSSI_VALUE ;;
    ret (v - 157).

Definition setTxPower (dBm : Z) : M unit :=
  inited <- read_global _inited ;;
  if negb inited then ret tt
  else if dBm =? 20 then
    writeReg REG_PA_CONFIG (0x80 .| 0x0F) ;;
    writeReg REG_PA_DAC 0x87
  else
    let power := JsNum.max 0 (JsNum.min 15 (dBm - 2)) in
    writeReg REG_PA_CONFIG (0x80 .| power) ;;
    writeReg REG_PA_DAC 0x84.

Definition setSpreadingFactor (sf : Z) : M unit :=
  inited <- read_global _inited ;;
  if negb inited then ret tt
  else
    write_globals (set_sf sf) ;;
    current <- readReg REG_MODEM_CONFIG_2 ;;
    writeReg REG_MODEM_CONFIG_2 ((current .& 0x0F) .| (sf .<< 4)) ;;
    applyLdro.

Definition setBandwidth (bw : Z) : M unit :=
  inited <- read_global _inited ;;
  if negb inited then ret tt
  else
    write_globals (set_bwCode bw) ;;
    current <- readReg REG_MODEM_CONFIG_1 ;;
    writeReg REG_MODEM_CONFIG_1 ((current .& 0x0F) .| (bw .<< 4)) ;;
    applyLdro.

Definition setCodingRate (cr : Z) : M unit :=
  inited <- read_global _inited ;;
  if negb inited then ret tt
  else
    current <- readReg REG_MODEM_CONFIG_1 ;;
    writeReg REG_MODEM_CONFIG_1 ((current .& 0xF1) .| (cr .<< 1)).

Definition setSyncWord (word : Z) : M unit :=
  inited <- read_global _inited ;;
  if negb inited then ret tt
  else writeReg REG_SYNC_WORD word.

(* ------------------------------------------------------------------ *)
(** ** Reading the model *)

(** The byte a register holds, as a bus read would return it. *)
Definition reg (w : World) (a : Z) : Z := byte (regs (chip w) a).

(** The DIO0 field of the interrupt-routing register: bits 7..6. *)
Definition dio0_mapping (w : World) : Z := Z.shiftr (reg w REG_DIO_MAPPING_1) 6.

Definition DIO0_RX_DONE := 0.
Definition DIO0_TX_DONE := 1.

(** The bus accesses an operation adds to the log of the chip. *)
Definition log (w : World) : list Access := accesses (chip w).

(** A chip just powered up, and the driver before any call. *)
Definition power_on (reset_values : Z -> Z) : Chip :=
  mkChip reset_values (fun _ => 0) reset_values SpiIdle [].

Definition boot (reset_values : Z -> Z) : World :=
  mkWorld initial_globals (power_on reset_values) initial_runtime.

(** Reset values of an SX1276: version 0x12, FSK standby, DIO mapping 0. *)
Definition sx1276_por : Z -> Z :=
  upd (upd (fun _ => 0) REG_OP_MODE 0x09) REG_VERSION 0x12.

(** An SX1276 on which [init] has run. *)
Definition ready : World := exec (init EU868) (boot sx1276_por).

(* ------------------------------------------------------------------ *)
(** ** Transactions *)

(** What a framed single-register read and write amount to on the chip:
    the read leaves the registers alone and is logged, the write stores
    its byte (or clears flags) and is logged. *)
Definition bus_read (a : Z) (c : Chip) : Chip :=
  mkChip (regs c) (fifo c) (por c) SpiIdle (accesses c ++ [RegRd a (byte (regs c a))]).

Definition bus_write (a v : Z) (c : Chip) : Chip :=
  mkChip (if a =? REG_IRQ_FLAGS
          then upd (regs c) a (Z.land (byte (regs c a)) (Z.lxor 255 (byte v)))
          else upd (regs c) a (byte v))
         (fifo c) (por c) SpiIdle (accesses c ++ [RegWr a (byte v)]).

(** The chip after the reset pulse of [resetChip]. *)
Definition after_reset (c : Chip) : Chip :=
  mkChip (por c) (fifo c) (por c) SpiIdle (accesses c).

(** A burst on the FIFO port, byte by byte. *)
Fixpoint fifo_store (buf : list Z) (c : Chip) : Chip :=
  match buf with
  | [] => c
  | b :: rest => fifo_store rest (chip_write REG_FIFO (byte b) c)
  end.

Fixpoint fifo_load (n : nat) (c : Chip) : list Z * Chip :=
  match n with
  | O => ([], c)
  | S n' =>
      let '(v, c') := chip_read REG_FIFO c in
      let '(rest, c'') := fifo_load n' c' in
      (v :: rest, c'')
  end.

Definition bus_burst_write (buf : list Z) (c : Chip) : Chip :=
  set_phase SpiIdle (fifo_store buf c).

Definition bus_burst_read (n : nat) (c : Chip) : list Z * Chip :=
  (fst (fifo_load n c), set_phase SpiIdle (snd (fifo_load n c))).

(* ------------------------------------------------------------------ *)
(** ** The driver as a transition system *)

Inductive RadioState := Uninitialized | Sleep | Standby | Receiving | Transmitting.

(** The operating state is the one the driver last wrote to the mode
    register through [setMode]; before a successful [init] the device is
    uninitialized whatever the register holds. *)
Definition mode_state (opmode : Z) : option RadioState :=
  if opmode =? Z.lor MODE_LONG_RANGE MODE_SLEEP then Some Sleep
  else if opmode =? Z.lor MODE_LONG_RANGE MODE_STDBY then Some Standby
  else if opmode =? Z.lor MODE_LONG_RANGE MODE_TX then Some Transmitting
  else if opmode =? Z.lor MODE_LONG_RANGE MODE_RX_CONTINUOUS then Some Receiving
  else None.

Definition radioState (w : World) : option RadioState :=
  if _inited (globals w) then mode_state (reg w REG_OP_MODE) else Some Uninitialized.

(** The exported functions. *)
Inductive Call :=
| CallInit (band : Band)
| CallSendString (value : string)
| CallSendBuffer (buf : list Z)
| CallOnReceivedString (handler : HandlerId)
| CallOnSent (handler : HandlerId)
| CallReceivedSignalStrength
| CallReceivedSnr
| CallChannelRssi
| CallSetTxPower (dBm : Z)
| CallSetSpreadingFactor (sf : Z)
| CallSetBandwidth (bw : Z)
| CallSetCodingRate (cr : Z)
| CallSetSyncWord (word : Z).

Definition call (c : Call) : World -> World :=
  match c with
  | CallInit band => exec (init band)
  | CallSendString value => exec (sendString value)
  | CallSendBuffer buf => exec (sendBuffer buf)
  | CallOnReceivedString h => exec (onReceivedString h)
  | CallOnSent h => exec (onSent h)
  | CallReceivedSignalStrength => exec receivedSignalStrength
  | CallReceivedSnr => exec receivedSnr
  | CallChannelRssi => exec channelRssi
  | CallSetTxPower dBm => exec (setTxPower dBm)
  | CallSetSpreadingFactor sf => exec (setSpreadingFactor sf)
  | CallSetBandwidth bw => exec (setBandwidth bw)
  | CallSetCodingRate cr => exec (setCodingRate cr)
  | CallSetSyncWord word => exec (setSyncWord word)
  end.

(** The radio works on its own between bus transactions: it raises status
    flags, fills the FIFO and the packet registers. *)
Definition radio_update (rg ff : Z -> Z) (w : World) : World :=
  mkWorld (globals w)
          (mkChip rg ff (por (chip w)) (phase (chip w)) (accesses (chip w)))
          (runtime w).

(** The radio raising exactly the status flags [flags]. *)
Definition raise_irq (flags : Z) (w : World) : World :=
  radio_update (upd (regs (chip w)) REG_IRQ_FLAGS flags) (fifo (chip w)) w.

(** The radio finishing the reception of [payload]: the packet sits at the
    bottom of the FIFO, receive-complete is raised and the packet registers
    hold its length, RSSI and SNR. *)
Definition radio_receives (payload : list Z) (rssi snr : Z) (w : World) : World :=
  radio_update
    (upd (upd (upd (upd (upd (regs (chip w))
       REG_IRQ_FLAGS IRQ_RX_DONE)
       REG_FIFO_RX_CURRENT_ADDR 0)
       REG_RX_NB_BYTES (Z.of_nat (List.length payload)))
       REG_PKT_RSSI_VALUE rssi)
       REG_PKT_SNR_VALUE snr)
    (fun a => nth (Z.to_nat a) payload 0)
    w.

(** What can happen between two states of the driver: a call of an
    exported function, activity of the radio, a pulse on DIO0, and a run of
    the deferred handler.  Each one runs to completion before the next. *)
Inductive Event :=
| EvCall (c : Call)
| EvRadio (rg ff : Z -> Z)
| EvPulse
| EvDio0.

(** The radio itself leaves the mode and the DIO mapping registers as the
    host wrote them; the two handlers run only once [init] has bound them. *)
Definition enabled (e : Event) (w : World) : Prop :=
  match e with
  | EvCall _ => True
  | EvRadio rg ff =>
      rg REG_OP_MODE = regs (chip w) REG_OP_MODE /\
      rg REG_DIO_MAPPING_1 = regs (chip w) REG_DIO_MAPPING_1
  | EvPulse => In (_dio0, High) (pulses (runtime w))
  | EvDio0 => In (LORA_EVENT_ID, INT_DIO0, CbDio0) (bindings (runtime w))
  end.

Definition fire (e : Event) : World -> World :=
  match e with
  | EvCall c => call c
  | EvRadio rg ff => radio_update rg ff
  | EvPulse => exec dio0_pulse
  | EvDio0 => exec dio0_event
  end.

Inductive reachable (w0 : World) : World -> Prop :=
| reach_start : reachable w0 w0
| reach_step e w : reachable w0 w -> enabled e w -> reachable w0 (fire e w).

(** A run of the deferred handler that finds receive-complete set and no
    CRC error: a packet is taken from the FIFO. *)
Definition takes_packet (e : Event) (w : World) : bool :=
  match e with
  | EvDio0 =>
      Z.testbit (reg w REG_IRQ_FLAGS) 6 && negb (Z.testbit (reg w REG_IRQ_FLAGS) 5)
  | _ => false
  end.

(** The states reached while no packet has been taken yet. *)
Inductive reachable_before_rx (w0 : World) : World -> Prop :=
| quiet_start : reachable_before_rx w0 w0
| quiet_step e w :
    reachable_before_rx w0 w -> enabled e w -> takes_packet e w = false ->
    reachable_before_rx w0 (fire e w).

(** An initialized device with a receive handler that has just been handed
    the packet "Hello!", received at raw RSSI 100 and raw SNR 0xFF. *)
Definition heard : World :=
  exec dio0_event
    (radio_receives (control.createBufferFromUTF8 "Hello!") 100 0xFF
       (exec (onReceivedString 1%nat) ready)).

(* ------------------------------------------------------------------ *)
(** ** Reference definitions *)

(** The bandwidth table read by its code. *)
Definition bwKHzTimes100 (bw : Z) : Z := nth (Z.to_nat bw) BW_KHZ_X100 0.

(** The frequency word of a carrier: floor (freqHz * 2^19 / 32 MHz). *)
Definition freq_word (freqHz : Z) : Z := (freqHz * 2 ^ 19) / 32000000.

(** A byte read as a two's-complement signed 8-bit value. *)
Definition signed8 (b : Z) : Z := if Z.testbit b 7 then b - 2 ^ 8 else b.

Definition clamp (lo hi x : Z) : Z := Z.max lo (Z.min hi x).

(** The chip after the TxDone path: flags cleared, DIO0 field zeroed, mode
    register set to continuous receive, in this order. *)
Definition after_txDone (c : Chip) : Chip :=
  let c1 := bus_write REG_IRQ_FLAGS IRQ_CLEAR_ALL c in
  let v := byte (regs c1 REG_DIO_MAPPING_1) in
  bus_write REG_OP_MODE (MODE_LONG_RANGE .| MODE_RX_CONTINUOUS)
    (bus_write REG_DIO_MAPPING_1 ((v .& 0x3F) .| ((0 .& 0x03) .<< 6))
       (bus_read REG_DIO_MAPPING_1 c1)).

(** A step that leaves [_inited], the mode register and the DIO mapping
    register alone. *)
Definition same_mode_and_routing (w w' : World) : Prop :=
  _inited (globals w') = _inited (globals w) /\
  reg w' REG_OP_MODE = reg w REG_OP_MODE /\
  reg w' REG_DIO_MAPPING_1 = reg w REG_DIO_MAPPING_1.

(** A step that keeps the stored packet metrics and the reset values. *)
Definition same_metrics (w w' : World) : Prop :=
  _lastRssi (globals w') = _lastRssi (globals w) /\
  _lastSnrRaw (globals w') = _lastSnrRaw (globals w) /\
  por (chip w') = por (chip w).

(** Interrupt routing agrees with the operating state: DIO0 signals
    transmit-complete only in the Transmitting state, and in the Receiving
    state it signals receive-complete. *)
Definition routing_ok (w : World) : Prop :=
  (dio0_mapping w = DIO0_TX_DONE -> radioState w = Some Transmitting) /\
  (radioState w = Some Receiving -> dio0_mapping w = DIO0_RX_DONE).

(** The [n] bytes of the FIFO from address [p] on, wrapping at 256. *)
Definition fifo_window (ff : Z -> Z) (p : Z) (n : nat) : list Z :=
  map (fun i => byte (ff (byte (p + Z.of_nat i)))) (seq 0 n).

(** The state in which the handler leaves its "RxDone path" when no CRC
    error is flagged: the transactions of the FIFO read sequence in their
    order, the two metrics stored, and the handler call spawned when a
    handler is registered. *)
Definition after_rx (w : World) : World :=
  let c0 := bus_read REG_IRQ_FLAGS (chip w) in
  let currentAddr := byte (regs c0 REG_FIFO_RX_CURRENT_ADDR) in
  let c1 := bus_write REG_FIFO_ADDR_PTR currentAddr
              (bus_read REG_FIFO_RX_CURRENT_ADDR c0) in
  let len := byte (regs c1 REG_RX_NB_BYTES) in
  let c2 := bus_read REG_RX_NB_BYTES c1 in
  let pkt := fst (bus_burst_read (Z.to_nat len) c2) in
  let c3 := snd (bus_burst_read (Z.to_nat len) c2) in
  let rssi := byte (regs c3 REG_PKT_RSSI_VALUE) in
  let c4 := bus_read REG_PKT_RSSI_VALUE c3 in
  let snr := byte (regs c4 REG_PKT_SNR_VALUE) in
  let c5 := bus_read REG_PKT_SNR_VALUE c4 in
  let c6 := bus_write REG_IRQ_FLAGS IRQ_CLEAR_ALL c5 in
  mkWorld (set_lastSnrRaw snr (set_lastRssi (rssi - 157) (globals w)))
          c6
          (match _rxHandler (globals w) with
           | Some _ =>
               mkRuntime (pulses (runtime w)) (bindings (runtime w)) (raised (runtime w))
                         (spawned (runtime w) ++ [CallRxHandler (Buffer_toString pkt)])
           | None => runtime w
           end).

(** The chip after the transactions of [sendBuffer], in their order:
    standby, flags cleared, DIO0 routed to transmit-complete, FIFO pointer
    at 0, the payload burst, its length, and the transmit mode. *)
Definition after_send (buf : list Z) (c : Chip) : Chip :=
  let c1 := bus_write REG_IRQ_FLAGS IRQ_CLEAR_ALL
              (bus_write REG_OP_MODE (MODE_LONG_RANGE .| MODE_STDBY) c) in
  let v := byte (regs c1 REG_DIO_MAPPING_1) in
  let c2 := bus_write REG_DIO_MAPPING_1 ((v .& 0x3F) .| ((1 .& 0x03) .<< 6))
              (bus_read REG_DIO_MAPPING_1 c1) in
  bus_write REG_OP_MODE (MODE_LONG_RANGE .| MODE_TX)
    (bus_write REG_PAYLOAD_LENGTH (Z.of_nat (List.length buf))
       (bus_burst_write buf (bus_write REG_FIFO_ADDR_PTR 0x00 c2))).

(** The chip after the transactions of a successful [init], from the
    version read on, in their order; [c] is the chip after the reset. *)
Definition after_init (band : Band) (c : Chip) : Chip :=
  let frf := frf_of_mhz (Band_val band) in
  let c1 :=
    bus_write REG_SYNC_WORD 0x34
      (bus_write REG_PREAMBLE_LSB 0x08
         (bus_write REG_PREAMBLE_MSB 0x00
            (bus_write REG_FIFO_ADDR_PTR 0x00
               (bus_write REG_FIFO_RX_BASE_ADDR 0x00
                  (bus_write REG_FIFO_TX_BASE_ADDR 0x00
                     (bus_write REG_OP_MODE (MODE_LONG_RANGE .| MODE_STDBY)
                        (bus_write REG_OP_MODE (MODE_LONG_RANGE .| MODE_SLEEP)
                           (bus_read REG_VERSION c)))))))) in
  let c2 :=
    bus_write REG_MODEM_CONFIG_3 0x04
      (bus_write REG_MODEM_CONFIG_2 0x74
         (bus_write REG_MODEM_CONFIG_1 0x72
            (bus_write REG_FRF_LSB (frf .& 0xFF)
               (bus_write REG_FRF_MID ((frf .>> 8) .& 0xFF)
                  (bus_write REG_FRF_MSB ((frf .>> 16) .& 0xFF) c1))))) in
  let c3 :=
    bus_write REG_DIO_MAPPING_1 0x00
      (bus_write REG_PA_DAC 0x84
         (bus_write REG_PA_CONFIG (0x80 .| 0x0F)
            (bus_write REG_LNA (byte (regs c2 REG_LNA) .| 0x03)
               (bus_read REG_LNA c2)))) in
  let c4 :=
    bus_write REG_OP_MODE (MODE_LONG_RANGE .| MODE_RX_CONTINUOUS)
      (bus_write REG_IRQ_FLAGS IRQ_CLEAR_ALL c3) in
  let v := byte (regs c4 REG_DIO_MAPPING_1) in
  bus_write REG_OP_MODE (MODE_LONG_RANGE .| MODE_RX_CONTINUOUS)
    (bus_write REG_IRQ_FLAGS IRQ_CLEAR_ALL
       (bus_write REG_DIO_MAPPING_1 ((v .& 0x3F) .| ((0 .& 0x03) .<< 6))
          (bus_read REG_DIO_MAPPING_1 c4))).

(** Once initialized the device is either receiving with DIO0 on
    receive-complete or transmitting with DIO0 on transmit-complete. *)
Definition in_cycle (w : World) : Prop :=
  _inited (globals w) = true ->
  (radioState w = Some Receiving /\ dio0_mapping w = DIO0_RX_DONE) \/
  (radioState w = Some Transmitting /\ dio0_mapping w = DIO0_TX_DONE).

(** No SPI frame is open: the chip is deselected. *)
Definition bus_idle (w : World) : Prop := phase (chip w) = SpiIdle.

(* ------------------------------------------------------------------ *)
(** ** Arithmetic of bytes and bit operators *)

Lemma forallb_range (P : Z -> bool) (n : nat) :
  forallb P (map Z.of_nat (seq 0 n)) = true ->
  forall z, 0 <= z < Z.of_nat n -> P z = true.
Proof.
  intros H z Hz.
  rewrite forallb_forall in H. apply H.
  apply in_map_iff. exists (Z.to_nat z). split; [lia|].
  apply in_seq. lia.
Qed.

Lemma byte_range v : 0 <= byte v < 256.
Proof.
  unfold byte. change 255 with (Z.ones 8). rewrite Z.land_ones by lia.
  apply Z.mod_pos_bound. lia.
Qed.

Lemma byte_small v : 0 <= v < 256 -> byte v = v.
Proof.
  intros H. unfold byte. change 255 with (Z.ones 8). rewrite Z.land_ones by lia.
  apply Z.mod_small. exact H.
Qed.

Lemma byte_idem v : byte (byte v) = byte v.
Proof. apply byte_small, byte_range. Qed.

Lemma to_int32_small x : -2147483648 <= x < 2147483648 -> JsNum.to_int32 x = x.
Proof.
  intros H. unfold JsNum.to_int32. rewrite Z.mod_small; lia.
Qed.

(** The address byte of a read frame and of a write frame. *)
Lemma addr_read_frame a :
  1 <= a <= 127 ->
  byte (a .& 0x7F) = a /\ Z.testbit a 7 = false /\ Z.land a 127 = a /\ (a =? REG_FIFO) = false.
Proof.
  intros H.
  pose (P := fun a => (a =? 0) || ((byte (a .& 0x7F) =? a) && negb (Z.testbit a 7)
                 && (Z.land a 127 =? a) && negb (a =? REG_FIFO))).
  assert (C : P a = true).
  { apply (forallb_range P 128); [vm_compute; reflexivity | lia]. }
  unfold P in C. replace (a =? 0) with false in C by (symmetry; apply Z.eqb_neq; lia).
  rewrite orb_false_l in C.
  rewrite !andb_true_iff, !negb_true_iff, !Z.eqb_eq in C. tauto.
Qed.

Lemma addr_write_frame a :
  0 <= a <= 127 ->
  Z.testbit (byte (a .| 0x80)) 7 = true /\ Z.land (byte (a .| 0x80)) 127 = a.
Proof.
  intros H.
  pose (P := fun a => Z.testbit (byte (a .| 0x80)) 7
                 && (Z.land (byte (a .| 0x80)) 127 =? a)).
  assert (C : P a = true).
  { apply (forallb_range P 128); [vm_compute; reflexivity | lia]. }
  unfold P in C. rewrite andb_true_iff, Z.eqb_eq in C. exact C.
Qed.

(* ------------------------------------------------------------------ *)
(** ** Register transactions *)


Lemma readReg_run a w :
  1 <= a <= 127 ->
  readReg a w =
  (byte (regs (chip w) a), mkWorld (globals w) (bus_read a (chip w)) (runtime w)).
Proof.
  intros H. destruct (addr_read_frame a H) as (E1 & E2 & E3 & E4).
  destruct w as [g [rg ff po ph ac] r].
  unfold readReg, csSelect, csDeselect, bind, ret, pins.spiWrite, pins.digitalWritePin,
    _nss, on_chip, chip_xfer, chip_nss, set_phase, bus_read.
  cbn [chip phase globals runtime regs fifo por accesses Z.eqb fst snd].
  rewrite E1, E2, E3.
  unfold chip_read. rewrite E4.
  cbn [chip phase globals runtime regs fifo por accesses Z.eqb fst snd].
  reflexivity.
Qed.

Lemma writeReg_run a v w :
  1 <= a <= 127 ->
  writeReg a v w = (tt, mkWorld (globals w) (bus_write a v (chip w)) (runtime w)).
Proof.
  intros H. destruct (addr_write_frame a ltac:(lia)) as (E1 & E2).
  assert (E4 : (a =? REG_FIFO) = false) by (apply Z.eqb_neq; unfold REG_FIFO; lia).
  destruct w as [g [rg ff po ph ac] r].
  unfold writeReg, csSelect, csDeselect, bind, ret, pins.spiWrite, pins.digitalWritePin,
    _nss, on_chip, chip_xfer, chip_nss, set_phase, bus_write.
  cbn [chip phase globals runtime regs fifo por accesses Z.eqb fst snd].
  rewrite E1, E2.
  unfold chip_write. rewrite E4.
  cbn [chip phase globals runtime regs fifo por accesses Z.eqb fst snd].
  destruct (a =? REG_IRQ_FLAGS); reflexivity.
Qed.

(** Projections of a chip after a transaction. *)
Lemma regs_bus_read a c : regs (bus_read a c) = regs c.
Proof. reflexivity. Qed.

Lemma regs_bus_write a v c x :
  a <> REG_IRQ_FLAGS ->
  regs (bus_write a v c) x = if x =? a then byte v else regs c x.
Proof.
  intros H. unfold bus_write. cbn [regs].
  destruct (Z.eqb_spec a REG_IRQ_FLAGS); [contradiction | reflexivity].
Qed.

Lemma regs_bus_write_irq v c x :
  regs (bus_write REG_IRQ_FLAGS v c) x =
  if x =? REG_IRQ_FLAGS
  then Z.land (byte (regs c REG_IRQ_FLAGS)) (Z.lxor 255 (byte v))
  else regs c x.
Proof. reflexivity. Qed.

Lemma por_bus_read a c : por (bus_read a c) = por c.
Proof. reflexivity. Qed.

Lemma por_bus_write a v c : por (bus_write a v c) = por c.
Proof. reflexivity. Qed.

Lemma accesses_bus_read a c :
  accesses (bus_read a c) = accesses c ++ [RegRd a (byte (regs c a))].
Proof. reflexivity. Qed.

Lemma accesses_bus_write a v c :
  accesses (bus_write a v c) = accesses c ++ [RegWr a (byte v)].
Proof. reflexivity. Qed.

(** *** Bursts on the FIFO port *)

Lemma chip_write_fifo_phase b p c :
  set_phase p (chip_write REG_FIFO b (set_phase p c)) =
  chip_write REG_FIFO b (set_phase p c).
Proof. reflexivity. Qed.

Lemma chip_write_set_phase a b p c :
  chip_write a b (set_phase p c) = set_phase p (chip_write a b c).
Proof.
  unfold chip_write, set_phase. cbn [regs fifo por phase accesses].
  destruct (a =? REG_FIFO); [reflexivity|].
  destruct (a =? REG_IRQ_FLAGS); reflexivity.
Qed.

Lemma chip_read_set_phase a p c :
  chip_read a (set_phase p c) =
  (fst (chip_read a c), set_phase p (snd (chip_read a c))).
Proof.
  unfold chip_read, set_phase. cbn [regs fifo por phase accesses].
  destruct (a =? REG_FIFO); reflexivity.
Qed.

Lemma fifo_store_set_phase buf : forall p c,
  fifo_store buf (set_phase p c) = set_phase p (fifo_store buf c).
Proof.
  induction buf as [|b rest IH]; intros p c; cbn [fifo_store]; [reflexivity|].
  rewrite chip_write_set_phase. apply IH.
Qed.

Lemma fifo_load_set_phase n : forall p c,
  fifo_load n (set_phase p c) =
  (fst (fifo_load n c), set_phase p (snd (fifo_load n c))).
Proof.
  induction n as [|n IH]; intros p c; cbn [fifo_load]; [reflexivity|].
  rewrite chip_read_set_phase.
  destruct (chip_read REG_FIFO c) as [v c']. cbn [fst snd].
  rewrite IH. destruct (fifo_load n c') as [rest c'']. reflexivity.
Qed.

Lemma set_phase_twice p q c : set_phase p (set_phase q c) = set_phase p c.
Proof. reflexivity. Qed.

Lemma spiWriteAll_run buf : forall g c r,
  spiWriteAll buf (mkWorld g (set_phase (SpiData true REG_FIFO) c) r) =
  (tt, mkWorld g (set_phase (SpiData true REG_FIFO) (fifo_store buf c)) r).
Proof.
  induction buf as [|b rest IH]; intros g c r; cbn [spiWriteAll fifo_store].
  - reflexivity.
  - unfold bind, pins.spiWrite, chip_xfer.
    cbn [chip globals runtime phase set_phase].
    change (next_addr REG_FIFO) with REG_FIFO.
    rewrite <- (IH g (chip_write REG_FIFO (byte b) c) r).
    rewrite <- chip_write_set_phase. reflexivity.
Qed.

Lemma burstWrite_run buf w :
  burstWrite REG_FIFO buf w =
  (tt, mkWorld (globals w) (bus_burst_write buf (chip w)) (runtime w)).
Proof.
  destruct w as [g c r].
  unfold burstWrite, csSelect, csDeselect, bind, pins.digitalWritePin, _nss, on_chip,
    chip_nss, pins.spiWrite.
  cbn [chip globals runtime Z.eqb].
  unfold chip_xfer at 1. cbn [phase set_phase].
  change (Z.testbit (byte (REG_FIFO .| 128)) 7) with true.
  change (Z.land (byte (REG_FIFO .| 128)) 127) with REG_FIFO.
  change (mkChip (regs c) (fifo c) (por c) (SpiData true REG_FIFO) (accesses c))
    with (set_phase (SpiData true REG_FIFO) c).
  rewrite spiWriteAll_run. cbn [chip globals runtime].
  unfold bus_burst_write.
  rewrite ?fifo_store_set_phase, ?set_phase_twice. reflexivity.
Qed.

Lemma spiReadN_run n : forall g c r,
  spiReadN n (mkWorld g (set_phase (SpiData false REG_FIFO) c) r) =
  (fst (fifo_load n c),
   mkWorld g (set_phase (SpiData false REG_FIFO) (snd (fifo_load n c))) r).
Proof.
  induction n as [|n IH]; intros g c r; cbn [spiReadN fifo_load].
  - reflexivity.
  - unfold bind, pins.spiWrite, chip_xfer.
    cbn [chip globals runtime phase set_phase].
    change (next_addr REG_FIFO) with REG_FIFO.
    fold (set_phase (SpiData false REG_FIFO) c).
    rewrite chip_read_set_phase.
    destruct (chip_read REG_FIFO c) as [v c']. cbn [fst snd].
    rewrite set_phase_twice, IH.
    destruct (fifo_load n c') as [rest c'']. reflexivity.
Qed.

Lemma burstRead_run len w :
  burstRead REG_FIFO len w =
  (fst (bus_burst_read (Z.to_nat len) (chip w)),
   mkWorld (globals w) (snd (bus_burst_read (Z.to_nat len) (chip w))) (runtime w)).
Proof.
  destruct w as [g c r].
  unfold burstRead, csSelect, csDeselect, bind, ret, pins.digitalWritePin, _nss, on_chip,
    chip_nss, pins.spiWrite.
  cbn [chip globals runtime Z.eqb].
  unfold chip_xfer at 1. cbn [phase set_phase].
  change (Z.testbit (byte (REG_FIFO .& 127)) 7) with false.
  change (Z.land (byte (REG_FIFO .& 127)) 127) with REG_FIFO.
  change (mkChip (regs c) (fifo c) (por c) (SpiData false REG_FIFO) (accesses c))
    with (set_phase (SpiData false REG_FIFO) c).
  rewrite spiReadN_run. cbn [chip globals runtime].
  unfold bus_burst_read. cbn [fst snd].
  rewrite ?fifo_load_set_phase. cbn [fst snd].
  rewrite ?set_phase_twice. reflexivity.
Qed.

(** A burst on the FIFO port moves the FIFO address pointer and nothing
    else in the register file. *)
Lemma regs_fifo_store buf : forall c x,
  x <> REG_FIFO_ADDR_PTR -> regs (fifo_store buf c) x = regs c x.
Proof.
  induction buf as [|b rest IH]; intros c x Hx; cbn [fifo_store]; [reflexivity|].
  rewrite IH by exact Hx. unfold chip_write. cbn [Z.eqb REG_FIFO regs upd].
  unfold upd. destruct (Z.eqb_spec x REG_FIFO_ADDR_PTR); [contradiction | reflexivity].
Qed.

Lemma regs_fifo_load n : forall c x,
  x <> REG_FIFO_ADDR_PTR -> regs (snd (fifo_load n c)) x = regs c x.
Proof.
  induction n as [|n IH]; intros c x Hx; cbn [fifo_load]; [reflexivity|].
  unfold chip_read. cbn [Z.eqb REG_FIFO].
  match goal with |- context [fifo_load n ?c'] =>
    specialize (IH c' x Hx); destruct (fifo_load n c') as [rest c''] end.
  cbn [snd regs] in *. rewrite IH. unfold upd.
  destruct (Z.eqb_spec x REG_FIFO_ADDR_PTR); [contradiction | reflexivity].
Qed.

Lemma regs_bus_burst_write buf c x :
  x <> REG_FIFO_ADDR_PTR -> regs (bus_burst_write buf c) x = regs c x.
Proof. intros H. unfold bus_burst_write. cbn [set_phase regs]. apply regs_fifo_store, H. Qed.

Lemma regs_bus_burst_read n c x :
  x <> REG_FIFO_ADDR_PTR -> regs (snd (bus_burst_read n c)) x = regs c x.
Proof.
  intros H. unfold bus_burst_read. cbn [snd set_phase regs]. apply regs_fifo_load, H.
Qed.

Lemma por_fifo_store buf : forall c, por (fifo_store buf c) = por c.
Proof.
  induction buf as [|b rest IH]; intros c; cbn [fifo_store]; [reflexivity|].
  rewrite IH. reflexivity.
Qed.

Lemma por_fifo_load n : forall c, por (snd (fifo_load n c)) = por c.
Proof.
  induction n as [|n IH]; intros c; cbn [fifo_load]; [reflexivity|].
  unfold chip_read. cbn [Z.eqb REG_FIFO].
  match goal with |- context [fifo_load n ?c'] =>
    specialize (IH c'); destruct (fifo_load n c') as [rest c''] end.
  cbn [snd por] in *. exact IH.
Qed.

Lemma por_bus_burst_write buf c : por (bus_burst_write buf c) = por c.
Proof. unfold bus_burst_write. cbn [set_phase por]. apply por_fifo_store. Qed.

Lemma por_bus_burst_read n c : por (snd (bus_burst_read n c)) = por c.
Proof. unfold bus_burst_read. cbn [snd set_phase por]. apply por_fifo_load. Qed.

(** Symbolic execution of a driver function: unfold the monad, replace each
    framed transfer by its transaction, and project. *)
Ltac addr_ok := cbv; split; intro; discriminate.

Ltac unfold_monad :=
  cbv beta iota delta
    [bind ret exec eval read_global write_globals on_runtime
     control.raiseEvent control.runInBackground control.onEvent
     pins.setPull pins.onPulsed basic.pause
     pins.spiPins pins.spiFrequency pins.spiFormat].

Ltac project :=
  cbn [fst snd globals chip runtime
       _inited _rxHandler _lastRssi _lastSnrRaw _sf _bwCode
       set_inited set_rxHandler set_lastRssi set_lastSnrRaw set_sf set_bwCode
       pulses bindings raised spawned].

Ltac run_bus :=
  repeat (first [ rewrite readReg_run by addr_ok
                | rewrite writeReg_run by addr_ok
                | rewrite burstWrite_run
                | rewrite burstRead_run ];
          project).

Ltac reg_neq := cbv; intro; discriminate.

(** Read a register of a chip reached through a chain of transactions. *)
Ltac read_regs :=
  repeat first
    [ rewrite regs_bus_read
    | rewrite regs_bus_write_irq
    | rewrite regs_bus_write by reg_neq
    | rewrite regs_bus_burst_write by reg_neq
    | rewrite regs_bus_burst_read by reg_neq ];
  cbn [Z.eqb Pos.eqb
       REG_FIFO REG_OP_MODE REG_FRF_MSB REG_FRF_MID REG_FRF_LSB REG_PA_CONFIG
       REG_LNA REG_FIFO_ADDR_PTR REG_FIFO_TX_BASE_ADDR REG_FIFO_RX_BASE_ADDR
       REG_FIFO_RX_CURRENT_ADDR REG_IRQ_FLAGS REG_RX_NB_BYTES REG_PKT_SNR_VALUE
       REG_PKT_RSSI_VALUE REG_RSSI_VALUE REG_MODEM_CONFIG_1 REG_MODEM_CONFIG_2
       REG_PREAMBLE_MSB REG_PREAMBLE_LSB REG_PAYLOAD_LENGTH REG_MODEM_CONFIG_3
       REG_SYNC_WORD REG_DIO_MAPPING_1 REG_VERSION REG_PA_DAC].

(** The log of a chip reached through a chain of single-register
    transactions. *)
Ltac read_log :=
  repeat first [ rewrite accesses_bus_write | rewrite accesses_bus_read ];
  rewrite <- ?app_assoc; cbn [app].

(* ------------------------------------------------------------------ *)
(** ** The model at work *)

(** [init] on an SX1276: continuous receive, DIO0 on receive-complete,
    modem defaults SF7 / 125 kHz / CR 4/5, sync word 0x34. *)
Example init_on_sx1276 :
  _inited (globals ready) = true /\
  radioState ready = Some Receiving /\
  dio0_mapping ready = DIO0_RX_DONE /\
  reg ready REG_MODEM_CONFIG_1 = 0x72 /\
  reg ready REG_MODEM_CONFIG_2 = 0x74 /\
  reg ready REG_MODEM_CONFIG_3 = 0x04 /\
  reg ready REG_SYNC_WORD = 0x34 /\
  bindings (runtime ready) = [(LORA_EVENT_ID, INT_DIO0, CbDio0)].
Proof. vm_compute. repeat split; reflexivity. Qed.

(** Without a chip answering 0x12 the device stays uninitialized. *)
Example init_without_chip :
  _inited (globals (exec (init EU868) (boot (fun _ => 0)))) = false /\
  bindings (runtime (exec (init EU868) (boot (fun _ => 0)))) = [].
Proof. vm_compute. split; reflexivity. Qed.

(** Sending three bytes: payload in the FIFO from address 0, length
    register 3, DIO0 on transmit-complete, mode TX. *)
Example send_three_bytes :
  let w := exec (sendBuffer [1; 2; 3]) ready in
  map (fifo (chip w)) [0; 1; 2] = [1; 2; 3] /\
  reg w REG_PAYLOAD_LENGTH = 3 /\
  dio0_mapping w = DIO0_TX_DONE /\
  radioState w = Some Transmitting /\
  skipn (List.length (log ready)) (log w) =
    [RegWr REG_OP_MODE 0x81; RegWr REG_IRQ_FLAGS 0xFF;
     RegRd REG_DIO_MAPPING_1 0x00; RegWr REG_DIO_MAPPING_1 0x40;
     RegWr REG_FIFO_ADDR_PTR 0x00;
     RegWr REG_FIFO 1; RegWr REG_FIFO 2; RegWr REG_FIFO 3;
     RegWr REG_PAYLOAD_LENGTH 3; RegWr REG_OP_MODE 0x83].
Proof. vm_compute. repeat split; reflexivity. Qed.

(** Receiving "Hello!": one handler call with the text, RSSI 100 - 157,
    raw SNR 0xFF, flags cleared. *)
Example receive_hello :
  spawned (runtime heard) = [CallRxHandler "Hello!"] /\
  eval receivedSignalStrength heard = -57 /\
  _lastSnrRaw (globals heard) = 0xFF /\
  reg heard REG_IRQ_FLAGS = 0 /\
  radioState heard = Some Receiving.
Proof. vm_compute. repeat split; reflexivity. Qed.

(* ------------------------------------------------------------------ *)
(** ** Calls before [init] *)

(** C5. A configuration or send call made while [_inited] is false (before
    [init] has succeeded) returns normally and is a no-op: the whole state,
    chip and bus log included, is the one it was called in. *)
Theorem calls_before_init_are_noops (w : World) :
  _inited (globals w) = false ->
  (forall value, sendString value w = (tt, w)) /\
  (forall buf, sendBuffer buf w = (tt, w)) /\
  (forall dBm, setTxPower dBm w = (tt, w)) /\
  (forall sf, setSpreadingFactor sf w = (tt, w)) /\
  (forall bw, setBandwidth bw w = (tt, w)) /\
  (forall cr, setCodingRate cr w = (tt, w)) /\
  (forall word, setSyncWord word w = (tt, w)).
Proof.
  intros Hi.
  repeat split; intros;
    unfold sendString, sendBuffer, setTxPower, setSpreadingFactor, setBandwidth,
      setCodingRate, setSyncWord, bind, read_global, ret;
    rewrite Hi; reflexivity.
Qed.

Lemma calls_before_init_are_noops_witness :
  _inited (globals (boot sx1276_por)) = false /\
  setSpreadingFactor SF12 (boot sx1276_por) = (tt, boot sx1276_por) /\
  sendBuffer [1; 2; 3] (boot sx1276_por) = (tt, boot sx1276_por).
Proof.
  split; [reflexivity|].
  pose proof (calls_before_init_are_noops (boot sx1276_por) eq_refl) as H.
  split; [apply H | apply H].
Defined.

(* ------------------------------------------------------------------ *)
(** ** Bit fields of the configuration registers *)

Lemma byte_forall (P : Z -> bool) :
  forallb P (map Z.of_nat (seq 0 256)) = true -> forall v, P (byte v) = true.
Proof.
  intros H v. apply (forallb_range P 256 H). pose proof (byte_range v). lia.
Qed.

Lemma ldro_bit_set v :
  Z.testbit (byte (byte v .| 0x08)) 3 = true /\
  Z.land (byte (byte v .| 0x08)) 0xF7 = Z.land (byte v) 0xF7.
Proof.
  pose (P := fun b => Z.testbit (byte (b .| 0x08)) 3
                      && (Z.land (byte (b .| 0x08)) 0xF7 =? Z.land b 0xF7)).
  assert (C : P (byte v) = true) by (apply byte_forall; vm_compute; reflexivity).
  unfold P in C. rewrite andb_true_iff, Z.eqb_eq in C. exact C.
Qed.

Lemma ldro_bit_clear v :
  Z.testbit (byte (byte v .& 0xF7)) 3 = false /\
  Z.land (byte (byte v .& 0xF7)) 0xF7 = Z.land (byte v) 0xF7.
Proof.
  pose (P := fun b => negb (Z.testbit (byte (b .& 0xF7)) 3)
                      && (Z.land (byte (b .& 0xF7)) 0xF7 =? Z.land b 0xF7)).
  assert (C : P (byte v) = true) by (apply byte_forall; vm_compute; reflexivity).
  unfold P in C. rewrite andb_true_iff, negb_true_iff, Z.eqb_eq in C. exact C.
Qed.

Lemma sf_cases sf : 7 <= sf <= 12 -> In sf [7; 8; 9; 10; 11; 12].
Proof. intros H. cbn [In]. lia. Qed.

Lemma bw_cases bw : 0 <= bw <= 9 -> In bw [0; 1; 2; 3; 4; 5; 6; 7; 8; 9].
Proof. intros H. cbn [In]. lia. Qed.

(** On the listed members the test of [applyLdro] is the inequality between
    the symbol time and 16 ms, in the table's units. *)
Lemma needLdro_spec sf bw :
  7 <= sf <= 12 -> 0 <= bw <= 9 ->
  needLdro sf bw = (16 * bwKHzTimes100 bw <? 2 ^ sf * 100).
Proof.
  intros Hsf Hbw.
  pose (P := fun s => forallb (fun b => Bool.eqb (needLdro s b)
                                     (16 * bwKHzTimes100 b <? 2 ^ s * 100))
                              [0; 1; 2; 3; 4; 5; 6; 7; 8; 9]).
  assert (C : forallb P [7; 8; 9; 10; 11; 12] = true) by (vm_compute; reflexivity).
  rewrite forallb_forall in C. specialize (C sf (sf_cases sf Hsf)).
  unfold P in C. rewrite forallb_forall in C. specialize (C bw (bw_cases bw Hbw)).
  apply Bool.eqb_prop in C. exact C.
Qed.

(** Writing a spreading factor into the upper nibble of a byte. *)
Lemma sf_nibble v sf :
  7 <= sf <= 12 ->
  Z.shiftr (byte ((byte v .& 0x0F) .| (sf .<< 4))) 4 = sf /\
  Z.land (byte ((byte v .& 0x0F) .| (sf .<< 4))) 0x0F = Z.land (byte v) 0x0F.
Proof.
  intros Hsf.
  pose (P := fun b => forallb (fun s =>
               (Z.shiftr (byte ((b .& 0x0F) .| (s .<< 4))) 4 =? s)
               && (Z.land (byte ((b .& 0x0F) .| (s .<< 4))) 0x0F =? Z.land b 0x0F))
               [7; 8; 9; 10; 11; 12]).
  assert (C : P (byte v) = true) by (apply byte_forall; vm_compute; reflexivity).
  unfold P in C. rewrite forallb_forall in C. specialize (C sf (sf_cases sf Hsf)).
  rewrite andb_true_iff, !Z.eqb_eq in C. exact C.
Qed.

(** What [applyLdro] leaves in the modem-config-3 register. *)
Lemma ldro_written v (need : bool) :
  Z.testbit (byte (if need then byte v .| 0x08 else byte v .& 0xF7)) 3 = need /\
  Z.land (byte (if need then byte v .| 0x08 else byte v .& 0xF7)) 0xF7 =
  Z.land (byte v) 0xF7.
Proof.
  destruct need; [apply ldro_bit_set | apply ldro_bit_clear].
Qed.

(* ------------------------------------------------------------------ *)
(** ** Low-data-rate optimisation *)

(** C1. On an initialized device, for a spreading factor in 7..12 and a
    bandwidth code in 0..9: after [setSpreadingFactor sf] (the bandwidth
    code in force being [bw]) and after [setBandwidth bw] (the spreading
    factor in force being [sf]), bit 3 of the modem-config-3 register is
    set iff 2^sf * 100 > 16 * bwKHzTimes100[bw], and the other bits of the
    register are as before.  SF11 at 125 kHz is above the threshold, SF10
    at 125 kHz is not. *)
Theorem ldro_follows_sf_and_bw (w : World) (sf bw : Z) :
  _inited (globals w) = true ->
  7 <= sf <= 12 ->
  0 <= bw <= 9 ->
  (_bwCode (globals w) = bw ->
   let w' := exec (setSpreadingFactor sf) w in
   (Z.testbit (reg w' REG_MODEM_CONFIG_3) 3 = true <->
    2 ^ sf * 100 > 16 * bwKHzTimes100 bw) /\
   Z.land (reg w' REG_MODEM_CONFIG_3) 0xF7 = Z.land (reg w REG_MODEM_CONFIG_3) 0xF7) /\
  (_sf (globals w) = sf ->
   let w' := exec (setBandwidth bw) w in
   (Z.testbit (reg w' REG_MODEM_CONFIG_3) 3 = true <->
    2 ^ sf * 100 > 16 * bwKHzTimes100 bw) /\
   Z.land (reg w' REG_MODEM_CONFIG_3) 0xF7 = Z.land (reg w REG_MODEM_CONFIG_3) 0xF7) /\
  2 ^ SF11 * 100 > 16 * bwKHzTimes100 BW125k /\
  ~ 2 ^ SF10 * 100 > 16 * bwKHzTimes100 BW125k.
Proof.
  intros Hi Hsf Hbw.
  assert (Hgt : needLdro sf bw = true <-> 2 ^ sf * 100 > 16 * bwKHzTimes100 bw).
  { rewrite (needLdro_spec sf bw Hsf Hbw), Z.ltb_lt. lia. }
  split; [|split; [|split; [reflexivity | cbv; discriminate]]].
  - intros Hb w'. subst w'.
    unfold setSpreadingFactor, applyLdro, reg. unfold_monad. project.
    rewrite Hi. cbn [negb]. project. run_bus. read_regs.
    rewrite Hb, byte_idem.
    destruct (ldro_written (regs (chip w) REG_MODEM_CONFIG_3) (needLdro sf bw)) as [B1 B2].
    rewrite B1, B2. split; [exact Hgt | reflexivity].
  - intros Hs w'. subst w'.
    unfold setBandwidth, applyLdro, reg. unfold_monad. project.
    rewrite Hi. cbn [negb]. project. run_bus. read_regs.
    rewrite Hs, byte_idem.
    destruct (ldro_written (regs (chip w) REG_MODEM_CONFIG_3) (needLdro sf bw)) as [B1 B2].
    rewrite B1, B2. split; [exact Hgt | reflexivity].
Qed.

Lemma ldro_follows_sf_and_bw_witness :
  Z.testbit (reg (exec (setSpreadingFactor SF11) ready) REG_MODEM_CONFIG_3) 3 = true /\
  Z.testbit (reg (exec (setSpreadingFactor SF10) ready) REG_MODEM_CONFIG_3) 3 <> true.
Proof.
  split.
  - destruct (ldro_follows_sf_and_bw ready SF11 BW125k) as (H & _ & Hgt & _);
      [reflexivity | unfold SF11; lia | unfold BW125k; lia |].
    apply (H eq_refl). exact Hgt.
  - destruct (ldro_follows_sf_and_bw ready SF10 BW125k) as (H & _ & _ & Hle);
      [reflexivity | unfold SF10; lia | unfold BW125k; lia |].
    intros Hbit. apply Hle. apply (H eq_refl). exact Hbit.
Defined.

(* ------------------------------------------------------------------ *)
(** ** Spreading factor *)

(** C7, as the code has it.  [setSpreadingFactor] contains no range check;
    the only restriction is the [SpreadingFactor] enum of its signature.
    For sf in 7..12 on an initialized device it records sf in [_sf], writes
    sf into the upper nibble of modem-config-2 with the lower nibble as it
    was, and then recomputes the LDRO bit of modem-config-3 from sf and the
    bandwidth code in force; the bus sees exactly these four accesses, in
    this order. *)
Theorem setSpreadingFactor_writes_nibble (w : World) (sf : Z) :
  _inited (globals w) = true ->
  7 <= sf <= 12 ->
  let w' := exec (setSpreadingFactor sf) w in
  _sf (globals w') = sf /\
  Z.shiftr (reg w' REG_MODEM_CONFIG_2) 4 = sf /\
  Z.land (reg w' REG_MODEM_CONFIG_2) 0x0F = Z.land (reg w REG_MODEM_CONFIG_2) 0x0F /\
  Z.testbit (reg w' REG_MODEM_CONFIG_3) 3 = needLdro sf (_bwCode (globals w)) /\
  log w' = log w ++ [RegRd REG_MODEM_CONFIG_2 (reg w REG_MODEM_CONFIG_2);
                     RegWr REG_MODEM_CONFIG_2 (reg w' REG_MODEM_CONFIG_2);
                     RegRd REG_MODEM_CONFIG_3 (reg w REG_MODEM_CONFIG_3);
                     RegWr REG_MODEM_CONFIG_3 (reg w' REG_MODEM_CONFIG_3)].
Proof.
  intros Hi Hsf w'. subst w'.
  unfold setSpreadingFactor, applyLdro, reg, log. unfold_monad. project.
  rewrite Hi. cbn [negb]. project. run_bus.
  read_log. read_regs.
  rewrite !byte_idem.
  destruct (sf_nibble (regs (chip w) REG_MODEM_CONFIG_2) sf Hsf) as [N1 N2].
  destruct (ldro_written (regs (chip w) REG_MODEM_CONFIG_3)
              (needLdro sf (_bwCode (globals w)))) as [B1 _].
  rewrite N1, N2, B1.
  repeat split; reflexivity.
Qed.

Lemma setSpreadingFactor_writes_nibble_witness :
  Z.shiftr (reg (exec (setSpreadingFactor SF9) ready) REG_MODEM_CONFIG_2) 4 = SF9.
Proof.
  apply (setSpreadingFactor_writes_nibble ready SF9); [reflexivity | unfold SF9; lia].
Defined.

(** C7 as stated fails: 13 is outside 7..12, and on an initialized device
    it is applied all the same, to [_sf] and to the register. *)
Lemma setSpreadingFactor_13_is_applied :
  let w' := exec (setSpreadingFactor 13) ready in
  _inited (globals ready) = true /\
  ~ 7 <= 13 <= 12 /\
  _sf (globals ready) = 7 /\ _sf (globals w') = 13 /\
  reg ready REG_MODEM_CONFIG_2 = 0x74 /\ reg w' REG_MODEM_CONFIG_2 = 0xD4 /\
  Z.shiftr (reg w' REG_MODEM_CONFIG_2) 4 = 13.
Proof.
  cbv zeta. repeat split; try (vm_compute; reflexivity). lia.
Qed.

(* ------------------------------------------------------------------ *)
(** ** Transmit power *)

Lemma pa_config_byte p : 0 <= p <= 15 -> byte (0x80 .| p) = 0x80 + p.
Proof.
  intros H.
  pose (P := fun p => (15 <? p) || (byte (0x80 .| p) =? 0x80 + p)).
  assert (C : P p = true) by (apply (forallb_range P 16); [vm_compute; reflexivity | lia]).
  unfold P in C. replace (15 <? p) with false in C by (symmetry; apply Z.ltb_ge; lia).
  rewrite orb_false_l, Z.eqb_eq in C. exact C.
Qed.

(** C6, as the code has it.  On an initialized device a request of exactly
    20 selects the high-power path (PA_CONFIG 0x8F, PA_DAC 0x87); every
    other request, those above 20 included, selects the standard path:
    PA_DAC 0x84 and a power field of dBm - 2 clamped to 0..15.  Requests
    of 2 or less therefore give the 2 dBm setting, and 20 and 19 differ in
    the PA_DAC value they write. *)
Theorem setTxPower_paths (w : World) (dBm : Z) :
  _inited (globals w) = true ->
  let w' := exec (setTxPower dBm) w in
  (dBm = 20 -> reg w' REG_PA_CONFIG = 0x8F /\ reg w' REG_PA_DAC = 0x87) /\
  (dBm <> 20 ->
   reg w' REG_PA_CONFIG = 0x80 + clamp 0 15 (dBm - 2) /\ reg w' REG_PA_DAC = 0x84) /\
  (dBm <= 2 -> w' = exec (setTxPower 2) w) /\
  reg (exec (setTxPower 20) w) REG_PA_DAC <> reg (exec (setTxPower 19) w) REG_PA_DAC.
Proof.
  intros Hi w'. subst w'.
  assert (Hstd : forall d, d <> 20 ->
            exec (setTxPower d) w =
            mkWorld (globals w)
              (bus_write REG_PA_DAC 0x84
                 (bus_write REG_PA_CONFIG (0x80 .| clamp 0 15 (d - 2)) (chip w)))
              (runtime w)).
  { intros d Hd. unfold setTxPower. unfold_monad. project. rewrite Hi. cbn [negb].
    replace (d =? 20) with false by (symmetry; apply Z.eqb_neq; exact Hd).
    run_bus. reflexivity. }
  assert (Hmax : exec (setTxPower 20) w =
            mkWorld (globals w)
              (bus_write REG_PA_DAC 0x87 (bus_write REG_PA_CONFIG (0x80 .| 0x0F) (chip w)))
              (runtime w)).
  { unfold setTxPower. unfold_monad. project. rewrite Hi. cbn [negb Z.eqb Pos.eqb].
    run_bus. reflexivity. }
  repeat split.
  - subst dBm. rewrite Hmax. unfold reg. project. read_regs. reflexivity.
  - subst dBm. rewrite Hmax. unfold reg. project. read_regs. reflexivity.
  - rewrite (Hstd dBm H). unfold reg. project. read_regs.
    rewrite byte_idem. apply pa_config_byte. unfold clamp. lia.
  - rewrite (Hstd dBm H). unfold reg. project. read_regs. reflexivity.
  - intros Hlow. rewrite (Hstd dBm) by lia. rewrite (Hstd 2) by lia.
    replace (clamp 0 15 (dBm - 2)) with (clamp 0 15 (2 - 2)) by (unfold clamp; lia).
    reflexivity.
  - rewrite Hmax, (Hstd 19) by lia. unfold reg. project. read_regs.
    cbv. discriminate.
Qed.

Lemma setTxPower_paths_witness :
  exec (setTxPower 1) ready = exec (setTxPower 2) ready /\
  reg (exec (setTxPower 1) ready) REG_PA_CONFIG = 0x80.
Proof.
  destruct (setTxPower_paths ready 1 eq_refl) as (_ & Hstd & Hlow & _).
  split; [apply Hlow; lia |].
  destruct Hstd as [Hcfg _]; [lia | exact Hcfg].
Defined.

(** C6 as stated fails above 20: a request of 21 clamped to 2..20 is 20,
    the high-power setting with PA_DAC 0x87, while [setTxPower 21] takes
    the standard path and writes PA_DAC 0x84 with the power field at 15. *)
Lemma setTxPower_21_is_not_20 :
  _inited (globals ready) = true /\
  clamp 2 20 21 = 20 /\
  reg (exec (setTxPower (clamp 2 20 21)) ready) REG_PA_DAC = 0x87 /\
  reg (exec (setTxPower 21) ready) REG_PA_DAC = 0x84 /\
  reg (exec (setTxPower 21) ready) REG_PA_CONFIG = 0x8F /\
  reg (exec (setTxPower 21) ready) REG_PA_DAC <>
  reg (exec (setTxPower (clamp 2 20 21)) ready) REG_PA_DAC.
Proof.
  repeat split; vm_compute; (reflexivity || discriminate).
Qed.

(* ------------------------------------------------------------------ *)
(** ** [init] *)

Lemma reset_run w :
  (spiInit ;; resetChip) w =
  (tt, mkWorld (globals w) (after_reset (chip w)) (runtime w)).
Proof.
  destruct w as [g c r]. reflexivity.
Qed.

Lemma init_unfold band w :
  init band w =
  (version <- readReg REG_VERSION ;;
   if negb (version =? 0x12) then
     write_globals (set_inited false)
   else
     setMode MODE_SLEEP ;;
     basic.pause 10 ;;
     setMode MODE_STDBY ;;
     basic.pause 10 ;;
     configRadioDefaults band ;;
     writeReg REG_IRQ_FLAGS IRQ_CLEAR_ALL ;;
     setMode MODE_RX_CONTINUOUS ;;
     setupDio0Interrupt ;;
     setDio0Mapping 0 ;;
     writeReg REG_IRQ_FLAGS IRQ_CLEAR_ALL ;;
     setMode MODE_RX_CONTINUOUS ;;
     write_globals (set_inited true))
    (mkWorld (globals w) (after_reset (chip w)) (runtime w)).
Proof.
  unfold init.
  change (spiInit ;; resetChip ;; ?k) with (bind (spiInit ;; resetChip) (fun _ => k)).
  unfold bind at 1. rewrite reset_run. reflexivity.
Qed.

(** When the version register does not read 0x12, [init] stops after the
    reset with the device marked uninitialized. *)
Lemma init_failure band w :
  byte (por (chip w) REG_VERSION) <> 0x12 ->
  exec (init band) w =
  mkWorld (set_inited false (globals w))
          (bus_read REG_VERSION (after_reset (chip w))) (runtime w).
Proof.
  intros Hv. unfold exec. rewrite init_unfold. unfold_monad. run_bus.
  cbn [after_reset regs].
  replace (byte (por (chip w) REG_VERSION) =? 18) with false
    by (symmetry; apply Z.eqb_neq; exact Hv).
  reflexivity.
Qed.

(** When it does, [init] ends with the device initialized, the chip in
    continuous receive with DIO0 on receive-complete, the frequency word of
    the band in the three FRF registers and both handlers bound. *)
Lemma init_success band w :
  byte (por (chip w) REG_VERSION) = 0x12 ->
  let w' := exec (init band) w in
  globals w' = set_inited true (globals w) /\
  runtime w' = mkRuntime (pulses (runtime w) ++ [(_dio0, High)])
                 (bindings (runtime w) ++ [(LORA_EVENT_ID, INT_DIO0, CbDio0)])
                 (raised (runtime w)) (spawned (runtime w)) /\
  por (chip w') = por (chip w) /\
  reg w' REG_OP_MODE = Z.lor MODE_LONG_RANGE MODE_RX_CONTINUOUS /\
  reg w' REG_DIO_MAPPING_1 = 0 /\
  reg w' REG_FRF_MSB = byte (Z.shiftr (frf_of_mhz (Band_val band)) 16) /\
  reg w' REG_FRF_MID = byte (Z.shiftr (frf_of_mhz (Band_val band)) 8) /\
  reg w' REG_FRF_LSB = byte (frf_of_mhz (Band_val band)).
Proof.
  intros Hv w'. subst w'. unfold exec. rewrite init_unfold.
  unfold setMode, configRadioDefaults, setupDio0Interrupt, setDio0Mapping. unfold_monad.
  rewrite readReg_run by addr_ok. project. cbn [after_reset regs].
  rewrite Hv. cbn [Z.eqb Pos.eqb negb].
  assert (Hf : forall W,
             exists c, (match band with
                        | EU868 => setFrequencyMHz 868
                        | AU915 => setFrequencyMHz 915
                        end) W = (tt, mkWorld (globals W) c (runtime W)) /\
                       c = bus_write REG_FRF_LSB (byte (frf_of_mhz (Band_val band)))
                             (bus_write REG_FRF_MID
                                (byte (Z.shiftr (frf_of_mhz (Band_val band)) 8))
                                (bus_write REG_FRF_MSB
                                   (byte (Z.shiftr (frf_of_mhz (Band_val band)) 16))
                                   (chip W)))).
  { intros W. eexists. split; [|reflexivity].
    destruct band; unfold setFrequencyMHz; unfold_monad; run_bus; reflexivity. }
  run_bus.
  match goal with |- context [match band with EU868 => _ | AU915 => _ end ?W] =>
    destruct (Hf W) as (c & Hc & Ec); rewrite Hc; clear Hc end.
  project. run_bus. subst c. unfold reg. project.
  repeat split; try reflexivity; read_regs;
    rewrite ?por_bus_write, ?por_bus_read; try reflexivity.
  all: rewrite ?byte_idem; reflexivity.
Qed.

(* ------------------------------------------------------------------ *)
(** ** Frequency word *)

(** C8. For each band, [init] on a chip that identifies as 0x12 leaves in
    the three frequency registers the word floor (freqHz * 2^19 / 32e6),
    most significant byte in REG_FRF_MSB; the word of the source is this
    integer quotient, and the bytes are D9 00 00 for 868 MHz and E4 C0 00
    for 915 MHz.  [setFrequencyMHz] writes them in the order MSB, MID,
    LSB. *)
Theorem init_writes_frequency_word (w : World) (band : Band) :
  byte (por (chip w) REG_VERSION) = 0x12 ->
  let w' := exec (init band) w in
  let frf := freq_word (Band_val band * 1000000) in
  frf_of_mhz (Band_val band) = frf /\
  frf = 2 ^ 16 * reg w' REG_FRF_MSB + 2 ^ 8 * reg w' REG_FRF_MID + reg w' REG_FRF_LSB /\
  (reg w' REG_FRF_MSB, reg w' REG_FRF_MID, reg w' REG_FRF_LSB) =
  match band with
  | EU868 => (0xD9, 0x00, 0x00)
  | AU915 => (0xE4, 0xC0, 0x00)
  end /\
  (forall W, log (exec (setFrequencyMHz (Band_val band)) W) =
             log W ++ [RegWr REG_FRF_MSB (Z.shiftr frf 16 mod 256);
                       RegWr REG_FRF_MID (Z.shiftr frf 8 mod 256);
                       RegWr REG_FRF_LSB (frf mod 256)]).
Proof.
  intros Hv w' frf.
  destruct (init_success band w Hv) as (_ & _ & _ & _ & _ & E1 & E2 & E3).
  fold w' in E1, E2, E3. rewrite E1, E2, E3. subst frf.
  split; [reflexivity|].
  split; [destruct band; reflexivity|].
  split; [destruct band; reflexivity|].
  intros W. unfold setFrequencyMHz, log. unfold_monad. run_bus. read_log.
  destruct band; reflexivity.
Qed.

Lemma init_writes_frequency_word_witness :
  (reg ready REG_FRF_MSB, reg ready REG_FRF_MID, reg ready REG_FRF_LSB) = (0xD9, 0x00, 0x00).
Proof.
  apply (init_writes_frequency_word (boot sx1276_por) EU868). reflexivity.
Defined.

(* ------------------------------------------------------------------ *)
(** ** The deferred DIO0 handler *)

(** The three tests of the handler are tests of bits 6, 5 and 3. *)
Lemma irq_tests v :
  ((byte v .& IRQ_RX_DONE) =? 0) = negb (Z.testbit (byte v) 6) /\
  ((byte v .& IRQ_PAYLOAD_CRC_ERROR) =? 0) = negb (Z.testbit (byte v) 5) /\
  ((byte v .& IRQ_TX_DONE) =? 0) = negb (Z.testbit (byte v) 3).
Proof.
  pose (P := fun f =>
    Bool.eqb ((f .& IRQ_RX_DONE) =? 0) (negb (Z.testbit f 6))
    && Bool.eqb ((f .& IRQ_PAYLOAD_CRC_ERROR) =? 0) (negb (Z.testbit f 5))
    && Bool.eqb ((f .& IRQ_TX_DONE) =? 0) (negb (Z.testbit f 3))).
  assert (C : P (byte v) = true) by (apply byte_forall; vm_compute; reflexivity).
  unfold P in C. rewrite !andb_true_iff in C. destruct C as [[C1 C2] C3].
  apply Bool.eqb_prop in C1, C2, C3. auto.
Qed.

(** Writing the DIO0 field of a mapping byte. *)
Lemma dio0_field v m :
  m = 0 \/ m = 1 ->
  Z.shiftr (byte ((byte v .& 0x3F) .| ((m .& 0x03) .<< 6))) 6 = m /\
  Z.land (byte ((byte v .& 0x3F) .| ((m .& 0x03) .<< 6))) 0x3F = Z.land (byte v) 0x3F.
Proof.
  intros Hm.
  pose (P := fun b => forallb (fun m =>
               (Z.shiftr (byte ((b .& 0x3F) .| ((m .& 0x03) .<< 6))) 6 =? m)
               && (Z.land (byte ((b .& 0x3F) .| ((m .& 0x03) .<< 6))) 0x3F
                   =? Z.land b 0x3F)) [0; 1]).
  assert (C : P (byte v) = true) by (apply byte_forall; vm_compute; reflexivity).
  unfold P in C. rewrite forallb_forall in C.
  assert (Hin : In m [0; 1]) by (cbn [In]; lia).
  specialize (C m Hin). rewrite andb_true_iff, !Z.eqb_eq in C. exact C.
Qed.

Lemma dio0_zeroed v :
  byte ((byte v .& 0x3F) .| ((0 .& 0x03) .<< 6)) = Z.land (byte v) 0x3F.
Proof.
  pose (P := fun b => byte ((b .& 0x3F) .| ((0 .& 0x03) .<< 6)) =? Z.land b 0x3F).
  assert (C : P (byte v) = true) by (apply byte_forall; vm_compute; reflexivity).
  unfold P in C. rewrite Z.eqb_eq in C. exact C.
Qed.

Lemma dio0_txDone_run v W :
  dio0_txDone (byte v) W =
  if Z.testbit (byte v) 3 then
    (tt, mkWorld (globals W) (after_txDone (chip W))
           (mkRuntime (pulses (runtime W)) (bindings (runtime W))
              (raised (runtime W) ++ [(LORA_EVENT_ID, APP_TX)])
              (spawned (runtime W))))
  else (tt, W).
Proof.
  unfold dio0_txDone. destruct (irq_tests v) as (_ & _ & T). rewrite T, negb_involutive.
  destruct (Z.testbit (byte v) 3); [|reflexivity].
  unfold setDio0Mapping, setMode. unfold_monad. run_bus. reflexivity.
Qed.

Lemma after_txDone_regs c :
  Z.shiftr (byte (regs (after_txDone c) REG_DIO_MAPPING_1)) 6 = 0 /\
  byte (regs (after_txDone c) REG_OP_MODE) = Z.lor MODE_LONG_RANGE MODE_RX_CONTINUOUS /\
  por (after_txDone c) = por c /\
  accesses (after_txDone c) =
    accesses c ++ [RegWr REG_IRQ_FLAGS 0xFF;
                   RegRd REG_DIO_MAPPING_1 (byte (regs c REG_DIO_MAPPING_1));
                   RegWr REG_DIO_MAPPING_1 (Z.land (byte (regs c REG_DIO_MAPPING_1)) 0x3F);
                   RegWr REG_OP_MODE 0x85].
Proof.
  unfold after_txDone. cbv zeta.
  destruct (dio0_field (regs c REG_DIO_MAPPING_1) 0 (or_introl eq_refl)) as [D1 D2].
  split; [|split; [|split]].
  - read_regs. rewrite byte_idem. exact D1.
  - read_regs. reflexivity.
  - reflexivity.
  - read_log. read_regs. rewrite dio0_zeroed. reflexivity.
Qed.

(** The two ways through the handler: the CRC branch, which clears the
    flags and returns, and every other case, which reaches the TxDone path
    from a state [W] where the mode, the DIO mapping and [_inited] are
    still those of the start. *)
Lemma dio0_event_cases w :
  let f := reg w REG_IRQ_FLAGS in
  (Z.testbit f 6 = true /\ Z.testbit f 5 = true /\
   dio0_event w =
   (tt, mkWorld (globals w)
          (bus_write REG_IRQ_FLAGS IRQ_CLEAR_ALL (bus_read REG_IRQ_FLAGS (chip w)))
          (runtime w))) \/
  (exists W,
     (Z.testbit f 6 = false \/ Z.testbit f 5 = false) /\
     dio0_event w = dio0_txDone f W /\
     _inited (globals W) = _inited (globals w) /\
     regs (chip W) REG_OP_MODE = regs (chip w) REG_OP_MODE /\
     regs (chip W) REG_DIO_MAPPING_1 = regs (chip w) REG_DIO_MAPPING_1 /\
     por (chip W) = por (chip w) /\
     pulses (runtime W) = pulses (runtime w) /\
     bindings (runtime W) = bindings (runtime w) /\
     raised (runtime W) = raised (runtime w) /\
     (Z.testbit f 6 = false ->
      W = mkWorld (globals w) (bus_read REG_IRQ_FLAGS (chip w)) (runtime w)) /\
     (Z.testbit f 6 = true ->
      _lastRssi (globals W) = reg w REG_PKT_RSSI_VALUE - 157 /\
      _lastSnrRaw (globals W) = reg w REG_PKT_SNR_VALUE)).
Proof.
  intros f. subst f. unfold reg.
  destruct (irq_tests (regs (chip w) REG_IRQ_FLAGS)) as (T6 & T5 & _).
  unfold dio0_event. unfold_monad. rewrite readReg_run by addr_ok. project.
  rewrite T6, T5, !negb_involutive.
  destruct (Z.testbit (byte (regs (chip w) REG_IRQ_FLAGS)) 6) eqn:B6.
  - destruct (Z.testbit (byte (regs (chip w) REG_IRQ_FLAGS)) 5) eqn:B5.
    + left. split; [reflexivity|]. split; [reflexivity|]. run_bus. reflexivity.
    + right. run_bus.
      destruct (_rxHandler (globals w)); project;
        (eexists; split; [right; reflexivity|];
         split; [reflexivity|]; project;
         repeat split; intros; try reflexivity; try discriminate;
         unfold reg;
         read_regs; rewrite ?por_bus_write, ?por_bus_read, ?por_bus_burst_read;
         reflexivity).
  - right. eexists. split; [left; reflexivity|].
    split; [reflexivity|]. project.
    repeat split; intros; try reflexivity; discriminate.
Qed.

Lemma reg_raise_irq flags w : reg (raise_irq flags w) REG_IRQ_FLAGS = byte flags.
Proof. reflexivity. Qed.

Lemma reg_raise_irq_other flags w a :
  a <> REG_IRQ_FLAGS -> reg (raise_irq flags w) a = reg w a.
Proof.
  intros H. unfold reg, raise_irq, radio_update, upd. cbn [chip regs].
  destruct (Z.eqb_spec a REG_IRQ_FLAGS); [contradiction | reflexivity].
Qed.

(** Whenever the handler gets past the CRC branch with transmit-complete
    set, the TxDone path runs: the DIO0 field is put back to
    receive-complete, then the mode register is set to continuous receive,
    and the send event is raised. *)
Lemma txDone_path_runs w :
  let f := reg w REG_IRQ_FLAGS in
  Z.testbit f 3 = true ->
  Z.testbit f 6 = false \/ Z.testbit f 5 = false ->
  let w' := exec dio0_event w in
  dio0_mapping w' = DIO0_RX_DONE /\
  reg w' REG_OP_MODE = Z.lor MODE_LONG_RANGE MODE_RX_CONTINUOUS /\
  raised (runtime w') = raised (runtime w) ++ [(LORA_EVENT_ID, APP_TX)] /\
  _inited (globals w') = _inited (globals w) /\
  por (chip w') = por (chip w).
Proof.
  intros f B3 Hrx w'. subst w'. unfold exec.
  destruct (dio0_event_cases w) as [(B6 & B5 & _) | (W & _ & E & Hi & _ & _ & Hp & _ & _ & Hr & _ & _)].
  - fold f in B6, B5. destruct Hrx; congruence.
  - rewrite E. fold f. unfold f, reg. rewrite dio0_txDone_run.
    fold (reg w REG_IRQ_FLAGS). fold f. rewrite B3. cbn [snd].
    destruct (after_txDone_regs (chip W)) as (D & O & P & _).
    unfold dio0_mapping, reg. project.
    rewrite D, O, P, Hr, Hi, Hp. repeat split; reflexivity.
Qed.

(** The CRC branch: one flag read, one flag write, then the [return]. *)
Lemma crc_branch_run w :
  Z.testbit (reg w REG_IRQ_FLAGS) 6 = true ->
  Z.testbit (reg w REG_IRQ_FLAGS) 5 = true ->
  exec dio0_event w =
  mkWorld (globals w)
          (bus_write REG_IRQ_FLAGS IRQ_CLEAR_ALL (bus_read REG_IRQ_FLAGS (chip w)))
          (runtime w).
Proof.
  intros B6 B5. unfold exec.
  destruct (dio0_event_cases w) as [(_ & _ & E) | (W & [B | B] & _)].
  - rewrite E. reflexivity.
  - congruence.
  - congruence.
Qed.

Lemma flags_cleared v : byte (Z.land (byte v) (Z.lxor 255 (byte IRQ_CLEAR_ALL))) = 0.
Proof.
  change (Z.lxor 255 (byte IRQ_CLEAR_ALL)) with 0. rewrite Z.land_0_r. reflexivity.
Qed.

(* ------------------------------------------------------------------ *)
(** ** CRC errors *)

(** C4. When the handler reads a status byte with receive-complete and
    payload-CRC-error both set, it writes the clear-all byte to the flag
    register and does nothing else: the bus sees the flag read and the flag
    write only (no access to the FIFO port), the flags read back as zero,
    the FIFO and its pointer are untouched, no handler call is spawned and
    the globals, last RSSI and raw SNR among them, are unchanged. *)
Theorem crc_error_discards_packet (w : World) :
  Z.testbit (reg w REG_IRQ_FLAGS) 6 = true ->
  Z.testbit (reg w REG_IRQ_FLAGS) 5 = true ->
  let w' := exec dio0_event w in
  log w' = log w ++ [RegRd REG_IRQ_FLAGS (reg w REG_IRQ_FLAGS);
                     RegWr REG_IRQ_FLAGS IRQ_CLEAR_ALL] /\
  (forall a, In a (skipn (List.length (log w)) (log w')) ->
             forall v, a <> RegRd REG_FIFO v) /\
  reg w' REG_IRQ_FLAGS = 0 /\
  fifo (chip w') = fifo (chip w) /\
  reg w' REG_FIFO_ADDR_PTR = reg w REG_FIFO_ADDR_PTR /\
  spawned (runtime w') = spawned (runtime w) /\
  runtime w' = runtime w /\
  _lastRssi (globals w') = _lastRssi (globals w) /\
  _lastSnrRaw (globals w') = _lastSnrRaw (globals w) /\
  globals w' = globals w.
Proof.
  intros B6 B5 w'.
  assert (E : w' = mkWorld (globals w)
                     (bus_write REG_IRQ_FLAGS IRQ_CLEAR_ALL
                        (bus_read REG_IRQ_FLAGS (chip w)))
                     (runtime w)) by (apply crc_branch_run; assumption).
  assert (L : log w' = log w ++ [RegRd REG_IRQ_FLAGS (reg w REG_IRQ_FLAGS);
                                 RegWr REG_IRQ_FLAGS IRQ_CLEAR_ALL]).
  { rewrite E. unfold log, reg. project. read_log. reflexivity. }
  split; [exact L|].
  split.
  { rewrite L, skipn_app, skipn_all, Nat.sub_diag. cbn [skipn app In].
    intros a [Ha | [Ha | []]] v; subst a; discriminate. }
  rewrite E. unfold reg. project.
  split; [read_regs; apply flags_cleared|].
  repeat split; reflexivity.
Qed.

Lemma crc_error_discards_packet_witness :
  let w := raise_irq 0x60 ready in
  log (exec dio0_event w) =
  log w ++ [RegRd REG_IRQ_FLAGS (reg w REG_IRQ_FLAGS); RegWr REG_IRQ_FLAGS IRQ_CLEAR_ALL].
Proof.
  exact (proj1 (crc_error_discards_packet (raise_irq 0x60 ready) eq_refl eq_refl)).
Defined.

(* ------------------------------------------------------------------ *)
(** ** Transmit-complete together with a CRC error *)

(** C3, at the status byte 0x68 (receive-complete, CRC error and
    transmit-complete all set).  From any state the handler clears the
    flags and returns from the CRC branch: the bus sees the flag read and
    the flag write only, the DIO mapping and the mode register keep their
    values and no send event is raised, although bit 3 was set in the byte
    read.  With the CRC bit clear (0x48) the TxDone path does run. *)
Theorem crc_return_skips_txDone (w : World) :
  let w' := exec dio0_event (raise_irq 0x68 w) in
  let w'' := exec dio0_event (raise_irq 0x48 w) in
  Z.testbit (reg (raise_irq 0x68 w) REG_IRQ_FLAGS) 3 = true /\
  log w' = log w ++ [RegRd REG_IRQ_FLAGS 0x68; RegWr REG_IRQ_FLAGS IRQ_CLEAR_ALL] /\
  reg w' REG_DIO_MAPPING_1 = reg w REG_DIO_MAPPING_1 /\
  reg w' REG_OP_MODE = reg w REG_OP_MODE /\
  raised (runtime w') = raised (runtime w) /\
  reg w' REG_IRQ_FLAGS = 0 /\
  raised (runtime w'') = raised (runtime w) ++ [(LORA_EVENT_ID, APP_TX)] /\
  dio0_mapping w'' = DIO0_RX_DONE /\
  reg w'' REG_OP_MODE = Z.lor MODE_LONG_RANGE MODE_RX_CONTINUOUS.
Proof.
  intros w' w''.
  pose proof (crc_branch_run (raise_irq 0x68 w) eq_refl eq_refl) as E.
  pose proof (txDone_path_runs (raise_irq 0x48 w) eq_refl (or_intror eq_refl)) as T.
  cbv zeta in T. destruct T as (D & O & Rz & _).
  subst w' w''.
  refine (conj eq_refl (conj _ (conj _ (conj _ (conj _ (conj _ (conj Rz (conj D O))))))));
    rewrite E; unfold log, reg; project.
  - read_log. reflexivity.
  - read_regs. reflexivity.
  - read_regs. reflexivity.
  - reflexivity.
  - read_regs. apply flags_cleared.
Qed.

(* ------------------------------------------------------------------ *)
(** ** Effect of each call on mode, routing and stored metrics *)

Lemma sendBuffer_effect buf w :
  _inited (globals w) = true ->
  let w' := exec (sendBuffer buf) w in
  globals w' = globals w /\
  runtime w' = runtime w /\
  por (chip w') = por (chip w) /\
  reg w' REG_OP_MODE = Z.lor MODE_LONG_RANGE MODE_TX /\
  dio0_mapping w' = DIO0_TX_DONE.
Proof.
  intros Hi w'. subst w'.
  unfold sendBuffer, setMode, setDio0Mapping, dio0_mapping, reg. unfold_monad. project.
  rewrite Hi. cbn [negb]. run_bus.
  split; [reflexivity|]. split; [reflexivity|].
  split; [rewrite ?por_bus_write, ?por_bus_burst_write, ?por_bus_read; reflexivity|].
  split; [read_regs; reflexivity|].
  read_regs. rewrite byte_idem.
  apply (dio0_field (regs (chip w) REG_DIO_MAPPING_1) 1). right. reflexivity.
Qed.

Lemma sendString_is_sendBuffer value w :
  exec (sendString value) w = exec (sendBuffer (control.createBufferFromUTF8 value)) w.
Proof.
  unfold sendString, sendBuffer, exec, bind, read_global, ret.
  destruct (_inited (globals w)) eqn:Hi; cbn [negb fst snd]; [|reflexivity].
  rewrite Hi. reflexivity.
Qed.

Ltac frame_goal :=
  unfold same_mode_and_routing, same_metrics, reg; project;
  repeat split; try reflexivity;
  read_regs; rewrite ?por_bus_write, ?por_bus_read; reflexivity.

(** The setters, the accessors and the handler registrations touch neither
    the mode nor the routing nor the metrics. *)
Lemma setter_frame c w :
  match c with
  | CallInit _ | CallSendString _ | CallSendBuffer _ => False
  | _ => True
  end ->
  same_mode_and_routing w (call c w) /\ same_metrics w (call c w).
Proof.
  destruct c; cbn [call]; intros H; try contradiction; clear H.
  - unfold onReceivedString. unfold_monad. frame_goal.
  - unfold onSent. unfold_monad. frame_goal.
  - unfold receivedSignalStrength. unfold_monad. frame_goal.
  - unfold receivedSnr. unfold_monad. frame_goal.
  - unfold channelRssi. unfold_monad. project.
    destruct (_inited (globals w)); cbn [negb]; run_bus; frame_goal.
  - unfold setTxPower. unfold_monad. project.
    destruct (_inited (globals w)) eqn:Hi; cbn [negb]; [|frame_goal].
    destruct (dBm =? 20); run_bus; frame_goal.
  - unfold setSpreadingFactor, applyLdro. unfold_monad. project.
    destruct (_inited (globals w)) eqn:Hi; cbn [negb]; [|frame_goal].
    project. run_bus. frame_goal.
  - unfold setBandwidth, applyLdro. unfold_monad. project.
    destruct (_inited (globals w)) eqn:Hi; cbn [negb]; [|frame_goal].
    project. run_bus. frame_goal.
  - unfold setCodingRate. unfold_monad. project.
    destruct (_inited (globals w)) eqn:Hi; cbn [negb]; [|frame_goal].
    run_bus. frame_goal.
  - unfold setSyncWord. unfold_monad. project.
    destruct (_inited (globals w)) eqn:Hi; cbn [negb]; [|frame_goal].
    run_bus. frame_goal.
Qed.

(* ------------------------------------------------------------------ *)
(** ** Interrupt routing and operating state *)

Lemma routing_ok_frame w w' :
  same_mode_and_routing w w' -> routing_ok w -> routing_ok w'.
Proof.
  intros (Hi & Ho & Hd) [R1 R2].
  unfold routing_ok, radioState, dio0_mapping in *.
  rewrite Hi, Ho, Hd. split; assumption.
Qed.

Lemma routing_ok_transmitting w :
  _inited (globals w) = true ->
  reg w REG_OP_MODE = Z.lor MODE_LONG_RANGE MODE_TX ->
  dio0_mapping w = DIO0_TX_DONE ->
  routing_ok w.
Proof.
  intros Hi Ho Hd. unfold routing_ok, radioState. rewrite Hi, Ho, Hd.
  split; [reflexivity | discriminate].
Qed.

Lemma routing_ok_rx_routed w :
  dio0_mapping w = DIO0_RX_DONE -> routing_ok w.
Proof.
  intros Hd. unfold routing_ok. rewrite Hd. split; [discriminate | reflexivity].
Qed.

Lemma routing_ok_uninitialized w :
  _inited (globals w) = false ->
  dio0_mapping w <> DIO0_TX_DONE ->
  routing_ok w.
Proof.
  intros Hi Hd. unfold routing_ok, radioState. rewrite Hi.
  split; [contradiction | discriminate].
Qed.

(** Every event keeps the reset values of the chip, and keeps the routing
    invariant provided the chip does not come out of reset with DIO0 on
    transmit-complete. *)
Lemma fire_keeps_routing e w :
  Z.shiftr (byte (por (chip w) REG_DIO_MAPPING_1)) 6 <> DIO0_TX_DONE ->
  enabled e w ->
  routing_ok w ->
  routing_ok (fire e w) /\ por (chip (fire e w)) = por (chip w).
Proof.
  intros Hpor Hen Hok.
  destruct e as [c | rg ff | |]; cbn [fire enabled] in *.
  - (* a call *)
    destruct c;
      try (match goal with |- context [call ?c w] =>
             destruct (setter_frame c w I) as [F (_ & _ & P)] end;
           split; [exact (routing_ok_frame _ _ F Hok) | exact P]).
    + (* init *)
      cbn [call].
      destruct (Z.eq_dec (byte (por (chip w) REG_VERSION)) 0x12) as [Hv | Hv].
      * destruct (init_success band w Hv) as (_ & _ & P & _ & D & _).
        split; [|exact P].
        apply routing_ok_rx_routed. unfold dio0_mapping. rewrite D. reflexivity.
      * rewrite (init_failure band w Hv). split; [|reflexivity].
        apply routing_ok_uninitialized; [reflexivity | exact Hpor].
    + (* sendString *)
      cbn [call]. rewrite sendString_is_sendBuffer.
      destruct (_inited (globals w)) eqn:Hi.
      * destruct (sendBuffer_effect (control.createBufferFromUTF8 value) w Hi)
          as (G & _ & P & O & D).
        split; [|exact P].
        apply routing_ok_transmitting; [rewrite G; exact Hi | exact O | exact D].
      * unfold exec, sendBuffer, bind, read_global. rewrite Hi. cbn [negb ret snd].
        split; [exact Hok | reflexivity].
    + (* sendBuffer *)
      cbn [call].
      destruct (_inited (globals w)) eqn:Hi.
      * destruct (sendBuffer_effect buf w Hi) as (G & _ & P & O & D).
        split; [|exact P].
        apply routing_ok_transmitting; [rewrite G; exact Hi | exact O | exact D].
      * unfold exec, sendBuffer, bind, read_global. rewrite Hi. cbn [negb ret snd].
        split; [exact Hok | reflexivity].
  - (* the radio *)
    destruct Hen as [Ho Hd]. split; [|reflexivity].
    apply (routing_ok_frame w); [|exact Hok].
    unfold same_mode_and_routing, reg, radio_update. cbn [globals chip regs].
    rewrite Ho, Hd. repeat split; reflexivity.
  - (* the pulse *)
    split; [|reflexivity].
    apply (routing_ok_frame w); [|exact Hok]. repeat split; reflexivity.
  - (* the deferred handler *)
    unfold exec.
    destruct (dio0_event_cases w)
      as [(_ & _ & E) | (W & _ & E & Hi & Ho & Hd & Hp & _)].
    + rewrite E. cbn [snd]. split; [|reflexivity].
      apply (routing_ok_frame w); [|exact Hok].
      unfold same_mode_and_routing, reg. project. repeat split; read_regs; reflexivity.
    + assert (F : same_mode_and_routing w W).
      { unfold same_mode_and_routing, reg. rewrite Hi, Ho, Hd. repeat split; reflexivity. }
      rewrite E.
      change (reg w REG_IRQ_FLAGS) with (byte (regs (chip w) REG_IRQ_FLAGS)).
      rewrite dio0_txDone_run.
      destruct (Z.testbit (byte (regs (chip w) REG_IRQ_FLAGS)) 3); cbn [snd].
      * destruct (after_txDone_regs (chip W)) as (D & _ & P & _).
        split; [|cbn [chip]; rewrite P; exact Hp].
        apply routing_ok_rx_routed. unfold dio0_mapping, reg. cbn [chip]. exact D.
      * split; [exact (routing_ok_frame _ _ F Hok) | exact Hp].
Qed.

(** The handler whenever it reaches the TxDone path with bit 3 set: the
    last four accesses on the bus are the clear-all write, the read and the
    write-back of the DIO mapping with the DIO0 field zeroed, and only then
    the mode write that re-enters continuous receive. *)
Lemma txDone_log w :
  Z.testbit (reg w REG_IRQ_FLAGS) 3 = true ->
  Z.testbit (reg w REG_IRQ_FLAGS) 6 = false \/ Z.testbit (reg w REG_IRQ_FLAGS) 5 = false ->
  exists earlier,
    log (exec dio0_event w) =
    earlier ++ [RegWr REG_IRQ_FLAGS IRQ_CLEAR_ALL;
                RegRd REG_DIO_MAPPING_1 (reg w REG_DIO_MAPPING_1);
                RegWr REG_DIO_MAPPING_1 (Z.land (reg w REG_DIO_MAPPING_1) 0x3F);
                RegWr REG_OP_MODE (Z.lor MODE_LONG_RANGE MODE_RX_CONTINUOUS)].
Proof.
  intros B3 HB. unfold exec.
  destruct (dio0_event_cases w)
    as [(B6 & B5 & _) | (W & _ & E & _ & _ & Hd & _)];
    [destruct HB; congruence|].
  rewrite E.
  change (reg w REG_IRQ_FLAGS) with (byte (regs (chip w) REG_IRQ_FLAGS)).
  rewrite dio0_txDone_run.
  fold (reg w REG_IRQ_FLAGS). rewrite B3. cbn [snd]. unfold log. cbn [chip].
  destruct (after_txDone_regs (chip W)) as (_ & _ & _ & L). rewrite L.
  exists (accesses (chip W)). unfold reg. rewrite Hd. reflexivity.
Qed.

(** C2. Take the states between driver operations: calls of the exported
    functions and runs of the handlers are atomic, the radio changes
    registers other than the mode and the DIO mapping on its own.  On a
    chip that does not come out of reset with DIO0 on transmit-complete, in
    every reachable state the DIO0 mapping is transmit-complete only if the
    state is Transmitting, and in the Receiving state it is
    receive-complete.  The handler that ends a transmission writes the
    mapping back to receive-complete before it writes the receive mode:
    these are the last accesses of its run. *)
Theorem routing_follows_state (reset_values : Z -> Z) :
  Z.shiftr (byte (reset_values REG_DIO_MAPPING_1)) 6 <> DIO0_TX_DONE ->
  (forall w, reachable (boot reset_values) w ->
     (dio0_mapping w = DIO0_TX_DONE -> radioState w = Some Transmitting) /\
     (radioState w = Some Receiving -> dio0_mapping w = DIO0_RX_DONE)) /\
  (forall w,
     Z.testbit (reg w REG_IRQ_FLAGS) 3 = true ->
     Z.testbit (reg w REG_IRQ_FLAGS) 6 = false \/ Z.testbit (reg w REG_IRQ_FLAGS) 5 = false ->
     exists earlier,
       log (exec dio0_event w) =
       earlier ++ [RegWr REG_IRQ_FLAGS IRQ_CLEAR_ALL;
                   RegRd REG_DIO_MAPPING_1 (reg w REG_DIO_MAPPING_1);
                   RegWr REG_DIO_MAPPING_1 (Z.land (reg w REG_DIO_MAPPING_1) 0x3F);
                   RegWr REG_OP_MODE (Z.lor MODE_LONG_RANGE MODE_RX_CONTINUOUS)]).
Proof.
  intros Hpor. split; [|exact txDone_log].
  assert (Inv : forall w, reachable (boot reset_values) w ->
                          routing_ok w /\ por (chip w) = reset_values).
  { intros w Hr. induction Hr as [|e w Hr [IHok IHpor] Hen].
    - split; [|reflexivity].
      apply routing_ok_uninitialized; [reflexivity | exact Hpor].
    - destruct (fire_keeps_routing e w) as [Hok Hp]; try assumption.
      + rewrite IHpor. exact Hpor.
      + split; [exact Hok | rewrite Hp; exact IHpor]. }
  intros w Hr. exact (proj1 (Inv w Hr)).
Qed.

Lemma routing_follows_state_witness :
  let w := fire (EvCall (CallSendBuffer [1; 2; 3]))
             (fire (EvCall (CallInit EU868)) (boot sx1276_por)) in
  dio0_mapping w = DIO0_TX_DONE /\ radioState w = Some Transmitting.
Proof.
  intros w.
  assert (Hpor : Z.shiftr (byte (sx1276_por REG_DIO_MAPPING_1)) 6 <> DIO0_TX_DONE)
    by (vm_compute; discriminate).
  assert (Hr : reachable (boot sx1276_por) w).
  { subst w. apply reach_step; [|exact I]. apply reach_step; [|exact I]. apply reach_start. }
  assert (Hd : dio0_mapping w = DIO0_TX_DONE) by (vm_compute; reflexivity).
  split; [exact Hd|].
  exact (proj1 (proj1 (routing_follows_state sx1276_por Hpor) w Hr) Hd).
Defined.

(* ------------------------------------------------------------------ *)
(** ** The last-packet metrics *)

(** An event that takes no packet leaves the stored metrics alone. *)
Lemma fire_keeps_metrics e w :
  takes_packet e w = false ->
  _lastRssi (globals (fire e w)) = _lastRssi (globals w) /\
  _lastSnrRaw (globals (fire e w)) = _lastSnrRaw (globals w).
Proof.
  intros Hq.
  destruct e as [c | rg ff | |]; cbn [fire takes_packet] in *.
  - destruct c;
      try (match goal with |- context [call ?c w] =>
             destruct (setter_frame c w I) as [_ (R & S & _)] end;
           split; [exact R | exact S]).
    + cbn [call].
      destruct (Z.eq_dec (byte (por (chip w) REG_VERSION)) 0x12) as [Hv | Hv].
      * destruct (init_success band w Hv) as (G & _). rewrite G. split; reflexivity.
      * rewrite (init_failure band w Hv). split; reflexivity.
    + cbn [call]. rewrite sendString_is_sendBuffer.
      destruct (_inited (globals w)) eqn:Hi.
      * destruct (sendBuffer_effect (control.createBufferFromUTF8 value) w Hi) as (G & _).
        rewrite G. split; reflexivity.
      * unfold exec, sendBuffer, bind, read_global. rewrite Hi. split; reflexivity.
    + cbn [call].
      destruct (_inited (globals w)) eqn:Hi.
      * destruct (sendBuffer_effect buf w Hi) as (G & _). rewrite G. split; reflexivity.
      * unfold exec, sendBuffer, bind, read_global. rewrite Hi. split; reflexivity.
  - split; reflexivity.
  - split; reflexivity.
  - unfold exec.
    destruct (dio0_event_cases w)
      as [(_ & _ & E) | (W & HB & E & _ & _ & _ & _ & _ & _ & _ & EW & _)].
    + rewrite E. split; reflexivity.
    + assert (B6 : Z.testbit (reg w REG_IRQ_FLAGS) 6 = false).
      { destruct HB as [B | B]; [exact B|].
        rewrite B, andb_true_r in Hq. exact Hq. }
      rewrite E, (EW B6).
      change (reg w REG_IRQ_FLAGS) with (byte (regs (chip w) REG_IRQ_FLAGS)).
      rewrite dio0_txDone_run.
      destruct (Z.testbit (byte (regs (chip w) REG_IRQ_FLAGS)) 3); split; reflexivity.
Qed.

(** From power-up until the handler first takes a packet, both stored
    metrics are 0. *)
Lemma metrics_zero_before_rx reset_values w :
  reachable_before_rx (boot reset_values) w ->
  _lastRssi (globals w) = 0 /\ _lastSnrRaw (globals w) = 0.
Proof.
  intros Hr. induction Hr as [|e w Hr [IH1 IH2] Hen Hq]; [split; reflexivity|].
  destruct (fire_keeps_metrics e w Hq) as [R S]. rewrite R, S. split; assumption.
Qed.

(** *** Signal-to-noise ratio *)

Lemma sign_bit_of_byte raw : 0 <= raw < 256 -> (127 <? raw) = Z.testbit raw 7.
Proof.
  intros H.
  pose (P := fun b => Bool.eqb (127 <? b) (Z.testbit b 7)).
  assert (C : P raw = true) by (apply (forallb_range P 256); [vm_compute; reflexivity | lia]).
  apply Bool.eqb_prop in C. exact C.
Qed.

Lemma quarter_is_division (z : Z) : (z # 4 == inject_Z z / 4)%Q.
Proof.
  unfold Qeq, Qdiv, Qmult, Qinv, inject_Z. cbn [Qnum Qden]. lia.
Qed.

(** C9. For a stored raw SNR byte (0..255), [receivedSnr] returns the byte
    read as a two's-complement signed 8-bit value, divided by 4, and leaves
    the state as it is; 0xFF gives -0.25, 0x08 gives 2, and from power-up
    until the handler first takes a packet (the stored raw value is then
    still 0) the result is 0. *)
Theorem receivedSnr_decodes (w : World) :
  0 <= _lastSnrRaw (globals w) < 256 ->
  (eval receivedSnr w == inject_Z (signed8 (_lastSnrRaw (globals w))) / 4)%Q /\
  exec receivedSnr w = w /\
  (_lastSnrRaw (globals w) = 0xFF -> (eval receivedSnr w == - (1 # 4))%Q) /\
  (_lastSnrRaw (globals w) = 0x08 -> (eval receivedSnr w == 2)%Q) /\
  (_lastSnrRaw (globals w) = 0 -> (eval receivedSnr w == 0)%Q) /\
  (forall reset_values w0,
     reachable_before_rx (boot reset_values) w0 -> (eval receivedSnr w0 == 0)%Q).
Proof.
  intros Hb.
  assert (E : forall W, eval receivedSnr W =
            ((if 127 <? _lastSnrRaw (globals W)
              then _lastSnrRaw (globals W) - 256
              else _lastSnrRaw (globals W)) # 4)) by reflexivity.
  split.
  { rewrite E, (sign_bit_of_byte _ Hb). unfold signed8.
    change (2 ^ 8) with 256. apply quarter_is_division. }
  split; [reflexivity|].
  split; [intros R; rewrite E, R; reflexivity|].
  split; [intros R; rewrite E, R; reflexivity|].
  split; [intros R; rewrite E, R; reflexivity|].
  intros rv w0 Hr. destruct (metrics_zero_before_rx rv w0 Hr) as [_ S].
  rewrite E, S. reflexivity.
Qed.

Lemma receivedSnr_decodes_witness :
  _lastSnrRaw (globals heard) = 0xFF /\ (eval receivedSnr heard == - (1 # 4))%Q.
Proof.
  assert (R : _lastSnrRaw (globals heard) = 0xFF) by (vm_compute; reflexivity).
  split; [exact R|].
  assert (B : 0 <= _lastSnrRaw (globals heard) < 256) by (rewrite R; lia).
  exact (proj1 (proj2 (proj2 (receivedSnr_decodes heard B))) R).
Defined.

(** *** The accessors *)

(** C10. [receivedSignalStrength] and [receivedSnr] read the stored values
    and nothing else: called in any state, initialized or not, they return
    with the whole state (driver, chip, bus log) as it was.  From power-up
    and for as long as the handler has taken no packet (no run with
    receive-complete set and the CRC bit clear) both return 0; a run that
    takes a packet stores the RSSI register minus 157 and the raw SNR
    register. *)
Theorem metrics_are_reads_and_zero_before_rx :
  (forall w, receivedSignalStrength w = (_lastRssi (globals w), w)) /\
  (forall w, exec receivedSnr w = w) /\
  (forall reset_values w,
     reachable_before_rx (boot reset_values) w ->
     eval receivedSignalStrength w = 0 /\ (eval receivedSnr w == 0)%Q) /\
  (forall w,
     Z.testbit (reg w REG_IRQ_FLAGS) 6 = true ->
     Z.testbit (reg w REG_IRQ_FLAGS) 5 = false ->
     let w' := exec dio0_event w in
     eval receivedSignalStrength w' = reg w REG_PKT_RSSI_VALUE - 157 /\
     _lastSnrRaw (globals w') = reg w REG_PKT_SNR_VALUE).
Proof.
  split; [reflexivity|]. split; [reflexivity|]. split.
  - intros rv w Hr.
    destruct (metrics_zero_before_rx rv w Hr) as [R S]. split; [exact R|].
    unfold eval, receivedSnr, bind, read_global, ret. cbn [fst]. rewrite S. reflexivity.
  - intros w B6 B5 w'. subst w'. unfold eval, exec, receivedSignalStrength, read_global.
    cbn [fst].
    destruct (dio0_event_cases w)
      as [(_ & B5' & _) | (W & _ & E & _ & _ & _ & _ & _ & _ & _ & _ & ERX)]; [congruence|].
    destruct (ERX B6) as [R S].
    rewrite E.
    change (reg w REG_IRQ_FLAGS) with (byte (regs (chip w) REG_IRQ_FLAGS)).
    rewrite dio0_txDone_run.
    destruct (Z.testbit (byte (regs (chip w) REG_IRQ_FLAGS)) 3); cbn [snd globals];
      split; assumption.
Qed.

Lemma metrics_are_reads_and_zero_before_rx_witness :
  let w1 := fire (EvCall (CallInit EU868)) (boot sx1276_por) in
  let w2 := fire (EvRadio (upd (regs (chip w1)) REG_IRQ_FLAGS 0x60) (fifo (chip w1))) w1 in
  let w3 := fire EvDio0 w2 in
  eval receivedSignalStrength w3 = 0 /\ (eval receivedSnr w3 == 0)%Q.
Proof.
  intros w1 w2 w3.
  destruct metrics_are_reads_and_zero_before_rx as (_ & _ & H & _).
  apply (H sx1276_por).
  assert (R1 : reachable_before_rx (boot sx1276_por) w1)
    by (exact (quiet_step _ (EvCall (CallInit EU868)) _ (quiet_start _) I eq_refl)).
  assert (R2 : reachable_before_rx (boot sx1276_por) w2)
    by (exact (quiet_step _ (EvRadio (upd (regs (chip w1)) REG_IRQ_FLAGS 0x60)
                                     (fifo (chip w1))) w1 R1
                          (conj eq_refl eq_refl) eq_refl)).
  refine (quiet_step _ EvDio0 w2 R2 _ _).
  - cbn [enabled]. vm_compute. left. reflexivity.
  - vm_compute. reflexivity.
Defined.

(* ------------------------------------------------------------------ *)
(** * Further properties of the driver *)

(** ** Single registers over the bus *)

Lemma byte_add_l x y : byte (byte x + y) = byte (x + y).
Proof.
  unfold byte. change 255 with (Z.ones 8). rewrite !Z.land_ones by lia.
  apply Zplus_mod_idemp_l.
Qed.

Lemma fifo_bus_read a c : fifo (bus_read a c) = fifo c.
Proof. reflexivity. Qed.

Lemma fifo_bus_write a v c : fifo (bus_write a v c) = fifo c.
Proof. reflexivity. Qed.

(** X1. A register written with [writeReg] reads back with [readReg] as
    the low eight bits of the value, whatever the chip-select state the
    pair starts from; the write changes no other register and the read
    changes none.  (Addresses 1..0x7F, the flag register apart, whose write
    clears flags.) *)
Theorem register_write_then_read (w : World) (a v : Z) :
  1 <= a <= 127 ->
  a <> REG_IRQ_FLAGS ->
  eval (writeReg a v ;; readReg a) w = byte v /\
  (forall b, b <> a -> reg (exec (writeReg a v) w) b = reg w b) /\
  (forall b, reg (exec (readReg a) w) b = reg w b).
Proof.
  intros Ha Hirq. split; [|split].
  - unfold eval, bind. rewrite writeReg_run by exact Ha.
    rewrite readReg_run by exact Ha. cbn [fst chip].
    rewrite regs_bus_write by exact Hirq. rewrite Z.eqb_refl. apply byte_idem.
  - intros b Hb. unfold exec, reg. rewrite writeReg_run by exact Ha. cbn [snd chip].
    rewrite regs_bus_write by exact Hirq.
    destruct (Z.eqb_spec b a); [contradiction | reflexivity].
  - intros b. unfold exec, reg. rewrite readReg_run by exact Ha. reflexivity.
Qed.

Lemma register_write_then_read_witness :
  eval (writeReg REG_SYNC_WORD 0x142 ;; readReg REG_SYNC_WORD) (boot sx1276_por) = 0x42.
Proof.
  assert (Ha : 1 <= REG_SYNC_WORD <= 127) by (unfold REG_SYNC_WORD; lia).
  assert (Hi : REG_SYNC_WORD <> REG_IRQ_FLAGS) by discriminate.
  destruct (register_write_then_read (boot sx1276_por) REG_SYNC_WORD 0x142 Ha Hi)
    as [H _].
  exact H.
Defined.

(** ** The FIFO port *)

Lemma fifo_store_ptr buf : forall c,
  byte (regs (fifo_store buf c) REG_FIFO_ADDR_PTR) =
  byte (byte (regs c REG_FIFO_ADDR_PTR) + Z.of_nat (List.length buf)).
Proof.
  induction buf as [|b rest IH]; intros c; cbn [fifo_store List.length].
  - rewrite Z.add_0_r. symmetry. apply byte_idem.
  - rewrite IH. unfold chip_write. cbn [Z.eqb REG_FIFO regs]. unfold upd.
    rewrite Z.eqb_refl, byte_idem, byte_add_l. f_equal. lia.
Qed.

Lemma fifo_store_other buf : forall c q,
  (forall j, 0 <= j < Z.of_nat (List.length buf) ->
             byte (byte (regs c REG_FIFO_ADDR_PTR) + j) <> q) ->
  fifo (fifo_store buf c) q = fifo c q.
Proof.
  induction buf as [|b rest IH]; intros c q Hq; cbn [fifo_store]; [reflexivity|].
  cbn [List.length] in Hq.
  rewrite IH.
  - unfold chip_write. cbn [Z.eqb REG_FIFO fifo]. unfold upd.
    destruct (Z.eqb_spec q (byte (regs c REG_FIFO_ADDR_PTR))) as [E|E]; [|reflexivity].
    exfalso. apply (Hq 0); [lia|]. rewrite Z.add_0_r, byte_idem. symmetry. exact E.
  - intros j Hj. unfold chip_write. cbn [Z.eqb REG_FIFO regs]. unfold upd.
    rewrite Z.eqb_refl, byte_idem, byte_add_l.
    replace (byte (regs c REG_FIFO_ADDR_PTR) + 1 + j)
      with (byte (regs c REG_FIFO_ADDR_PTR) + (1 + j)) by lia.
    apply Hq. lia.
Qed.

Lemma byte_shift_injective p i j :
  0 <= i < 256 -> 0 <= j < 256 -> byte (p + i) = byte (p + j) -> i = j.
Proof.
  intros Hi Hj. unfold byte. change 255 with (Z.ones 8). rewrite !Z.land_ones by lia.
  change (2 ^ 8) with 256. intros E.
  assert (D : (i - j) mod 256 = 0).
  { replace (i - j) with ((p + i) - (p + j)) by lia.
    rewrite Zminus_mod, E, Z.sub_diag. reflexivity. }
  apply Z.mod_divide in D; [|lia]. destruct D as [k Hk]. lia.
Qed.

(** After a burst of at most 256 bytes, the FIFO holds byte [i] of the
    buffer at [i] places past the pointer the burst started from. *)
Lemma fifo_store_at buf : forall c i,
  (List.length buf <= 256)%nat ->
  (i < List.length buf)%nat ->
  fifo (fifo_store buf c) (byte (byte (regs c REG_FIFO_ADDR_PTR) + Z.of_nat i)) =
  byte (nth i buf 0).
Proof.
  induction buf as [|b rest IH]; intros c i Hlen Hi; cbn [List.length] in *; [lia|].
  cbn [fifo_store]. destruct i as [|i].
  - rewrite fifo_store_other.
    + unfold chip_write. cbn [Z.eqb REG_FIFO fifo]. unfold upd.
      rewrite Z.add_0_r, byte_idem, Z.eqb_refl. reflexivity.
    + intros j Hj. unfold chip_write. cbn [Z.eqb REG_FIFO regs]. unfold upd.
      rewrite Z.eqb_refl, byte_idem, byte_add_l. intros E.
      replace (byte (regs c REG_FIFO_ADDR_PTR) + 1 + j)
        with (byte (regs c REG_FIFO_ADDR_PTR) + (1 + j)) in E by lia.
      apply byte_shift_injective in E; lia.
  - specialize (IH (chip_write REG_FIFO (byte b) c) i ltac:(lia) ltac:(lia)).
    cbn [nth]. rewrite <- IH. f_equal.
    assert (P : byte (regs (chip_write REG_FIFO (byte b) c) REG_FIFO_ADDR_PTR) =
                byte (byte (regs c REG_FIFO_ADDR_PTR) + 1)).
    { unfold chip_write. cbn [Z.eqb REG_FIFO regs]. unfold upd.
      rewrite Z.eqb_refl. apply byte_idem. }
    rewrite P, (byte_add_l (byte (regs c REG_FIFO_ADDR_PTR) + 1)). f_equal. lia.
Qed.

Lemma fifo_load_spec n : forall c,
  fst (fifo_load n c) = fifo_window (fifo c) (byte (regs c REG_FIFO_ADDR_PTR)) n /\
  fifo (snd (fifo_load n c)) = fifo c /\
  byte (regs (snd (fifo_load n c)) REG_FIFO_ADDR_PTR) =
  byte (byte (regs c REG_FIFO_ADDR_PTR) + Z.of_nat n).
Proof.
  induction n as [|n IH]; intros c.
  - cbn [fifo_load fst snd]. unfold fifo_window. cbn [seq map].
    rewrite Z.add_0_r, byte_idem. repeat split; reflexivity.
  - cbn [fifo_load]. unfold chip_read. cbn [Z.eqb REG_FIFO].
    match goal with |- context [fifo_load n ?c'] =>
      destruct (IH c') as (I1 & I2 & I3); destruct (fifo_load n c') as [rest c''] end.
    cbn [fst snd fifo regs] in *. unfold upd in *. rewrite Z.eqb_refl in *.
    split; [|split].
    + rewrite I1. unfold fifo_window. cbn [seq map]. f_equal.
      * rewrite Z.add_0_r, byte_idem. reflexivity.
      * rewrite <- seq_shift, map_map. apply map_ext. intros i.
        rewrite byte_idem, byte_add_l. do 3 f_equal. lia.
    + exact I2.
    + rewrite I3, byte_idem, byte_add_l. f_equal. lia.
Qed.

Lemma map_seq_nth (f : Z -> Z) (l : list Z) :
  map (fun i => f (nth i l 0)) (seq 0 (List.length l)) = map f l.
Proof.
  induction l as [|x l IH]; [reflexivity|].
  cbn [List.length seq map nth]. f_equal.
  rewrite <- seq_shift, map_map. exact IH.
Qed.

(** X2. Bytes written to the FIFO port in one burst are read back by a
    burst of the same length started from the same FIFO address, each as
    its low eight bits, for a buffer of at most 256 bytes (the size of the
    FIFO).  The empty buffer reads back empty. *)
Theorem fifo_burst_round_trip (w : World) (p : Z) (buf : list Z) :
  (List.length buf <= 256)%nat ->
  eval (writeReg REG_FIFO_ADDR_PTR p ;;
        burstWrite REG_FIFO buf ;;
        writeReg REG_FIFO_ADDR_PTR p ;;
        burstRead REG_FIFO (Z.of_nat (List.length buf))) w
  = map byte buf.
Proof.
  intros Hlen. unfold eval. unfold_monad. run_bus.
  unfold bus_burst_read. cbn [fst].
  rewrite Nat2Z.id.
  match goal with |- fst (fifo_load _ ?c) = _ =>
    destruct (fifo_load_spec (List.length buf) c) as (L & _); rewrite L end.
  rewrite regs_bus_write by reg_neq. rewrite Z.eqb_refl.
  rewrite fifo_bus_write. unfold bus_burst_write. cbn [set_phase fifo].
  unfold fifo_window.
  rewrite <- (map_seq_nth byte buf).
  apply map_ext_in. intros i Hi. apply in_seq in Hi.
  rewrite byte_idem.
  pose proof (fifo_store_at buf (bus_write REG_FIFO_ADDR_PTR p (chip w)) i Hlen
                ltac:(lia)) as S.
  rewrite regs_bus_write in S by reg_neq. rewrite Z.eqb_refl, byte_idem in S.
  rewrite S. apply byte_idem.
Qed.

Lemma fifo_burst_round_trip_witness :
  eval (writeReg REG_FIFO_ADDR_PTR 0xFE ;;
        burstWrite REG_FIFO [1; 2; 0x103] ;;
        writeReg REG_FIFO_ADDR_PTR 0xFE ;;
        burstRead REG_FIFO 3) ready
  = [1; 2; 3].
Proof.
  assert (Hlen : (List.length [1; 2; 0x103] <= 256)%nat) by (cbn; lia).
  exact (fifo_burst_round_trip ready 0xFE [1; 2; 0x103] Hlen).
Defined.

(** ** Receiving *)

Lemma rx_path_run w :
  Z.testbit (reg w REG_IRQ_FLAGS) 6 = true ->
  Z.testbit (reg w REG_IRQ_FLAGS) 5 = false ->
  dio0_event w = dio0_txDone (reg w REG_IRQ_FLAGS) (after_rx w).
Proof.
  intros B6 B5. unfold reg in *.
  destruct (irq_tests (regs (chip w) REG_IRQ_FLAGS)) as (T6 & T5 & _).
  unfold dio0_event. unfold_monad. rewrite readReg_run by addr_ok. project.
  rewrite T6, T5, B6, B5. cbn [negb]. run_bus.
  unfold after_rx. cbv zeta.
  destruct (_rxHandler (globals w)); project; reflexivity.
Qed.

Lemma after_rx_regs w x :
  x <> REG_FIFO_ADDR_PTR -> x <> REG_IRQ_FLAGS ->
  regs (chip (after_rx w)) x = regs (chip w) x.
Proof.
  intros H1 H2. unfold after_rx. cbv zeta. cbn [chip].
  rewrite regs_bus_write_irq.
  replace (x =? REG_IRQ_FLAGS) with false by (symmetry; apply Z.eqb_neq; exact H2).
  rewrite !regs_bus_read, regs_bus_burst_read by exact H1.
  rewrite regs_bus_read, regs_bus_write by reg_neq.
  replace (x =? REG_FIFO_ADDR_PTR) with false by (symmetry; apply Z.eqb_neq; exact H1).
  reflexivity.
Qed.

Lemma after_rx_spawned w :
  spawned (runtime (after_rx w)) =
  match _rxHandler (globals w) with
  | Some _ =>
      spawned (runtime w) ++
      [CallRxHandler
         (Buffer_toString
            (fifo_window (fifo (chip w)) (reg w REG_FIFO_RX_CURRENT_ADDR)
                         (Z.to_nat (reg w REG_RX_NB_BYTES))))]
  | None => spawned (runtime w)
  end.
Proof.
  unfold after_rx. cbv zeta. cbn [runtime].
  destruct (_rxHandler (globals w)); [|reflexivity].
  cbn [spawned]. do 4 f_equal.
  unfold bus_burst_read. cbn [fst].
  match goal with |- fst (fifo_load ?n ?c) = _ =>
    destruct (fifo_load_spec n c) as (L & _); rewrite L end.
  read_regs. unfold reg. rewrite !byte_idem. reflexivity.
Qed.

(** X3. When the handler finds receive-complete set and the CRC bit clear,
    it reads the packet from the FIFO starting at the chip's current
    receive address, as many bytes as the length register says; it stores
    the RSSI register minus 157 and the raw SNR register, leaves the flag
    register at zero and the mode and the DIO mapping as they were when
    transmit-complete is not set.  With a handler registered exactly one
    call is spawned, carrying the packet as text; with none registered
    nothing is spawned, and the packet is read and the metrics are stored
    all the same. *)
Theorem received_packet_is_delivered (w : World) :
  Z.testbit (reg w REG_IRQ_FLAGS) 6 = true ->
  Z.testbit (reg w REG_IRQ_FLAGS) 5 = false ->
  Z.testbit (reg w REG_IRQ_FLAGS) 3 = false ->
  let w' := exec dio0_event w in
  let pkt := fifo_window (fifo (chip w)) (reg w REG_FIFO_RX_CURRENT_ADDR)
                         (Z.to_nat (reg w REG_RX_NB_BYTES)) in
  spawned (runtime w') =
    match _rxHandler (globals w) with
    | Some _ => spawned (runtime w) ++ [CallRxHandler (Buffer_toString pkt)]
    | None => spawned (runtime w)
    end /\
  raised (runtime w') = raised (runtime w) /\
  _lastRssi (globals w') = reg w REG_PKT_RSSI_VALUE - 157 /\
  _lastSnrRaw (globals w') = reg w REG_PKT_SNR_VALUE /\
  _rxHandler (globals w') = _rxHandler (globals w) /\
  reg w' REG_IRQ_FLAGS = 0 /\
  reg w' REG_OP_MODE = reg w REG_OP_MODE /\
  reg w' REG_DIO_MAPPING_1 = reg w REG_DIO_MAPPING_1 /\
  fifo (chip w') = fifo (chip w).
Proof.
  intros B6 B5 B3 w' pkt.
  assert (E : w' = after_rx w).
  { subst w'. unfold exec. rewrite (rx_path_run w B6 B5).
    change (reg w REG_IRQ_FLAGS) with (byte (regs (chip w) REG_IRQ_FLAGS)).
    rewrite dio0_txDone_run. fold (reg w REG_IRQ_FLAGS). rewrite B3. reflexivity. }
  rewrite E. clear E w'. subst pkt.
  split; [apply after_rx_spawned|].
  split.
  { unfold after_rx. cbv zeta. cbn [runtime].
    destruct (_rxHandler (globals w)); reflexivity. }
  unfold reg.
  rewrite (after_rx_regs w REG_OP_MODE), (after_rx_regs w REG_DIO_MAPPING_1) by reg_neq.
  unfold after_rx. cbv zeta. cbn [globals chip]. project.
  split; [rewrite regs_bus_burst_read by reg_neq; read_regs; reflexivity|].
  split; [rewrite regs_bus_read, regs_bus_burst_read by reg_neq; read_regs; reflexivity|].
  split; [reflexivity|].
  split; [rewrite regs_bus_write_irq; cbn [Z.eqb Pos.eqb REG_IRQ_FLAGS];
          apply flags_cleared|].
  split; [reflexivity|]. split; [reflexivity|].
  unfold bus_burst_read. cbn [snd set_phase fifo].
  rewrite fifo_bus_write, !fifo_bus_read.
  change (fifo (set_phase SpiIdle ?c)) with (fifo c).
  match goal with |- fifo (snd (fifo_load ?n ?c)) = _ =>
    destruct (fifo_load_spec n c) as (_ & F & _); rewrite F end.
  reflexivity.
Qed.

Lemma received_packet_is_delivered_witness :
  spawned (runtime heard) = [CallRxHandler "Hello!"].
Proof.
  pose (w := radio_receives (control.createBufferFromUTF8 "Hello!") 100 0xFF
               (exec (onReceivedString 1%nat) ready)).
  assert (B6 : Z.testbit (reg w REG_IRQ_FLAGS) 6 = true) by reflexivity.
  assert (B5 : Z.testbit (reg w REG_IRQ_FLAGS) 5 = false) by reflexivity.
  assert (B3 : Z.testbit (reg w REG_IRQ_FLAGS) 3 = false) by reflexivity.
  destruct (received_packet_is_delivered w B6 B5 B3) as [H _].
  vm_compute in H. vm_compute. exact H.
Defined.

(** ** Sending *)

Lemma sendBuffer_run buf w :
  _inited (globals w) = true ->
  exec (sendBuffer buf) w = mkWorld (globals w) (after_send buf (chip w)) (runtime w).
Proof.
  intros Hi. unfold sendBuffer, setMode, setDio0Mapping. unfold_monad. project.
  rewrite Hi. cbn [negb]. run_bus. reflexivity.
Qed.



Lemma byte_of_small_nat (n : nat) : (n < 256)%nat -> byte (Z.of_nat n) = Z.of_nat n.
Proof. intros H. apply byte_small. lia. Qed.



(** X5. A transmission from start to end.  From any initialized state,
    [sendBuffer] puts the device in the Transmitting state with DIO0 on
    transmit-complete; when the radio then raises a status byte with
    transmit-complete set (and not both receive-complete and CRC error),
    one run of the handler puts it in the Receiving state with DIO0 back
    on receive-complete and raises the send-completion event exactly
    once. *)
Theorem send_then_txDone_returns_to_receive (w : World) (buf : list Z) (flags : Z) :
  _inited (globals w) = true ->
  Z.testbit (byte flags) 3 = true ->
  Z.testbit (byte flags) 6 = false \/ Z.testbit (byte flags) 5 = false ->
  let w1 := exec (sendBuffer buf) w in
  let w2 := exec dio0_event (raise_irq flags w1) in
  radioState w1 = Some Transmitting /\
  dio0_mapping w1 = DIO0_TX_DONE /\
  radioState w2 = Some Receiving /\
  dio0_mapping w2 = DIO0_RX_DONE /\
  raised (runtime w2) = raised (runtime w) ++ [(LORA_EVENT_ID, APP_TX)].
Proof.
  intros Hi B3 HB w1 w2.
  destruct (sendBuffer_effect buf w Hi) as (G & R & _ & O & D). fold w1 in G, R, O, D.
  assert (H1 : _inited (globals w1) = true) by (rewrite G; exact Hi).
  destruct (txDone_path_runs (raise_irq flags w1)) as (D2 & O2 & R2 & I2 & _);
    [rewrite reg_raise_irq; exact B3 | rewrite reg_raise_irq; exact HB |].
  fold w2 in D2, O2, R2, I2.
  split; [unfold radioState; rewrite H1, O; reflexivity|].
  split; [exact D|].
  split; [unfold radioState; rewrite I2; cbn [raise_irq radio_update globals];
          rewrite H1, O2; reflexivity|].
  split; [exact D2|].
  rewrite R2. cbn [raise_irq radio_update runtime]. rewrite R. reflexivity.
Qed.

Lemma send_then_txDone_returns_to_receive_witness :
  let w1 := exec (sendBuffer [1; 2; 3]) ready in
  let w2 := exec dio0_event (raise_irq IRQ_TX_DONE w1) in
  radioState w1 = Some Transmitting /\ radioState w2 = Some Receiving.
Proof.
  assert (Hi : _inited (globals ready) = true) by reflexivity.
  assert (B3 : Z.testbit (byte IRQ_TX_DONE) 3 = true) by reflexivity.
  assert (HB : Z.testbit (byte IRQ_TX_DONE) 6 = false \/
               Z.testbit (byte IRQ_TX_DONE) 5 = false) by (left; reflexivity).
  destruct (send_then_txDone_returns_to_receive ready [1; 2; 3] IRQ_TX_DONE Hi B3 HB)
    as (S1 & _ & S2 & _).
  split; [exact S1 | exact S2].
Defined.

(** ** Interrupts that carry nothing *)

(** X6. When the handler reads a status byte with neither receive-complete
    nor transmit-complete set (a CRC-error bit alone included), it does
    nothing after the read: no write reaches the chip, so the flags are
    not cleared, and globals, registers, FIFO and runtime are as before. *)
Theorem idle_interrupt_only_reads_flags (w : World) :
  Z.testbit (reg w REG_IRQ_FLAGS) 6 = false ->
  Z.testbit (reg w REG_IRQ_FLAGS) 3 = false ->
  let w' := exec dio0_event w in
  log w' = log w ++ [RegRd REG_IRQ_FLAGS (reg w REG_IRQ_FLAGS)] /\
  regs (chip w') = regs (chip w) /\
  fifo (chip w') = fifo (chip w) /\
  globals w' = globals w /\
  runtime w' = runtime w.
Proof.
  intros B6 B3 w'.
  assert (E : w' = mkWorld (globals w) (bus_read REG_IRQ_FLAGS (chip w)) (runtime w)).
  { subst w'. unfold exec.
    destruct (dio0_event_cases w)
      as [(B6' & _) | (W & _ & E & _ & _ & _ & _ & _ & _ & _ & EW & _)]; [congruence|].
    rewrite E, (EW B6).
    change (reg w REG_IRQ_FLAGS) with (byte (regs (chip w) REG_IRQ_FLAGS)).
    rewrite dio0_txDone_run. fold (reg w REG_IRQ_FLAGS). rewrite B3. reflexivity. }
  rewrite E. repeat split; reflexivity.
Qed.

Lemma idle_interrupt_only_reads_flags_witness :
  let w := raise_irq IRQ_PAYLOAD_CRC_ERROR ready in
  log (exec dio0_event w) = log w ++ [RegRd REG_IRQ_FLAGS (reg w REG_IRQ_FLAGS)].
Proof.
  exact (proj1 (idle_interrupt_only_reads_flags
                  (raise_irq IRQ_PAYLOAD_CRC_ERROR ready) eq_refl eq_refl)).
Defined.

(** ** Text from one device to another *)

Lemma ascii_byte_range c : 0 <= Z.of_N (N_of_ascii c) < 256.
Proof.
  pose proof (N_ascii_bounded c). lia.
Qed.

Lemma Buffer_toString_of_utf8 s :
  Buffer_toString (control.createBufferFromUTF8 s) = s.
Proof.
  unfold Buffer_toString, control.createBufferFromUTF8. rewrite map_map.
  rewrite (map_ext _ (fun c => c)).
  - rewrite map_id. apply string_of_list_ascii_of_string.
  - intros c. rewrite byte_small by apply ascii_byte_range.
    rewrite N2Z.id. apply ascii_N_embedding.
Qed.

Lemma utf8_bytes_are_bytes s :
  map byte (control.createBufferFromUTF8 s) = control.createBufferFromUTF8 s.
Proof.
  unfold control.createBufferFromUTF8. rewrite map_map. apply map_ext.
  intros c. apply byte_small, ascii_byte_range.
Qed.

Lemma Buffer_toString_bytes l : Buffer_toString (map byte l) = Buffer_toString l.
Proof.
  unfold Buffer_toString. rewrite map_map. f_equal. apply map_ext.
  intros v. rewrite byte_idem. reflexivity.
Qed.

(** The FIFO filled by the radio with a packet, read as a window. *)
Lemma window_of_list (l : list Z) :
  (List.length l <= 256)%nat ->
  fifo_window (fun a => nth (Z.to_nat a) l 0) 0 (List.length l) = map byte l.
Proof.
  intros Hlen. unfold fifo_window. rewrite <- (map_seq_nth byte l).
  apply map_ext_in. intros i Hi. apply in_seq in Hi.
  rewrite Z.add_0_l, (byte_small (Z.of_nat i)), Nat2Z.id by lia. reflexivity.
Qed.

Lemma after_send_fifo buf c :
  (List.length buf <= 256)%nat ->
  fifo_window (fifo (after_send buf c)) 0 (List.length buf) = map byte buf.
Proof.
  intros Hlen. unfold after_send. cbv zeta.
  rewrite !fifo_bus_write. unfold bus_burst_write. cbn [set_phase fifo].
  unfold fifo_window. rewrite <- (map_seq_nth byte buf).
  apply map_ext_in. intros i Hin. apply in_seq in Hin.
  match goal with |- context [fifo_store buf ?c'] =>
    pose proof (fifo_store_at buf c' i Hlen ltac:(lia)) as S end.
  rewrite (regs_bus_write REG_FIFO_ADDR_PTR 0) in S by reg_neq.
  rewrite Z.eqb_refl in S.
  change (byte (byte 0)) with 0 in S. rewrite S. apply byte_idem.
Qed.

Lemma after_send_length buf c :
  byte (regs (after_send buf c) REG_PAYLOAD_LENGTH) = byte (Z.of_nat (List.length buf)).
Proof.
  unfold after_send. cbv zeta. read_regs. apply byte_idem.
Qed.

(** X7. Text sent with [sendString] from an initialized device and
    received by a device with a registered handler arrives unchanged, for
    a text of fewer than 256 UTF-8 bytes: the payload the sender leaves in
    its FIFO (from address 0, as long as its length register says) is the
    UTF-8 encoding of the text, and when the receiver's radio presents
    these bytes as a packet, the handler call that is spawned carries the
    same text.  The empty text arrives as the empty text. *)
Theorem text_arrives_unchanged (tx rx : World) (s : string) (rssi snr : Z) :
  _inited (globals tx) = true ->
  _rxHandler (globals rx) <> None ->
  (List.length (control.createBufferFromUTF8 s) < 256)%nat ->
  let sent := exec (sendString s) tx in
  let on_air := fifo_window (fifo (chip sent)) 0
                            (Z.to_nat (reg sent REG_PAYLOAD_LENGTH)) in
  let got := exec dio0_event (radio_receives on_air rssi snr rx) in
  on_air = control.createBufferFromUTF8 s /\
  spawned (runtime got) = spawned (runtime rx) ++ [CallRxHandler s] /\
  _lastRssi (globals got) = byte rssi - 157 /\
  _lastSnrRaw (globals got) = byte snr.
Proof.
  intros Hi Hh Hlen sent on_air got.
  assert (A : on_air = control.createBufferFromUTF8 s).
  { subst on_air sent. rewrite sendString_is_sendBuffer, (sendBuffer_run _ tx Hi).
    unfold reg. cbn [chip]. rewrite after_send_length.
    rewrite byte_of_small_nat by exact Hlen. rewrite Nat2Z.id.
    rewrite after_send_fifo by lia. apply utf8_bytes_are_bytes. }
  split; [exact A|].
  subst got. rewrite A. clear A on_air sent.
  set (payload := control.createBufferFromUTF8 s) in *.
  set (W := radio_receives payload rssi snr rx).
  assert (E : exec dio0_event W = after_rx W).
  { unfold exec. rewrite (rx_path_run W eq_refl eq_refl).
    change (reg W REG_IRQ_FLAGS) with (byte IRQ_RX_DONE).
    rewrite dio0_txDone_run. reflexivity. }
  rewrite E.
  split.
  - rewrite after_rx_spawned.
    change (_rxHandler (globals W)) with (_rxHandler (globals rx)).
    destruct (_rxHandler (globals rx)); [|contradiction].
    change (runtime W) with (runtime rx). do 3 f_equal.
    change (reg W REG_FIFO_RX_CURRENT_ADDR) with 0.
    change (reg W REG_RX_NB_BYTES) with (byte (Z.of_nat (List.length payload))).
    rewrite byte_of_small_nat by exact Hlen. rewrite Nat2Z.id.
    change (fifo (chip W)) with (fun a => nth (Z.to_nat a) payload 0).
    rewrite window_of_list by lia. rewrite Buffer_toString_bytes.
    apply Buffer_toString_of_utf8.
  - unfold after_rx. cbv zeta. cbn [globals]. project.
    split.
    + rewrite regs_bus_burst_read by reg_neq. read_regs. reflexivity.
    + rewrite regs_bus_read, regs_bus_burst_read by reg_neq. read_regs. reflexivity.
Qed.

Lemma text_arrives_unchanged_witness :
  let sent := exec (sendString "Hello!") ready in
  let on_air := fifo_window (fifo (chip sent)) 0
                            (Z.to_nat (reg sent REG_PAYLOAD_LENGTH)) in
  let got := exec dio0_event
               (radio_receives on_air 100 0xFF (exec (onReceivedString 1%nat) ready)) in
  spawned (runtime got) =
  spawned (runtime (exec (onReceivedString 1%nat) ready)) ++ [CallRxHandler "Hello!"].
Proof.
  assert (Hi : _inited (globals ready) = true) by reflexivity.
  assert (Hh : _rxHandler (globals (exec (onReceivedString 1%nat) ready)) <> None)
    by discriminate.
  assert (Hlen : (List.length (control.createBufferFromUTF8 "Hello!") < 256)%nat)
    by (cbn; lia).
  exact (proj1 (proj2 (text_arrives_unchanged ready (exec (onReceivedString 1%nat) ready)
                         "Hello!" 100 0xFF Hi Hh Hlen))).
Defined.

(** ** Modem parameters *)

Lemma setSpreadingFactor_run sf w :
  _inited (globals w) = true ->
  exec (setSpreadingFactor sf) w =
  let c1 := bus_write REG_MODEM_CONFIG_2
              ((byte (regs (chip w) REG_MODEM_CONFIG_2) .& 0x0F) .| (sf .<< 4))
              (bus_read REG_MODEM_CONFIG_2 (chip w)) in
  let v := byte (regs c1 REG_MODEM_CONFIG_3) in
  mkWorld (set_sf sf (globals w))
          (bus_write REG_MODEM_CONFIG_3
             (if needLdro sf (_bwCode (globals w)) then v .| 0x08 else v .& 0xF7)
             (bus_read REG_MODEM_CONFIG_3 c1))
          (runtime w).
Proof.
  intros Hi. unfold setSpreadingFactor, applyLdro. unfold_monad. project.
  rewrite Hi. cbn [negb]. project. run_bus. reflexivity.
Qed.

Lemma setBandwidth_run bw w :
  _inited (globals w) = true ->
  exec (setBandwidth bw) w =
  let c1 := bus_write REG_MODEM_CONFIG_1
              ((byte (regs (chip w) REG_MODEM_CONFIG_1) .& 0x0F) .| (bw .<< 4))
              (bus_read REG_MODEM_CONFIG_1 (chip w)) in
  let v := byte (regs c1 REG_MODEM_CONFIG_3) in
  mkWorld (set_bwCode bw (globals w))
          (bus_write REG_MODEM_CONFIG_3
             (if needLdro (_sf (globals w)) bw then v .| 0x08 else v .& 0xF7)
             (bus_read REG_MODEM_CONFIG_3 c1))
          (runtime w).
Proof.
  intros Hi. unfold setBandwidth, applyLdro. unfold_monad. project.
  rewrite Hi. cbn [negb]. project. run_bus. reflexivity.
Qed.

Lemma setCodingRate_run cr w :
  _inited (globals w) = true ->
  exec (setCodingRate cr) w =
  mkWorld (globals w)
          (bus_write REG_MODEM_CONFIG_1
             ((byte (regs (chip w) REG_MODEM_CONFIG_1) .& 0xF1) .| (cr .<< 1))
             (bus_read REG_MODEM_CONFIG_1 (chip w)))
          (runtime w).
Proof.
  intros Hi. unfold setCodingRate. unfold_monad. project.
  rewrite Hi. cbn [negb]. run_bus. reflexivity.
Qed.

Lemma bw_nibble v bw :
  0 <= bw <= 9 ->
  Z.shiftr (byte ((byte v .& 0x0F) .| (bw .<< 4))) 4 = bw /\
  Z.land (byte ((byte v .& 0x0F) .| (bw .<< 4))) 0x0F = Z.land (byte v) 0x0F.
Proof.
  intros Hbw.
  pose (P := fun b => forallb (fun s =>
               (Z.shiftr (byte ((b .& 0x0F) .| (s .<< 4))) 4 =? s)
               && (Z.land (byte ((b .& 0x0F) .| (s .<< 4))) 0x0F =? Z.land b 0x0F))
               [0; 1; 2; 3; 4; 5; 6; 7; 8; 9]).
  assert (C : P (byte v) = true) by (apply byte_forall; vm_compute; reflexivity).
  unfold P in C. rewrite forallb_forall in C. specialize (C bw (bw_cases bw Hbw)).
  rewrite andb_true_iff, !Z.eqb_eq in C. exact C.
Qed.

Lemma cr_cases cr : 1 <= cr <= 4 -> In cr [1; 2; 3; 4].
Proof. intros H. cbn [In]. lia. Qed.

Lemma cr_field v cr :
  1 <= cr <= 4 ->
  Z.land (Z.shiftr (byte ((byte v .& 0xF1) .| (cr .<< 1))) 1) 7 = cr /\
  Z.land (byte ((byte v .& 0xF1) .| (cr .<< 1))) 0xF1 = Z.land (byte v) 0xF1.
Proof.
  intros Hcr.
  pose (P := fun b => forallb (fun c =>
               (Z.land (Z.shiftr (byte ((b .& 0xF1) .| (c .<< 1))) 1) 7 =? c)
               && (Z.land (byte ((b .& 0xF1) .| (c .<< 1))) 0xF1 =? Z.land b 0xF1))
               [1; 2; 3; 4]).
  assert (C : P (byte v) = true) by (apply byte_forall; vm_compute; reflexivity).
  unfold P in C. rewrite forallb_forall in C. specialize (C cr (cr_cases cr Hcr)).
  rewrite andb_true_iff, !Z.eqb_eq in C. exact C.
Qed.

(** X8. [setBandwidth bw] on an initialized device, for a code in 0..9:
    the code is recorded in [_bwCode] and written into the upper nibble of
    modem-config-1 with the lower nibble (coding rate and header mode) as
    it was; then the LDRO bit of modem-config-3 is recomputed from the
    spreading factor in force and [bw]; modem-config-2 is not touched.  The
    bus sees the read and write of config 1, then of config 3. *)
Theorem setBandwidth_writes_nibble (w : World) (bw : Z) :
  _inited (globals w) = true ->
  0 <= bw <= 9 ->
  let w' := exec (setBandwidth bw) w in
  _bwCode (globals w') = bw /\
  _sf (globals w') = _sf (globals w) /\
  Z.shiftr (reg w' REG_MODEM_CONFIG_1) 4 = bw /\
  Z.land (reg w' REG_MODEM_CONFIG_1) 0x0F = Z.land (reg w REG_MODEM_CONFIG_1) 0x0F /\
  Z.testbit (reg w' REG_MODEM_CONFIG_3) 3 = needLdro (_sf (globals w)) bw /\
  reg w' REG_MODEM_CONFIG_2 = reg w REG_MODEM_CONFIG_2 /\
  log w' = log w ++ [RegRd REG_MODEM_CONFIG_1 (reg w REG_MODEM_CONFIG_1);
                     RegWr REG_MODEM_CONFIG_1 (reg w' REG_MODEM_CONFIG_1);
                     RegRd REG_MODEM_CONFIG_3 (reg w REG_MODEM_CONFIG_3);
                     RegWr REG_MODEM_CONFIG_3 (reg w' REG_MODEM_CONFIG_3)].
Proof.
  intros Hi Hbw w'. subst w'. rewrite (setBandwidth_run bw w Hi). cbv zeta.
  unfold reg, log. project. read_log. read_regs. rewrite !byte_idem.
  destruct (bw_nibble (regs (chip w) REG_MODEM_CONFIG_1) bw Hbw) as [N1 N2].
  destruct (ldro_written (regs (chip w) REG_MODEM_CONFIG_3)
              (needLdro (_sf (globals w)) bw)) as [B1 _].
  rewrite N1, N2, B1. repeat split; reflexivity.
Qed.

Lemma setBandwidth_writes_nibble_witness :
  Z.shiftr (reg (exec (setBandwidth BW500k) ready) REG_MODEM_CONFIG_1) 4 = BW500k /\
  Z.land (reg (exec (setBandwidth BW500k) ready) REG_MODEM_CONFIG_1) 0x0F = 2.
Proof.
  assert (Hi : _inited (globals ready) = true) by reflexivity.
  assert (Hbw : 0 <= BW500k <= 9) by (unfold BW500k; lia).
  destruct (setBandwidth_writes_nibble ready BW500k Hi Hbw) as (_ & _ & N1 & N2 & _).
  split; [exact N1|]. rewrite N2. vm_compute. reflexivity.
Defined.

(** X9. [setCodingRate cr] on an initialized device, for cr in 1..4: cr is
    written into bits 3..1 of modem-config-1 and the other bits of that
    register (bandwidth and header mode) are as before; no other register
    changes, the globals and the runtime are untouched, and the bus sees
    one read and one write of that register. *)
Theorem setCodingRate_writes_field (w : World) (cr : Z) :
  _inited (globals w) = true ->
  1 <= cr <= 4 ->
  let w' := exec (setCodingRate cr) w in
  Z.land (Z.shiftr (reg w' REG_MODEM_CONFIG_1) 1) 7 = cr /\
  Z.land (reg w' REG_MODEM_CONFIG_1) 0xF1 = Z.land (reg w REG_MODEM_CONFIG_1) 0xF1 /\
  (forall x, x <> REG_MODEM_CONFIG_1 -> reg w' x = reg w x) /\
  globals w' = globals w /\
  runtime w' = runtime w /\
  log w' = log w ++ [RegRd REG_MODEM_CONFIG_1 (reg w REG_MODEM_CONFIG_1);
                     RegWr REG_MODEM_CONFIG_1 (reg w' REG_MODEM_CONFIG_1)].
Proof.
  intros Hi Hcr w'. subst w'. rewrite (setCodingRate_run cr w Hi).
  unfold reg, log. project.
  destruct (cr_field (regs (chip w) REG_MODEM_CONFIG_1) cr Hcr) as [F1 F2].
  split; [read_regs; rewrite byte_idem; exact F1|].
  split; [read_regs; rewrite byte_idem; exact F2|].
  split.
  { intros x Hx. rewrite regs_bus_write by reg_neq.
    destruct (Z.eqb_spec x REG_MODEM_CONFIG_1); [contradiction | reflexivity]. }
  split; [reflexivity|]. split; [reflexivity|].
  read_log. read_regs. rewrite byte_idem. reflexivity.
Qed.

Lemma setCodingRate_writes_field_witness :
  Z.land (Z.shiftr (reg (exec (setCodingRate CR48) ready) REG_MODEM_CONFIG_1) 1) 7 = CR48.
Proof.
  assert (Hi : _inited (globals ready) = true) by reflexivity.
  assert (Hcr : 1 <= CR48 <= 4) by (unfold CR48; lia).
  exact (proj1 (setCodingRate_writes_field ready CR48 Hi Hcr)).
Defined.

Lemma bw_cr_compose v bw cr :
  0 <= bw <= 9 -> 1 <= cr <= 4 ->
  let a := byte ((byte ((byte v .& 0x0F) .| (bw .<< 4)) .& 0xF1) .| (cr .<< 1)) in
  let b := byte ((byte ((byte v .& 0xF1) .| (cr .<< 1)) .& 0x0F) .| (bw .<< 4)) in
  a = b /\ a = 16 * bw + 2 * cr + Z.land (byte v) 1.
Proof.
  intros Hbw Hcr.
  pose (P := fun x => forallb (fun s => forallb (fun c =>
     let a := byte ((byte ((x .& 0x0F) .| (s .<< 4)) .& 0xF1) .| (c .<< 1)) in
     let b := byte ((byte ((x .& 0xF1) .| (c .<< 1)) .& 0x0F) .| (s .<< 4)) in
     (a =? b) && (a =? 16 * s + 2 * c + Z.land x 1))
     [1; 2; 3; 4]) [0; 1; 2; 3; 4; 5; 6; 7; 8; 9]).
  assert (C : P (byte v) = true) by (apply byte_forall; vm_compute; reflexivity).
  unfold P in C. rewrite forallb_forall in C. specialize (C bw (bw_cases bw Hbw)).
  rewrite forallb_forall in C. specialize (C cr (cr_cases cr Hcr)).
  cbv zeta in C. rewrite andb_true_iff, !Z.eqb_eq in C. exact C.
Qed.

(** X10. Bandwidth and coding rate share modem-config-1 without
    disturbing each other: on an initialized device, for bw in 0..9 and cr
    in 1..4, [setBandwidth bw] and [setCodingRate cr] in either order
    leave the same value in every register, with modem-config-1 equal to
    16 * bw + 2 * cr plus the header-mode bit it had. *)
Theorem bandwidth_and_coding_rate_commute (w : World) (bw cr : Z) :
  _inited (globals w) = true ->
  0 <= bw <= 9 ->
  1 <= cr <= 4 ->
  let w1 := exec (setCodingRate cr) (exec (setBandwidth bw) w) in
  let w2 := exec (setBandwidth bw) (exec (setCodingRate cr) w) in
  (forall x, reg w1 x = reg w2 x) /\
  reg w1 REG_MODEM_CONFIG_1 = 16 * bw + 2 * cr + Z.land (reg w REG_MODEM_CONFIG_1) 1 /\
  globals w1 = globals w2.
Proof.
  intros Hi Hbw Hcr w1 w2.
  assert (E1 : w1 = exec (setCodingRate cr) (exec (setBandwidth bw) w)) by reflexivity.
  assert (E2 : w2 = exec (setBandwidth bw) (exec (setCodingRate cr) w)) by reflexivity.
  clearbody w1 w2.
  rewrite (setBandwidth_run bw w Hi) in E1. cbv zeta in E1.
  rewrite setCodingRate_run in E1 by exact Hi. cbn [chip globals runtime] in E1.
  rewrite (setCodingRate_run cr w Hi) in E2.
  rewrite setBandwidth_run in E2 by exact Hi. cbv zeta in E2.
  cbn [chip globals runtime] in E2.
  subst w1 w2. unfold reg. project.
  destruct (bw_cr_compose (regs (chip w) REG_MODEM_CONFIG_1) bw cr Hbw Hcr) as [A B].
  cbv zeta in A, B.
  split; [|split; [|reflexivity]].
  - intros x.
    destruct (Z.eq_dec x REG_MODEM_CONFIG_1) as [-> | N1].
    { read_regs. rewrite !byte_idem. exact A. }
    destruct (Z.eq_dec x REG_MODEM_CONFIG_3) as [-> | N3].
    { read_regs. reflexivity. }
    read_regs.
    replace (x =? REG_MODEM_CONFIG_1) with false by (symmetry; apply Z.eqb_neq; exact N1).
    replace (x =? REG_MODEM_CONFIG_3) with false by (symmetry; apply Z.eqb_neq; exact N3).
    reflexivity.
  - read_regs. rewrite !byte_idem. exact B.
Qed.

Lemma bandwidth_and_coding_rate_commute_witness :
  reg (exec (setCodingRate CR48) (exec (setBandwidth BW250k) ready)) REG_MODEM_CONFIG_1 =
  reg (exec (setBandwidth BW250k) (exec (setCodingRate CR48) ready)) REG_MODEM_CONFIG_1.
Proof.
  assert (Hi : _inited (globals ready) = true) by reflexivity.
  assert (Hbw : 0 <= BW250k <= 9) by (unfold BW250k; lia).
  assert (Hcr : 1 <= CR48 <= 4) by (unfold CR48; lia).
  exact (proj1 (bandwidth_and_coding_rate_commute ready BW250k CR48 Hi Hbw Hcr)
               REG_MODEM_CONFIG_1).
Defined.

Lemma ldro_rewritten v (m n : bool) :
  byte (if n
        then byte (byte (if m then byte v .| 0x08 else byte v .& 0xF7)) .| 0x08
        else byte (byte (if m then byte v .| 0x08 else byte v .& 0xF7)) .& 0xF7) =
  byte (if n then byte v .| 0x08 else byte v .& 0xF7).
Proof.
  pose (P := fun x => forallb (fun m : bool => forallb (fun n : bool =>
     byte (if n
           then byte (byte (if m then x .| 0x08 else x .& 0xF7)) .| 0x08
           else byte (byte (if m then x .| 0x08 else x .& 0xF7)) .& 0xF7) =?
     byte (if n then x .| 0x08 else x .& 0xF7)) [true; false]) [true; false]).
  assert (C : P (byte v) = true) by (apply byte_forall; vm_compute; reflexivity).
  unfold P in C. rewrite forallb_forall in C.
  assert (Hm : In m [true; false]) by (destruct m; cbn; auto).
  assert (Hn : In n [true; false]) by (destruct n; cbn; auto).
  specialize (C m Hm). rewrite forallb_forall in C. specialize (C n Hn).
  apply Z.eqb_eq in C. exact C.
Qed.

(** X11. Spreading factor and bandwidth set one after the other, in either
    order, on an initialized device (sf in 7..12, bw in 0..9): both orders
    leave the same value in every register and the same globals; the
    upper nibbles of modem-config-2 and modem-config-1 hold sf and bw, and
    the LDRO bit is set iff 2^sf * 100 > 16 * bwKHzTimes100[bw], whatever
    the two parameters were before. *)
Theorem sf_and_bw_in_either_order (w : World) (sf bw : Z) :
  _inited (globals w) = true ->
  7 <= sf <= 12 ->
  0 <= bw <= 9 ->
  let w1 := exec (setSpreadingFactor sf) (exec (setBandwidth bw) w) in
  let w2 := exec (setBandwidth bw) (exec (setSpreadingFactor sf) w) in
  (forall x, reg w1 x = reg w2 x) /\
  globals w1 = globals w2 /\
  Z.shiftr (reg w1 REG_MODEM_CONFIG_2) 4 = sf /\
  Z.shiftr (reg w1 REG_MODEM_CONFIG_1) 4 = bw /\
  (Z.testbit (reg w1 REG_MODEM_CONFIG_3) 3 = true <->
   2 ^ sf * 100 > 16 * bwKHzTimes100 bw).
Proof.
  intros Hi Hsf Hbw w1 w2.
  assert (E1 : w1 = exec (setSpreadingFactor sf) (exec (setBandwidth bw) w)) by reflexivity.
  assert (E2 : w2 = exec (setBandwidth bw) (exec (setSpreadingFactor sf) w)) by reflexivity.
  clearbody w1 w2.
  rewrite (setBandwidth_run bw w Hi) in E1. cbv zeta in E1.
  rewrite setSpreadingFactor_run in E1 by exact Hi. cbv zeta in E1.
  cbn [chip globals runtime] in E1.
  rewrite (setSpreadingFactor_run sf w Hi) in E2. cbv zeta in E2.
  rewrite setBandwidth_run in E2 by exact Hi. cbv zeta in E2.
  cbn [chip globals runtime] in E2.
  subst w1 w2. unfold reg. project.
  assert (Hgt : needLdro sf bw = true <-> 2 ^ sf * 100 > 16 * bwKHzTimes100 bw).
  { rewrite (needLdro_spec sf bw Hsf Hbw), Z.ltb_lt. lia. }
  split; [|split; [reflexivity|split; [|split]]].
  - intros x.
    destruct (Z.eq_dec x REG_MODEM_CONFIG_3) as [-> | N3].
    { read_regs. rewrite !ldro_rewritten. reflexivity. }
    destruct (Z.eq_dec x REG_MODEM_CONFIG_1) as [-> | N1].
    { read_regs. reflexivity. }
    destruct (Z.eq_dec x REG_MODEM_CONFIG_2) as [-> | N2].
    { read_regs. reflexivity. }
    read_regs.
    replace (x =? REG_MODEM_CONFIG_1) with false by (symmetry; apply Z.eqb_neq; exact N1).
    replace (x =? REG_MODEM_CONFIG_2) with false by (symmetry; apply Z.eqb_neq; exact N2).
    replace (x =? REG_MODEM_CONFIG_3) with false by (symmetry; apply Z.eqb_neq; exact N3).
    reflexivity.
  - read_regs. rewrite !byte_idem.
    apply (sf_nibble (regs (chip w) REG_MODEM_CONFIG_2) sf Hsf).
  - read_regs. rewrite !byte_idem.
    apply (bw_nibble (regs (chip w) REG_MODEM_CONFIG_1) bw Hbw).
  - read_regs. rewrite ldro_rewritten, ?byte_idem.
    destruct (ldro_written (regs (chip w) REG_MODEM_CONFIG_3) (needLdro sf bw)) as [B1 _].
    rewrite B1. exact Hgt.
Qed.

Lemma sf_and_bw_in_either_order_witness :
  Z.testbit
    (reg (exec (setSpreadingFactor SF12) (exec (setBandwidth BW500k) ready))
         REG_MODEM_CONFIG_3) 3 <> true.
Proof.
  assert (Hi : _inited (globals ready) = true) by reflexivity.
  assert (Hsf : 7 <= SF12 <= 12) by (unfold SF12; lia).
  assert (Hbw : 0 <= BW500k <= 9) by (unfold BW500k; lia).
  destruct (sf_and_bw_in_either_order ready SF12 BW500k Hi Hsf Hbw) as (_ & _ & _ & _ & L).
  intros B. apply L in B. revert B. vm_compute. congruence.
Defined.

(** ** What the setters leave alone *)

Ltac project_in H :=
  cbn [fst snd globals chip runtime
       _inited _rxHandler _lastRssi _lastSnrRaw _sf _bwCode
       set_inited set_rxHandler set_lastRssi set_lastSnrRaw set_sf set_bwCode
       pulses bindings raised spawned] in H.

Ltac other_reg :=
  read_regs;
  repeat match goal with
         | N : ?x <> ?r |- context [?x =? ?r] =>
             replace (x =? r) with false by (symmetry; apply Z.eqb_neq; exact N)
         end;
  try reflexivity.

(** X12. Each configuration setter writes only its own registers: on an
    initialized device [setTxPower] changes at most PA_CONFIG and PA_DAC,
    [setSpreadingFactor] modem-config-2 and -3, [setBandwidth]
    modem-config-1 and -3, [setCodingRate] modem-config-1 and
    [setSyncWord] the sync word, for every argument; the mode, the DIO
    mapping, the frequency, the flags and every other register keep their
    values, and the FIFO and the runtime are untouched. *)
Theorem setters_write_only_their_registers (w : World) (x : Z) :
  _inited (globals w) = true ->
  (forall dBm, x <> REG_PA_CONFIG -> x <> REG_PA_DAC ->
     reg (exec (setTxPower dBm) w) x = reg w x) /\
  (forall sf, x <> REG_MODEM_CONFIG_2 -> x <> REG_MODEM_CONFIG_3 ->
     reg (exec (setSpreadingFactor sf) w) x = reg w x) /\
  (forall bw, x <> REG_MODEM_CONFIG_1 -> x <> REG_MODEM_CONFIG_3 ->
     reg (exec (setBandwidth bw) w) x = reg w x) /\
  (forall cr, x <> REG_MODEM_CONFIG_1 ->
     reg (exec (setCodingRate cr) w) x = reg w x) /\
  (forall word, x <> REG_SYNC_WORD ->
     reg (exec (setSyncWord word) w) x = reg w x) /\
  (forall dBm sf bw cr word,
     let after := fun m : M unit => exec m w in
     Forall (fun w' => fifo (chip w') = fifo (chip w) /\ runtime w' = runtime w)
       [after (setTxPower dBm); after (setSpreadingFactor sf); after (setBandwidth bw);
        after (setCodingRate cr); after (setSyncWord word)]).
Proof.
  intros Hi.
  split; [|split; [|split; [|split; [|split]]]].
  - intros dBm N1 N2. unfold setTxPower, reg. unfold_monad. project.
    rewrite Hi. cbn [negb]. destruct (dBm =? 20); run_bus; other_reg.
  - intros sf N1 N2. rewrite (setSpreadingFactor_run sf w Hi). cbv zeta.
    unfold reg. project. other_reg.
  - intros bw N1 N2. rewrite (setBandwidth_run bw w Hi). cbv zeta.
    unfold reg. project. other_reg.
  - intros cr N1. rewrite (setCodingRate_run cr w Hi). unfold reg. project. other_reg.
  - intros word N1. unfold setSyncWord, reg. unfold_monad. project.
    rewrite Hi. cbn [negb]. run_bus. other_reg.
  - intros dBm sf bw cr word after. subst after. cbv beta.
    rewrite (setSpreadingFactor_run sf w Hi), (setBandwidth_run bw w Hi),
      (setCodingRate_run cr w Hi). cbv zeta.
    repeat constructor; try reflexivity.
    + unfold setTxPower. unfold_monad. project. rewrite Hi. cbn [negb].
      destruct (dBm =? 20); run_bus; reflexivity.
    + unfold setTxPower. unfold_monad. project. rewrite Hi. cbn [negb].
      destruct (dBm =? 20); run_bus; reflexivity.
    + unfold setSyncWord. unfold_monad. project. rewrite Hi. cbn [negb].
      run_bus. reflexivity.
    + unfold setSyncWord. unfold_monad. project. rewrite Hi. cbn [negb].
      run_bus. reflexivity.
Qed.

Lemma setters_write_only_their_registers_witness :
  reg (exec (setSpreadingFactor 99) ready) REG_OP_MODE = reg ready REG_OP_MODE.
Proof.
  assert (Hi : _inited (globals ready) = true) by reflexivity.
  destruct (setters_write_only_their_registers ready REG_OP_MODE Hi) as (_ & H & _).
  apply H; discriminate.
Defined.

(** ** Sync word, transmit power and channel RSSI *)

Lemma setSyncWord_run word w :
  _inited (globals w) = true ->
  exec (setSyncWord word) w =
  mkWorld (globals w) (bus_write REG_SYNC_WORD word (chip w)) (runtime w).
Proof.
  intros Hi. unfold setSyncWord. unfold_monad. project.
  rewrite Hi. cbn [negb]. run_bus. reflexivity.
Qed.

(** X13. [setSyncWord] on an initialized device stores the low eight bits
    of its argument in the sync-word register with a single write (so 0x134
    is stored as 0x34), and calling it twice with the same word leaves
    every register as one call does. *)
Theorem setSyncWord_stores_low_byte (w : World) (word : Z) :
  _inited (globals w) = true ->
  let w1 := exec (setSyncWord word) w in
  let w2 := exec (setSyncWord word) w1 in
  reg w1 REG_SYNC_WORD = word mod 256 /\
  log w1 = log w ++ [RegWr REG_SYNC_WORD (word mod 256)] /\
  (forall x, reg w2 x = reg w1 x) /\
  globals w2 = globals w.
Proof.
  intros Hi w1 w2.
  assert (E1 : w1 = mkWorld (globals w) (bus_write REG_SYNC_WORD word (chip w)) (runtime w))
    by (apply setSyncWord_run; exact Hi).
  assert (E2 : w2 = mkWorld (globals w)
                      (bus_write REG_SYNC_WORD word (bus_write REG_SYNC_WORD word (chip w)))
                      (runtime w)).
  { subst w2. rewrite E1. rewrite setSyncWord_run by exact Hi. reflexivity. }
  rewrite E1, E2. unfold reg, log. project.
  assert (B : byte word = word mod 256).
  { unfold byte. change 255 with (Z.ones 8). rewrite Z.land_ones by lia. reflexivity. }
  split; [read_regs; rewrite byte_idem; exact B|].
  split; [read_log; rewrite B; reflexivity|].
  split; [|reflexivity].
  intros x. rewrite !regs_bus_write by reg_neq.
  destruct (x =? REG_SYNC_WORD); reflexivity.
Qed.

Lemma setSyncWord_stores_low_byte_witness :
  reg (exec (setSyncWord 0x134) ready) REG_SYNC_WORD = 0x134 mod 256.
Proof.
  assert (Hi : _inited (globals ready) = true) by reflexivity.
  exact (proj1 (setSyncWord_stores_low_byte ready 0x134 Hi)).
Defined.

Lemma setTxPower_run dBm w :
  _inited (globals w) = true ->
  exec (setTxPower dBm) w =
  mkWorld (globals w)
    (if dBm =? 20
     then bus_write REG_PA_DAC 0x87 (bus_write REG_PA_CONFIG (0x80 .| 0x0F) (chip w))
     else bus_write REG_PA_DAC 0x84
            (bus_write REG_PA_CONFIG (0x80 .| clamp 0 15 (dBm - 2)) (chip w)))
    (runtime w).
Proof.
  intros Hi. unfold setTxPower. unfold_monad. project. rewrite Hi. cbn [negb].
  destruct (dBm =? 20); run_bus; reflexivity.
Qed.

(** X14. The transmit-power setting does not depend on what was set
    before: on an initialized device, [setTxPower a] after [setTxPower b]
    leaves every register as [setTxPower a] alone does; whatever the
    request, the PA_BOOST bit of PA_CONFIG is set, the power field is in
    0..15 and PA_DAC is 0x84 or 0x87. *)
Theorem setTxPower_overrides (w : World) (a b : Z) :
  _inited (globals w) = true ->
  let w' := exec (setTxPower a) w in
  (forall x, reg (exec (setTxPower a) (exec (setTxPower b) w)) x = reg w' x) /\
  0x80 <= reg w' REG_PA_CONFIG <= 0x8F /\
  (reg w' REG_PA_DAC = 0x84 \/ reg w' REG_PA_DAC = 0x87).
Proof.
  intros Hi w'. subst w'.
  rewrite (setTxPower_run b w Hi). rewrite !setTxPower_run by exact Hi.
  unfold reg. project.
  split; [|split].
  - intros x. destruct (a =? 20), (b =? 20); rewrite !regs_bus_write by reg_neq;
      destruct (x =? REG_PA_DAC), (x =? REG_PA_CONFIG); reflexivity.
  - destruct (a =? 20); read_regs.
    + cbv. split; discriminate.
    + rewrite byte_idem, pa_config_byte by (unfold clamp; lia). unfold clamp. lia.
  - destruct (a =? 20); read_regs; [right | left]; reflexivity.
Qed.

Lemma setTxPower_overrides_witness :
  reg (exec (setTxPower 5) (exec (setTxPower 20) ready)) REG_PA_DAC =
  reg (exec (setTxPower 5) ready) REG_PA_DAC.
Proof.
  assert (Hi : _inited (globals ready) = true) by reflexivity.
  exact (proj1 (setTxPower_overrides ready 5 20 Hi) REG_PA_DAC).
Defined.

(** X15. [channelRssi] on an initialized device returns the instantaneous
    RSSI register minus 157, a value between -157 and 98, and costs one
    register read that changes nothing else; on a device that is not
    initialized it returns 0 without touching the bus or the state. *)
Theorem channelRssi_reads_live_register (w : World) :
  (_inited (globals w) = true ->
   eval channelRssi w = reg w REG_RSSI_VALUE - 157 /\
   -157 <= eval channelRssi w <= 98 /\
   log (exec channelRssi w) = log w ++ [RegRd REG_RSSI_VALUE (reg w REG_RSSI_VALUE)] /\
   regs (chip (exec channelRssi w)) = regs (chip w) /\
   globals (exec channelRssi w) = globals w) /\
  (_inited (globals w) = false -> channelRssi w = (0, w)).
Proof.
  split; intros Hi.
  - assert (E : channelRssi w =
                (reg w REG_RSSI_VALUE - 157,
                 mkWorld (globals w) (bus_read REG_RSSI_VALUE (chip w)) (runtime w))).
    { unfold channelRssi. unfold_monad. project. rewrite Hi. cbn [negb].
      run_bus. reflexivity. }
    unfold eval, exec. rewrite E. cbn [fst snd].
    split; [reflexivity|].
    split; [unfold reg; pose proof (byte_range (regs (chip w) REG_RSSI_VALUE)); lia|].
    repeat split; reflexivity.
  - unfold channelRssi, bind, read_global, ret. rewrite Hi. reflexivity.
Qed.

Lemma channelRssi_reads_live_register_witness :
  eval channelRssi ready = reg ready REG_RSSI_VALUE - 157 /\
  channelRssi (boot sx1276_por) = (0, boot sx1276_por).
Proof.
  destruct (channelRssi_reads_live_register ready) as [H _].
  destruct (channelRssi_reads_live_register (boot sx1276_por)) as [_ H0].
  split; [exact (proj1 (H eq_refl)) | exact (H0 eq_refl)].
Defined.

(** ** Start-up *)

Lemma init_run band w :
  byte (por (chip w) REG_VERSION) = 0x12 ->
  exec (init band) w =
  mkWorld (set_inited true (globals w))
          (after_init band (after_reset (chip w)))
          (mkRuntime (pulses (runtime w) ++ [(_dio0, High)])
                     (bindings (runtime w) ++ [(LORA_EVENT_ID, INT_DIO0, CbDio0)])
                     (raised (runtime w)) (spawned (runtime w))).
Proof.
  intros Hv. unfold exec. rewrite init_unfold.
  unfold setMode, configRadioDefaults, setupDio0Interrupt, setDio0Mapping. unfold_monad.
  rewrite readReg_run by addr_ok. project. cbn [after_reset regs].
  rewrite Hv. cbn [Z.eqb Pos.eqb negb].
  run_bus.
  destruct band; unfold setFrequencyMHz; unfold_monad; run_bus; reflexivity.
Qed.

(** X16. [init] on a chip whose version register does not read 0x12: after
    the reset pulse the only bus access is the version read; nothing is
    written, no handler is bound, the registers hold their reset values and
    the device is marked uninitialized (also when it was initialized
    before), so that a following send is a no-op. *)
Theorem init_fails_without_sx127x (w : World) (band : Band) :
  byte (por (chip w) REG_VERSION) <> 0x12 ->
  let w' := exec (init band) w in
  _inited (globals w') = false /\
  log w' = log w ++ [RegRd REG_VERSION (byte (por (chip w) REG_VERSION))] /\
  regs (chip w') = por (chip w) /\
  runtime w' = runtime w /\
  (forall buf, sendBuffer buf w' = (tt, w')) /\
  (forall band', exec (init band') w' =
                 mkWorld (globals w') (bus_read REG_VERSION (chip w')) (runtime w')).
Proof.
  intros Hv w'. subst w'. rewrite (init_failure band w Hv).
  split; [reflexivity|]. split; [reflexivity|]. split; [reflexivity|].
  split; [reflexivity|]. split.
  - intros buf. reflexivity.
  - intros band'. rewrite init_failure by exact Hv. reflexivity.
Qed.

Lemma init_fails_without_sx127x_witness :
  _inited (globals (exec (init AU915) (boot (fun _ => 0xFF)))) = false.
Proof.
  assert (Hv : byte (por (chip (boot (fun _ => 0xFF))) REG_VERSION) <> 0x12)
    by (vm_compute; discriminate).
  exact (proj1 (init_fails_without_sx127x (boot (fun _ => 0xFF)) AU915 Hv)).
Defined.

Lemma after_init_regs band c1 c2 x :
  regs c1 = regs c2 -> regs (after_init band c1) x = regs (after_init band c2) x.
Proof.
  intros E. unfold after_init.
  cbv beta iota zeta delta [regs bus_write bus_read Z.eqb Pos.eqb
       REG_FIFO REG_OP_MODE REG_FRF_MSB REG_FRF_MID REG_FRF_LSB REG_PA_CONFIG
       REG_LNA REG_FIFO_ADDR_PTR REG_FIFO_TX_BASE_ADDR REG_FIFO_RX_BASE_ADDR
       REG_FIFO_RX_CURRENT_ADDR REG_IRQ_FLAGS REG_RX_NB_BYTES REG_PKT_SNR_VALUE
       REG_PKT_RSSI_VALUE REG_RSSI_VALUE REG_MODEM_CONFIG_1 REG_MODEM_CONFIG_2
       REG_PREAMBLE_MSB REG_PREAMBLE_LSB REG_PAYLOAD_LENGTH REG_MODEM_CONFIG_3
       REG_SYNC_WORD REG_DIO_MAPPING_1 REG_VERSION REG_PA_DAC].
  destruct c1 as [r1 f1 p1 h1 a1], c2 as [r2 f2 p2 h2 a2]. cbn [regs] in E. subst r2.
  reflexivity.
Qed.

(** X17. [init] on a chip that identifies as 0x12, from any state: the
    device ends initialized and Receiving with DIO0 on receive-complete and
    the flags cleared; the modem registers hold the defaults (bandwidth
    125 kHz, CR 4/5, explicit header: 0x72; SF7 with CRC on: 0x74; AGC on,
    LDRO off: 0x04), the sync word is 0x34, the preamble 8 symbols, the
    FIFO bases and pointer 0, PA_CONFIG 0x8F with PA_DAC 0x84, and the LNA
    register is its reset value with the two boost bits set; the deferred
    handler and the pulse handler are bound once more. *)
Theorem init_establishes_defaults (w : World) (band : Band) :
  byte (por (chip w) REG_VERSION) = 0x12 ->
  let w' := exec (init band) w in
  _inited (globals w') = true /\
  radioState w' = Some Receiving /\
  dio0_mapping w' = DIO0_RX_DONE /\
  reg w' REG_IRQ_FLAGS = 0 /\
  map (reg w') [REG_MODEM_CONFIG_1; REG_MODEM_CONFIG_2; REG_MODEM_CONFIG_3;
                REG_SYNC_WORD; REG_PREAMBLE_MSB; REG_PREAMBLE_LSB;
                REG_FIFO_TX_BASE_ADDR; REG_FIFO_RX_BASE_ADDR; REG_FIFO_ADDR_PTR;
                REG_PA_CONFIG; REG_PA_DAC]
  = [0x72; 0x74; 0x04; 0x34; 0x00; 0x08; 0x00; 0x00; 0x00; 0x8F; 0x84] /\
  reg w' REG_LNA = Z.lor (byte (por (chip w) REG_LNA)) 0x03 /\
  bindings (runtime w') = bindings (runtime w) ++ [(LORA_EVENT_ID, INT_DIO0, CbDio0)] /\
  pulses (runtime w') = pulses (runtime w) ++ [(_dio0, High)] /\
  List.length (log w') = (List.length (log w) + 26)%nat.
Proof.
  intros Hv w'. subst w'. rewrite (init_run band w Hv).
  unfold radioState, dio0_mapping, reg, log. project.
  assert (D : forall c x v,
            (forall rg, byte (regs (after_init band (mkChip rg rg rg SpiIdle [])) x) = v) ->
            byte (regs (after_init band c) x) = v).
  { intros c x v H. rewrite <- (H (regs c)). apply (f_equal byte).
    apply after_init_regs. reflexivity. }
  split; [reflexivity|].
  assert (V : forall x v,
            (forall rg, byte (regs (after_init EU868 (mkChip rg rg rg SpiIdle [])) x) = v) ->
            (forall rg, byte (regs (after_init AU915 (mkChip rg rg rg SpiIdle [])) x) = v) ->
            byte (regs (after_init band (after_reset (chip w))) x) = v).
  { intros x v H1 H2. apply D. destruct band; assumption. }
  split; [rewrite (V REG_OP_MODE 0x85); [reflexivity | |]; intros; vm_compute; reflexivity|].
  split; [rewrite (V REG_DIO_MAPPING_1 0); [reflexivity | |]; intros; vm_compute; reflexivity|].
  split; [unfold after_init; cbv zeta; read_regs; apply flags_cleared|].
  split.
  { cbn [map]. repeat (apply f_equal2; [apply V; intros; vm_compute; reflexivity|]).
    reflexivity. }
  split.
  { unfold after_init. cbv zeta. read_regs. cbn [after_reset regs].
    pose (P := fun b => byte (byte (b .| 0x03)) =? Z.lor b 0x03).
    assert (C : P (byte (por (chip w) REG_LNA)) = true)
      by (apply byte_forall; vm_compute; reflexivity).
    unfold P in C. apply Z.eqb_eq in C. exact C. }
  split; [reflexivity|]. split; [reflexivity|].
  unfold after_init. cbv zeta. read_log. rewrite length_app. reflexivity.
Qed.

Lemma init_establishes_defaults_witness :
  radioState (exec (init AU915) (exec (sendBuffer [7]) ready)) = Some Receiving.
Proof.
  assert (Hv : byte (por (chip (exec (sendBuffer [7]) ready)) REG_VERSION) = 0x12)
    by (vm_compute; reflexivity).
  exact (proj1 (proj2 (init_establishes_defaults (exec (sendBuffer [7]) ready) AU915 Hv))).
Defined.

(** X18. A repeated [init] restores the registers but not the driver's
    cached modem parameters.  The register file after a successful [init]
    depends only on the chip's reset values and the band, not on anything
    configured before, while [_sf], [_bwCode], the receive handler and the
    stored metrics are kept.  So after [setSpreadingFactor sf], a second
    [init] and [setBandwidth bw], modem-config-2 holds SF7 again, but the
    LDRO bit is computed from the earlier [sf]. *)
Theorem reinit_keeps_cached_parameters (w : World) (band : Band) (sf bw : Z) :
  byte (por (chip w) REG_VERSION) = 0x12 ->
  _inited (globals w) = true ->
  7 <= sf <= 12 ->
  0 <= bw <= 9 ->
  let w1 := exec (init band) w in
  let w2 := exec (init band) (exec (setSpreadingFactor sf) w) in
  let w3 := exec (setBandwidth bw) w2 in
  (forall x, reg w2 x = reg w1 x) /\
  globals w1 = globals w /\
  _sf (globals w2) = sf /\
  Z.shiftr (reg w2 REG_MODEM_CONFIG_2) 4 = SF7 /\
  Z.shiftr (reg w3 REG_MODEM_CONFIG_2) 4 = SF7 /\
  Z.testbit (reg w3 REG_MODEM_CONFIG_3) 3 = needLdro sf bw.
Proof.
  intros Hv Hi Hsf Hbw w1 w2 w3.
  assert (E1 : w1 = exec (init band) w) by reflexivity.
  assert (E2 : w2 = exec (init band) (exec (setSpreadingFactor sf) w)) by reflexivity.
  assert (E3 : w3 = exec (setBandwidth bw) w2) by reflexivity.
  clearbody w1 w2 w3.
  rewrite (init_run band w Hv) in E1.
  rewrite (setSpreadingFactor_run sf w Hi) in E2. cbv zeta in E2.
  rewrite init_run in E2 by (cbn [chip]; rewrite !por_bus_write, !por_bus_read; exact Hv).
  cbn [chip globals runtime] in E2.
  rewrite E2 in E3. rewrite setBandwidth_run in E3 by reflexivity. cbv zeta in E3.
  cbn [chip globals runtime] in E3. project_in E3.
  subst w1 w2 w3. unfold reg. project.
  split.
  { intros x. apply (f_equal byte). apply after_init_regs. reflexivity. }
  split.
  { destruct (globals w) as [i h r s f b]. cbn in Hi. subst i. reflexivity. }
  split; [reflexivity|].
  assert (M2 : forall c, byte (regs (after_init band c) REG_MODEM_CONFIG_2) = 0x74).
  { intros c. unfold after_init. cbv zeta. read_regs. reflexivity. }
  assert (M3 : forall c, byte (regs (after_init band c) REG_MODEM_CONFIG_3) = 0x04).
  { intros c. unfold after_init. cbv zeta. read_regs. reflexivity. }
  split; [rewrite M2; reflexivity|].
  split; [read_regs; rewrite M2; reflexivity|].
  read_regs. rewrite M3.
  destruct (needLdro sf bw); reflexivity.
Qed.

Lemma reinit_keeps_cached_parameters_witness :
  let w3 := exec (setBandwidth BW125k)
              (exec (init EU868) (exec (setSpreadingFactor SF12) ready)) in
  Z.shiftr (reg w3 REG_MODEM_CONFIG_2) 4 = SF7 /\
  Z.testbit (reg w3 REG_MODEM_CONFIG_3) 3 = needLdro SF12 BW125k.
Proof.
  assert (Hv : byte (por (chip ready) REG_VERSION) = 0x12) by (vm_compute; reflexivity).
  assert (Hi : _inited (globals ready) = true) by reflexivity.
  assert (Hsf : 7 <= SF12 <= 12) by (unfold SF12; lia).
  assert (Hbw : 0 <= BW125k <= 9) by (unfold BW125k; lia).
  destruct (reinit_keeps_cached_parameters ready EU868 SF12 BW125k Hv Hi Hsf Hbw)
    as (_ & _ & _ & _ & A & B).
  split; [exact A | exact B].
Defined.

(** ** Invariants of the running driver *)

Lemma takes_packet_stores e w :
  takes_packet e w = true ->
  _lastRssi (globals (fire e w)) = reg w REG_PKT_RSSI_VALUE - 157 /\
  _lastSnrRaw (globals (fire e w)) = reg w REG_PKT_SNR_VALUE.
Proof.
  destruct e; cbn [takes_packet fire]; try discriminate.
  intros T. apply andb_true_iff in T. destruct T as [B6 B5].
  apply negb_true_iff in B5.
  unfold exec. rewrite (rx_path_run w B6 B5).
  change (reg w REG_IRQ_FLAGS) with (byte (regs (chip w) REG_IRQ_FLAGS)).
  rewrite dio0_txDone_run.
  assert (G : _lastRssi (globals (after_rx w)) = reg w REG_PKT_RSSI_VALUE - 157 /\
              _lastSnrRaw (globals (after_rx w)) = reg w REG_PKT_SNR_VALUE).
  { unfold after_rx, reg. cbv zeta. cbn [globals]. project. split.
    - rewrite regs_bus_burst_read by reg_neq. read_regs. reflexivity.
    - rewrite regs_bus_read, regs_bus_burst_read by reg_neq. read_regs. reflexivity. }
  destruct (Z.testbit (byte (regs (chip w) REG_IRQ_FLAGS)) 3); exact G.
Qed.

(** X19. In every state the driver can reach from power-up, whatever the
    radio does to its registers, the stored raw SNR is a byte and the
    stored RSSI lies between -157 and 98; so [receivedSnr] always returns a
    value between -32 and 31.75 dB. *)
Theorem stored_metrics_stay_in_range (reset_values : Z -> Z) (w : World) :
  reachable (boot reset_values) w ->
  0 <= _lastSnrRaw (globals w) < 256 /\
  -157 <= eval receivedSignalStrength w <= 98 /\
  (- (32 # 1) <= eval receivedSnr w <= 127 # 4)%Q.
Proof.
  intros Hr.
  assert (Inv : 0 <= _lastSnrRaw (globals w) < 256 /\ -157 <= _lastRssi (globals w) <= 98).
  { induction Hr as [|e w Hr [IH1 IH2] Hen].
    - cbn. lia.
    - destruct (takes_packet e w) eqn:T.
      + destruct (takes_packet_stores e w T) as [R S]. rewrite R, S. unfold reg.
        pose proof (byte_range (regs (chip w) REG_PKT_RSSI_VALUE)).
        pose proof (byte_range (regs (chip w) REG_PKT_SNR_VALUE)). lia.
      + destruct (fire_keeps_metrics e w T) as [R S]. rewrite R, S. lia. }
  destruct Inv as [S R]. split; [exact S|]. split; [exact R|].
  unfold eval, receivedSnr, bind, read_global, ret. cbn [fst].
  destruct (127 <? _lastSnrRaw (globals w)) eqn:C.
  - apply Z.ltb_lt in C. unfold Qle. cbn [Qnum Qden Qopp]. lia.
  - apply Z.ltb_ge in C. unfold Qle. cbn [Qnum Qden Qopp]. lia.
Qed.

Lemma stored_metrics_stay_in_range_witness :
  let w1 := fire (EvCall (CallInit EU868)) (boot sx1276_por) in
  let w2 := fire (EvRadio (upd (upd (regs (chip w1)) REG_IRQ_FLAGS IRQ_RX_DONE)
                               REG_PKT_SNR_VALUE 0x80)
                          (fifo (chip w1))) w1 in
  let w3 := fire EvDio0 w2 in
  _lastSnrRaw (globals w3) = 0x80 /\
  (- (32 # 1) <= eval receivedSnr w3 <= 127 # 4)%Q.
Proof.
  intros w1 w2 w3.
  assert (R1 : reachable (boot sx1276_por) w1)
    by (exact (reach_step _ (EvCall (CallInit EU868)) _ (reach_start _) I)).
  assert (R2 : reachable (boot sx1276_por) w2)
    by (exact (reach_step _ (EvRadio (upd (upd (regs (chip w1)) REG_IRQ_FLAGS IRQ_RX_DONE)
                                          REG_PKT_SNR_VALUE 0x80)
                                     (fifo (chip w1))) w1 R1 (conj eq_refl eq_refl))).
  assert (R3 : reachable (boot sx1276_por) w3).
  { refine (reach_step _ EvDio0 w2 R2 _). cbn [enabled]. vm_compute. left. reflexivity. }
  split; [vm_compute; reflexivity|].
  exact (proj2 (proj2 (stored_metrics_stay_in_range sx1276_por w3 R3))).
Defined.



Lemma in_cycle_frame w w' :
  same_mode_and_routing w w' -> in_cycle w -> in_cycle w'.
Proof.
  intros (Hi & Ho & Hd) C. unfold in_cycle, radioState, dio0_mapping in *.
  rewrite Hi, Ho, Hd. exact C.
Qed.

Lemma in_cycle_receiving w :
  reg w REG_OP_MODE = Z.lor MODE_LONG_RANGE MODE_RX_CONTINUOUS ->
  dio0_mapping w = DIO0_RX_DONE -> in_cycle w.
Proof.
  intros Ho Hd Hi. left. unfold radioState. rewrite Hi, Ho. split; [reflexivity | exact Hd].
Qed.

Lemma in_cycle_transmitting w :
  reg w REG_OP_MODE = Z.lor MODE_LONG_RANGE MODE_TX ->
  dio0_mapping w = DIO0_TX_DONE -> in_cycle w.
Proof.
  intros Ho Hd Hi. right. unfold radioState. rewrite Hi, Ho. split; [reflexivity | exact Hd].
Qed.

Lemma fire_keeps_cycle e w : enabled e w -> in_cycle w -> in_cycle (fire e w).
Proof.
  intros Hen Hok.
  destruct e as [c | rg ff | |]; cbn [fire enabled] in *.
  - destruct c;
      try (match goal with |- context [call ?c w] =>
             destruct (setter_frame c w I) as [F _] end;
           exact (in_cycle_frame _ _ F Hok)).
    + cbn [call].
      destruct (Z.eq_dec (byte (por (chip w) REG_VERSION)) 0x12) as [Hv | Hv].
      * destruct (init_success band w Hv) as (_ & _ & _ & O & D & _).
        apply in_cycle_receiving; [exact O|]. unfold dio0_mapping. rewrite D. reflexivity.
      * rewrite (init_failure band w Hv). intros Hi. discriminate Hi.
    + cbn [call]. rewrite sendString_is_sendBuffer.
      destruct (_inited (globals w)) eqn:Hi.
      * destruct (sendBuffer_effect (control.createBufferFromUTF8 value) w Hi)
          as (_ & _ & _ & O & D).
        apply in_cycle_transmitting; assumption.
      * unfold exec, sendBuffer, bind, read_global. rewrite Hi. exact Hok.
    + cbn [call].
      destruct (_inited (globals w)) eqn:Hi.
      * destruct (sendBuffer_effect buf w Hi) as (_ & _ & _ & O & D).
        apply in_cycle_transmitting; assumption.
      * unfold exec, sendBuffer, bind, read_global. rewrite Hi. exact Hok.
  - destruct Hen as [Ho Hd].
    apply (in_cycle_frame w); [|exact Hok].
    unfold same_mode_and_routing, reg, radio_update. cbn [globals chip regs].
    rewrite Ho, Hd. repeat split; reflexivity.
  - apply (in_cycle_frame w); [|exact Hok]. repeat split; reflexivity.
  - unfold exec.
    destruct (dio0_event_cases w)
      as [(_ & _ & E) | (W & _ & E & Hi & Ho & Hd & _)].
    + rewrite E. cbn [snd].
      apply (in_cycle_frame w); [|exact Hok].
      unfold same_mode_and_routing, reg. project. repeat split; read_regs; reflexivity.
    + assert (F : same_mode_and_routing w W).
      { unfold same_mode_and_routing, reg. rewrite Hi, Ho, Hd. repeat split; reflexivity. }
      rewrite E.
      change (reg w REG_IRQ_FLAGS) with (byte (regs (chip w) REG_IRQ_FLAGS)).
      rewrite dio0_txDone_run.
      destruct (Z.testbit (byte (regs (chip w) REG_IRQ_FLAGS)) 3); cbn [snd].
      * destruct (after_txDone_regs (chip W)) as (D & O & _).
        apply in_cycle_receiving; [exact O | exact D].
      * exact (in_cycle_frame _ _ F Hok).
Qed.

(** X20. Once initialized, the driver is always in one of two states: in
    every state reachable from power-up (for any chip, whatever the radio
    does to its other registers) in which [_inited] holds, the device is
    either Receiving with DIO0 on receive-complete or Transmitting with
    DIO0 on transmit-complete.  Sleep and Standby occur only inside [init]
    and [sendBuffer]. *)
Theorem initialized_device_receives_or_transmits (reset_values : Z -> Z) (w : World) :
  reachable (boot reset_values) w ->
  _inited (globals w) = true ->
  (radioState w = Some Receiving /\ dio0_mapping w = DIO0_RX_DONE) \/
  (radioState w = Some Transmitting /\ dio0_mapping w = DIO0_TX_DONE).
Proof.
  intros Hr. change (in_cycle w).
  induction Hr as [|e w Hr IH Hen].
  - intros Hi. discriminate Hi.
  - apply fire_keeps_cycle; assumption.
Qed.

Lemma initialized_device_receives_or_transmits_witness :
  let w1 := fire (EvCall (CallInit EU868)) (boot sx1276_por) in
  let w2 := fire (EvCall (CallSendString "Hello!")) w1 in
  (radioState w2 = Some Receiving /\ dio0_mapping w2 = DIO0_RX_DONE) \/
  (radioState w2 = Some Transmitting /\ dio0_mapping w2 = DIO0_TX_DONE).
Proof.
  intros w1 w2.
  assert (R1 : reachable (boot sx1276_por) w1)
    by (exact (reach_step _ (EvCall (CallInit EU868)) _ (reach_start _) I)).
  assert (R2 : reachable (boot sx1276_por) w2)
    by (exact (reach_step _ (EvCall (CallSendString "Hello!")) w1 R1 I)).
  assert (Hi : _inited (globals w2) = true) by (vm_compute; reflexivity).
  exact (initialized_device_receives_or_transmits sx1276_por w2 R2 Hi).
Defined.

Lemma fire_keeps_bus_idle e w : bus_idle w -> bus_idle (fire e w).
Proof.
  unfold bus_idle. intros Hok.
  destruct e as [c | rg ff | |]; cbn [fire].
  - destruct c; cbn [call]; try exact Hok.
    + destruct (Z.eq_dec (byte (por (chip w) REG_VERSION)) 0x12) as [Hv | Hv].
      * rewrite (init_run band w Hv). reflexivity.
      * rewrite (init_failure band w Hv). reflexivity.
    + rewrite sendString_is_sendBuffer.
      destruct (_inited (globals w)) eqn:Hi.
      * rewrite (sendBuffer_run _ w Hi). reflexivity.
      * unfold exec, sendBuffer, bind, read_global. rewrite Hi. exact Hok.
    + destruct (_inited (globals w)) eqn:Hi.
      * rewrite (sendBuffer_run _ w Hi). reflexivity.
      * unfold exec, sendBuffer, bind, read_global. rewrite Hi. exact Hok.
    + unfold exec, channelRssi, bind, read_global.
      destruct (_inited (globals w)) eqn:Hi; cbn [negb].
      * rewrite readReg_run by addr_ok. reflexivity.
      * exact Hok.
    + destruct (_inited (globals w)) eqn:Hi.
      * rewrite (setTxPower_run dBm w Hi). destruct (dBm =? 20); reflexivity.
      * unfold exec, setTxPower, bind, read_global. rewrite Hi. exact Hok.
    + destruct (_inited (globals w)) eqn:Hi.
      * rewrite (setSpreadingFactor_run sf w Hi). reflexivity.
      * unfold exec, setSpreadingFactor, bind, read_global. rewrite Hi. exact Hok.
    + destruct (_inited (globals w)) eqn:Hi.
      * rewrite (setBandwidth_run bw w Hi). reflexivity.
      * unfold exec, setBandwidth, bind, read_global. rewrite Hi. exact Hok.
    + destruct (_inited (globals w)) eqn:Hi.
      * rewrite (setCodingRate_run cr w Hi). reflexivity.
      * unfold exec, setCodingRate, bind, read_global. rewrite Hi. exact Hok.
    + destruct (_inited (globals w)) eqn:Hi.
      * rewrite (setSyncWord_run word w Hi). reflexivity.
      * unfold exec, setSyncWord, bind, read_global. rewrite Hi. exact Hok.
  - exact Hok.
  - exact Hok.
  - destruct (Z.testbit (reg w REG_IRQ_FLAGS) 6) eqn:B6.
    + destruct (Z.testbit (reg w REG_IRQ_FLAGS) 5) eqn:B5.
      * rewrite (crc_branch_run w B6 B5). reflexivity.
      * unfold exec. rewrite (rx_path_run w B6 B5).
        change (reg w REG_IRQ_FLAGS) with (byte (regs (chip w) REG_IRQ_FLAGS)).
        rewrite dio0_txDone_run.
        destruct (Z.testbit (byte (regs (chip w) REG_IRQ_FLAGS)) 3); reflexivity.
    + unfold exec.
      destruct (dio0_event_cases w)
        as [(B & _) | (W & _ & E & _ & _ & _ & _ & _ & _ & _ & EW & _)].
      * cbv zeta in B. congruence.
      * rewrite E, (EW B6).
        change (reg w REG_IRQ_FLAGS) with (byte (regs (chip w) REG_IRQ_FLAGS)).
        rewrite dio0_txDone_run.
        destruct (Z.testbit (byte (regs (chip w) REG_IRQ_FLAGS)) 3); reflexivity.
Qed.

(** X21. Every driver operation leaves the chip deselected: in every
    state reachable from power-up (driver calls, radio activity, DIO0
    pulses and handler runs, on any chip) no SPI frame is left open. *)
Theorem chip_is_deselected_between_operations (reset_values : Z -> Z) (w : World) :
  reachable (boot reset_values) w -> phase (chip w) = SpiIdle.
Proof.
  intros Hr. change (bus_idle w).
  induction Hr as [|e w Hr IH Hen]; [reflexivity|].
  apply fire_keeps_bus_idle. exact IH.
Qed.

Lemma chip_is_deselected_between_operations_witness :
  let w1 := fire (EvCall (CallInit EU868)) (boot sx1276_por) in
  let w2 := fire (EvCall (CallSendBuffer [1; 2; 3])) w1 in
  phase (chip w2) = SpiIdle.
Proof.
  intros w1 w2.
  assert (R1 : reachable (boot sx1276_por) w1)
    by (exact (reach_step _ (EvCall (CallInit EU868)) _ (reach_start _) I)).
  assert (R2 : reachable (boot sx1276_por) w2)
    by (exact (reach_step _ (EvCall (CallSendBuffer [1; 2; 3])) w1 R1 I)).
  exact (chip_is_deselected_between_operations sx1276_por w2 R2).
Defined.

Lemma radio_receives_delivers (rx : World) (payload : list Z) (rssi snr : Z) h :
  _rxHandler (globals rx) = Some h ->
  (List.length payload < 256)%nat ->
  spawned (runtime (exec dio0_event (radio_receives payload rssi snr rx))) =
  spawned (runtime rx) ++ [CallRxHandler (Buffer_toString payload)].
Proof.
  intros Hh Hlen.
  set (W := radio_receives payload rssi snr rx).
  assert (E : exec dio0_event W = after_rx W).
  { unfold exec. rewrite (rx_path_run W eq_refl eq_refl).
    change (reg W REG_IRQ_FLAGS) with (byte IRQ_RX_DONE).
    rewrite dio0_txDone_run. reflexivity. }
  rewrite E, after_rx_spawned.
  change (_rxHandler (globals W)) with (_rxHandler (globals rx)). rewrite Hh.
  change (runtime W) with (runtime rx). do 3 f_equal.
  change (reg W REG_FIFO_RX_CURRENT_ADDR) with 0.
  change (reg W REG_RX_NB_BYTES) with (byte (Z.of_nat (List.length payload))).
  rewrite byte_of_small_nat by exact Hlen. rewrite Nat2Z.id.
  change (fifo (chip W)) with (fun a => nth (Z.to_nat a) payload 0).
  rewrite window_of_list by lia. apply Buffer_toString_bytes.
Qed.

(** X22. A receive handler may be registered before [init]:
    [onReceivedString] has no initialization guard, and a successful [init]
    (also a repeated one) keeps the registered handler, so the first packet
    of fewer than 256 bytes that the radio presents afterwards is handed to
    it, decoded from the bytes of the packet, and nothing else is
    spawned. *)
Theorem handler_registered_before_init_is_kept
    (w : World) (h : HandlerId) (band : Band) (payload : list Z) (rssi snr : Z) :
  byte (por (chip w) REG_VERSION) = 0x12 ->
  (List.length payload < 256)%nat ->
  let w1 := exec (init band) (exec (onReceivedString h) w) in
  let got := exec dio0_event (radio_receives payload rssi snr w1) in
  _rxHandler (globals w1) = Some h /\
  spawned (runtime got) =
  spawned (runtime w) ++ [CallRxHandler (Buffer_toString payload)].
Proof.
  intros Hv Hlen w1 got.
  assert (E1 : _rxHandler (globals w1) = Some h /\
               spawned (runtime w1) = spawned (runtime w)).
  { subst w1. rewrite (init_run band (exec (onReceivedString h) w) Hv).
    split; reflexivity. }
  destruct E1 as [G S]. split; [exact G|].
  subst got. clearbody w1.
  rewrite (radio_receives_delivers w1 payload rssi snr h G Hlen), S. reflexivity.
Qed.

Lemma handler_registered_before_init_is_kept_witness :
  let w1 := exec (init EU868) (exec (onReceivedString 1%nat) (boot sx1276_por)) in
  let got := exec dio0_event (radio_receives [104; 105] 100 8 w1) in
  _rxHandler (globals w1) = Some 1%nat /\
  spawned (runtime got) =
  spawned (runtime (boot sx1276_por)) ++ [CallRxHandler (Buffer_toString [104; 105])].
Proof.
  assert (Hv : byte (por (chip (boot sx1276_por)) REG_VERSION) = 0x12) by reflexivity.
  assert (Hlen : (List.length [104; 105] < 256)%nat) by (cbn; lia).
  exact (handler_registered_before_init_is_kept (boot sx1276_por) 1%nat EU868
           [104; 105] 100 8 Hv Hlen).
Defined.
